(** * Mosa Tea demand forecasting: anonymisation codebooks and the
      date-keyed revenue / weather pipeline

    A shallow embedding of [src/data_cleansing.py],
    [src/make_daily_revenue_weather_v1.py] and
    [src/summarize_revenue_weather.py].

    Conventions of the embedding.
    - A pandas column is a [list cell]; a DataFrame read by [pd.read_csv] is a
      list of labelled columns, in column order ([frame]).  Labels may repeat
      after a rename, as in pandas.
    - Python [str] is [string]; comparison is bytewise, which on UTF-8 text is
      the code-point order Python uses.
    - A float64 value is written as an exact rational ([Qc]); NaN / NaT /
      pd.NA are [None] (or the cell [NA]).  The rationals are exact where
      float64 rounds, so sums and means are used below only as values: no
      statement rests on a law of rational arithmetic (regrouping a sum,
      bounding a mean).  Where rounding decides a statement, [Float64]
      carries the same aggregation on binary64 values.
    - [pd.to_datetime] and [pd.to_numeric] belong to pandas, not to this
      repository: they are parameters of the development.
    - Exceptions are values of [exn]; [print] appends to a log. *)

From Stdlib Require Import List String Ascii Bool Arith ZArith Lia.
From Stdlib Require Import Permutation Sorting.Sorted.
From Stdlib Require Import QArith Qcanon.
From Stdlib Require Import DecimalString.
From Stdlib Require Decimal DecimalFacts DecimalNat.
From Stdlib Require Import PrimFloat.
From Stdlib Require SpecFloat FloatOps.
Import ListNotations.

Close Scope Qc_scope.
Close Scope Q_scope.
Local Open Scope nat_scope.
Local Open Scope string_scope.
Local Open Scope list_scope.

(* ===================================================================== *)
(** * Python built-ins used by the scripts *)
(* ===================================================================== *)

Module Py.

(** [str(n)] for a non-negative [int]. *)
Definition str_nat (n : nat) : string :=
  NilEmpty.string_of_uint (Nat.to_uint n).

(** [str(z)] for an [int]. *)
Definition str_Z (z : Z) : string :=
  NilEmpty.string_of_int (Z.to_int z).

Fixpoint zeros (n : nat) : string :=
  match n with
  | O => EmptyString
  | S k => String "0" (zeros k)
  end.

Definition is_sign (c : ascii) : bool :=
  (Ascii.eqb c "+" || Ascii.eqb c "-")%bool.

(** [s.zfill(width)]: left padding with ['0'], a leading sign stays in
    front; a string already [width] long is returned unchanged. *)
Definition zfill (width : nat) (s : string) : string :=
  let n := String.length s in
  if (width <=? n)%nat then s
  else
    let fill := zeros (width - n) in
    match s with
    | String c r => if is_sign c then String c (fill ++ r) else fill ++ s
    | EmptyString => fill
    end.

Definition lower_char (c : ascii) : ascii :=
  let n := nat_of_ascii c in
  if ((65 <=? n)%nat && (n <=? 90)%nat)%bool then ascii_of_nat (n + 32) else c.

Definition upper_char (c : ascii) : ascii :=
  let n := nat_of_ascii c in
  if ((97 <=? n)%nat && (n <=? 122)%nat)%bool then ascii_of_nat (n - 32) else c.

Fixpoint map_chars (f : ascii -> ascii) (s : string) : string :=
  match s with
  | EmptyString => EmptyString
  | String c r => String (f c) (map_chars f r)
  end.

(** [s.lower()] and [s.upper()] on ASCII letters (other bytes unchanged). *)
Definition lower : string -> string := map_chars lower_char.
Definition upper : string -> string := map_chars upper_char.

(** Python's ASCII whitespace: space, \t, \n, \v, \f, \r and the
    separators 0x1c..0x1f. *)
Definition is_space (c : ascii) : bool :=
  let n := nat_of_ascii c in
  ((n =? 32)%nat
   || ((9 <=? n)%nat && (n <=? 13)%nat)
   || ((28 <=? n)%nat && (n <=? 31)%nat))%bool.

Fixpoint lstrip (s : string) : string :=
  match s with
  | String c r => if is_space c then lstrip r else s
  | EmptyString => EmptyString
  end.

Fixpoint rstrip (s : string) : string :=
  match s with
  | EmptyString => EmptyString
  | String c r =>
      match rstrip r with
      | EmptyString => if is_space c then EmptyString else String c EmptyString
      | r' => String c r'
      end
  end.

(** [s.strip()] *)
Definition strip (s : string) : string := rstrip (lstrip s).

(** [sep.join(parts)] *)
Definition join (sep : string) (parts : list string) : string :=
  String.concat sep parts.

(** [enumerate(l)] *)
Definition enumerate {A : Type} (l : list A) : list (nat * A) :=
  combine (seq 0 (List.length l)) l.

(** The line feed written as backslash-n in the sources. *)
Definition nl : string := String (ascii_of_nat 10) EmptyString.

(** [sorted(l, key=key)]: a stable sort, here by insertion.  [leb] is the
    order of the keys. *)
Section Sorted.
Context {A K : Type}.
Variable key : A -> K.
Variable leb : K -> K -> bool.

Fixpoint insert (x : A) (l : list A) : list A :=
  match l with
  | [] => [x]
  | y :: r => if leb (key x) (key y) then x :: l else y :: insert x r
  end.

Definition sorted (l : list A) : list A := fold_right insert [] l.
End Sorted.

(** An insertion-ordered [dict] with [str] keys: the list of its items. *)
Module Dict.
Definition t (V : Type) : Type := list (string * V).

Fixpoint get {V} (k : string) (d : t V) : option V :=
  match d with
  | [] => None
  | (k', v) :: r => if String.eqb k' k then Some v else get k r
  end.

Definition mem {V} (k : string) (d : t V) : bool :=
  match get k d with Some _ => true | None => false end.

(** [d[k] = v]: overwrite in place, or append a new key. *)
Fixpoint set {V} (k : string) (v : V) (d : t V) : t V :=
  match d with
  | [] => [(k, v)]
  | (k', v') :: r =>
      if String.eqb k' k then (k', v) :: r else (k', v') :: set k v r
  end.

(** [{k: v for k, v in items}] *)
Definition of_items {V} (items : list (string * V)) : t V :=
  fold_left (fun d kv => set (fst kv) (snd kv) d) items [].

Definition keys {V} (d : t V) : list string := map fst d.
Definition items {V} (d : t V) : list (string * V) := d.
End Dict.

End Py.

(* ===================================================================== *)
(** * Exceptions and the output log *)
(* ===================================================================== *)

(** The exceptions the scripts raise themselves, and [LibraryError] for an
    exception raised inside pandas when a label that must denote one column
    denotes several. *)
Inductive exn : Type :=
| ValueError (msg : string)
| KeyError (msg : string)
| FileNotFoundError (msg : string)
| LibraryError (msg : string).

(** A computation that either raises or returns. *)
Definition result (A : Type) : Type := (exn + A)%type.

Definition ret {A} (a : A) : result A := inr a.
Definition raise {A} (e : exn) : result A := inl e.

Definition bind {A B} (m : result A) (k : A -> result B) : result B :=
  match m with
  | inl e => inl e
  | inr a => k a
  end.

Notation "x <- m ;; k" := (bind m (fun x => k))
  (at level 61, m at next level, right associativity).

(** What [print] wrote, one entry per call, oldest first. *)
Definition log : Type := list string.

(* ===================================================================== *)
(** * pandas values *)
(* ===================================================================== *)

(** A cell of an untyped column as [read_csv] delivers it: missing, text,
    integer or boolean.  (Float cells are rendered by the platform's float
    formatting and are left out of the cell type.) *)
Inductive cell : Type :=
| NA
| Str (s : string)
| Int (z : Z)
| Boolean (b : bool).

Definition isna (c : cell) : bool :=
  match c with NA => true | _ => false end.

(** [series.dropna()] *)
Definition dropna (series : list cell) : list cell :=
  filter (fun c => negb (isna c)) series.

(** One element of [series.astype(str)]; a missing value becomes the text
    [nan]. *)
Definition astype_str (c : cell) : string :=
  match c with
  | NA => "nan"
  | Str s => s
  | Int z => Py.str_Z z
  | Boolean true => "True"
  | Boolean false => "False"
  end.

(** [series.unique()]: distinct values in order of first appearance. *)
Definition unique {A : Type} (eqb : A -> A -> bool) (l : list A) : list A :=
  fold_left
    (fun seen x => if existsb (eqb x) seen then seen else seen ++ [x])
    l [].

(** [series.duplicated()]: marks every value already seen further up. *)
Fixpoint duplicated_from {A : Type} (eqb : A -> A -> bool)
         (seen l : list A) : list bool :=
  match l with
  | [] => []
  | x :: r => existsb (eqb x) seen :: duplicated_from eqb (x :: seen) r
  end.

Definition duplicated {A : Type} (eqb : A -> A -> bool) (l : list A)
  : list bool := duplicated_from eqb [] l.

(** [series.any()] on a boolean column. *)
Definition any (l : list bool) : bool := existsb (fun b => b) l.

(** ** Numbers *)

(** A float64 value is written as a rational, [Qc], and the operations below
    are the exact ones: they stand for the float64 operations as values
    only, and no statement rests on their algebra (see [Float64] for the
    rounded sums). *)

Definition num_of_Z (z : Z) : Qc := Q2Qc (inject_Z z).

Definition num_sum (l : list Qc) : Qc := fold_left Qcplus l (num_of_Z 0).

(** The non-missing entries of a float column. *)
Definition present (l : list (option Qc)) : list Qc :=
  flat_map (fun o => match o with Some x => [x] | None => [] end) l.

(** [sum()] of a float column: missing entries are skipped. *)
Definition sum_skipna (l : list (option Qc)) : Qc := num_sum (present l).

(** [mean()] of a float column: missing entries are skipped, and a column
    with nothing left has a missing mean. *)
Definition mean_skipna (l : list (option Qc)) : option Qc :=
  match present l with
  | [] => None
  | xs => Some (Qcdiv (num_sum xs) (num_of_Z (Z.of_nat (List.length xs))))
  end.

(** [x > 0] on floats. *)
Definition num_gtb0 (x : Qc) : bool :=
  match Qccompare (num_of_Z 0) x with Lt => true | _ => false end.

(** ** Dates *)

Record date : Type := mkdate { year : Z; month : Z; day : Z }.

Definition date_compare (a b : date) : comparison :=
  match Z.compare (year a) (year b) with
  | Eq => match Z.compare (month a) (month b) with
          | Eq => Z.compare (day a) (day b)
          | c => c
          end
  | c => c
  end.

Definition date_eqb (a b : date) : bool :=
  match date_compare a b with Eq => true | _ => false end.

Definition date_leb (a b : date) : bool :=
  match date_compare a b with Gt => false | _ => true end.

Definition date_ltb (a b : date) : bool :=
  match date_compare a b with Lt => true | _ => false end.

(** A pandas [Timestamp]: a calendar date and the time of day. *)
Record timestamp : Type := mkts { ts_date : date; ts_nanos : Z }.

(** [.dt.date] on one entry: the time of day is discarded, NaT stays NaT. *)
Definition dt_date (t : option timestamp) : option date :=
  option_map ts_date t.

(** pandas' [dayofweek(y, m, d)] (tslibs/ccalendar), Monday = 0. *)
Definition sakamoto_arr : list Z := [0; 3; 2; 5; 0; 3; 5; 1; 4; 6; 2; 4]%Z.

Definition dayofweek (d : date) : Z :=
  let ym := (if month d <? 3 then year d - 1 else year d)%Z in
  let w := Z.rem (ym + Z.quot ym 4 - Z.quot ym 100 + Z.quot ym 400
                  + nth (Z.to_nat (month d - 1)) sakamoto_arr 0%Z + day d) 7 in
  Z.rem (w + 6) 7.

Definition DAYS_FULL : list string :=
  ["Monday"; "Tuesday"; "Wednesday"; "Thursday"; "Friday"; "Saturday"; "Sunday"].

(** [.dt.day_name()] *)
Definition day_name (d : date) : string :=
  nth (Z.to_nat (dayofweek d)) DAYS_FULL "".

(** ** Frames *)

(** A DataFrame of untyped columns. *)
Definition frame : Type := list (string * list cell).

(** [df.columns] *)
Definition columns (df : frame) : list string := map fst df.

(** [col in l] for a list of strings. *)
Definition str_in (col : string) (l : list string) : bool :=
  existsb (String.eqb col) l.

(** What a label denotes in a frame. *)
Inductive selection : Type :=
| NoColumn
| OneColumn (data : list cell)
| SeveralColumns (data : list (list cell)).

(** [df[col]] *)
Definition getitem (col : string) (df : frame) : selection :=
  match filter (fun c => String.eqb (fst c) col) df with
  | [] => NoColumn
  | [c] => OneColumn (snd c)
  | cs => SeveralColumns (map snd cs)
  end.

(** [df[col]] where the script goes on to use it as a Series. *)
Definition series (col : string) (df : frame) : result (list cell) :=
  match getitem col df with
  | OneColumn data => ret data
  | NoColumn => raise (KeyError col)
  | SeveralColumns _ => raise (LibraryError col)
  end.

(** [df[col] = data]: an existing label is overwritten where it stands, a
    new label is appended. *)
Definition setitem (col : string) (data : list cell) (df : frame) : frame :=
  if str_in col (columns df)
  then map (fun c => if String.eqb (fst c) col then (fst c, data) else c) df
  else df ++ [(col, data)].

(** [df.drop(columns=cols)]: every label must exist. *)
Definition drop (cols : list string) (df : frame) : result frame :=
  match filter (fun c => negb (str_in c (columns df))) cols with
  | [] => ret (filter (fun c => negb (str_in (fst c) cols)) df)
  | c :: _ => raise (KeyError c)
  end.

(** [df.rename(columns=renamed)] *)
Definition rename (renamed : Py.Dict.t string) (df : frame) : frame :=
  map (fun c => match Py.Dict.get (fst c) renamed with
                | Some target => (target, snd c)
                | None => c
                end) df.

(** [df[[l1, l2, ...]]]: for each label in turn, every column carrying it. *)
Definition select (labels : list string) (df : frame) : result frame :=
  match filter (fun l => negb (str_in l (columns df))) labels with
  | [] => ret (flat_map (fun l => filter (fun c => String.eqb (fst c) l) df)
                        labels)
  | l :: _ => raise (KeyError l)
  end.

(** [df.groupby(key)]: rows with a missing key are left out, the groups come
    in ascending key order, the rows of a group in their original order. *)
Section GroupBy.
Context {K V : Type}.
Variable eqb : K -> K -> bool.
Variable leb : K -> K -> bool.

Definition keyed (rows : list (option K * V)) : list (K * V) :=
  flat_map (fun r => match fst r with
                     | Some k => [(k, snd r)]
                     | None => []
                     end) rows.

Definition group_keys (rows : list (option K * V)) : list K :=
  Py.sorted (fun k => k) leb (unique eqb (map fst (keyed rows))).

Definition group (rows : list (option K * V)) (k : K) : list V :=
  map snd (filter (fun r => eqb (fst r) k) (keyed rows)).

Definition groupby (rows : list (option K * V)) : list (K * list V) :=
  map (fun k => (k, group rows k)) (group_keys rows).
End GroupBy.

(** A loop whose body may raise. *)
Fixpoint foldM {A S : Type} (body : S -> A -> result S) (l : list A) (s : S)
  : result S :=
  match l with
  | [] => ret s
  | x :: r => s' <- body s x ;; foldM body r s'
  end.

(* ===================================================================== *)
(** * data_cleansing.py *)
(* ===================================================================== *)

Module DataCleansing.

(** [dir / name] on [pathlib.Path]: an absolute right operand replaces the
    left one. *)
Definition path_join (dir name : string) : string :=
  match name with
  | String "/" _ => name
  | _ => (dir ++ "/" ++ name)%string
  end.

Definition clean_path : string :=
  "data/clean/orders-2025-10-01-2025-10-31_anonymized.csv".
Definition mapping_dir : string := "data/private".
Definition item_mapping_path : string :=
  path_join mapping_dir "item_name_mapping.csv".
Definition modifier_mapping_path : string :=
  path_join mapping_dir "item_modifier_mapping.csv".

Definition pii_columns : list string :=
  [ "Order Name";
    "Recipient Name";
    "Recipient Email";
    "Recipient Phone";
    "Recipient Address";
    "Recipient Address 2";
    "Recipient Postal Code";
    "Recipient City";
    "Recipient Region";
    "Recipient Country";
    "Fulfillment Notes" ].

(** source column, then (generated ID column, ID prefix) *)
Definition SENSITIVE_CATEGORICALS : list (string * (string * string)) :=
  [ ("Item Name", ("Item ID", "MTI"));
    ("Item Modifiers", ("Modifier ID", "MTM")) ].

(** [make_codebook(series, prefix)] *)
Definition make_codebook (series : list cell) (prefix : string)
  : Py.Dict.t string :=
  let values := unique String.eqb (map astype_str (dropna series)) in
  let values := Py.sorted (fun s => s) String.leb values in
  Py.Dict.of_items
    (map (fun iv =>
            (snd iv, (prefix ++ Py.zfill 4 (Py.str_nat (fst iv + 1)))%string))
         (Py.enumerate values)).

(** A mapping file as [save_mapping] writes it. *)
Record mapping_file : Type := mk_mapping_file
  { mf_path : string;
    mf_header : string * string;
    mf_rows : list (string * string) }.

Definition save_mapping (mapping : Py.Dict.t string) (out_path : string)
           (left_name right_name : string) : mapping_file :=
  {| mf_path := out_path;
     mf_header := (left_name, right_name);
     mf_rows := Py.Dict.items mapping |}.

(** The variables [main] updates: the frame being cleaned, the mapping
    files written so far and the printed lines. *)
Record state : Type := mk_state
  { df_clean : frame;
    saved : list mapping_file;
    out : log }.

(** One entry of [series.astype(str).map(codebook)] *)
Definition map_codebook (codebook : Py.Dict.t string) (c : cell) : cell :=
  match Py.Dict.get (astype_str c) codebook with
  | Some id => Str id
  | None => NA
  end.

Definition replace_space (s : string) : string :=
  Py.map_chars (fun c => if Ascii.eqb c " " then "_"%char else c) s.

(** [[col for col in pii_columns if col in df.columns]] *)
Definition cols_to_drop (df : frame) : list string :=
  filter (fun col => str_in col (columns df)) pii_columns.

(** [df.drop(columns=cols_to_drop)] *)
Definition remove_pii (df : frame) : result frame :=
  drop (cols_to_drop df) df.

Definition skip_notice (source_col : string) : string :=
  (Py.nl ++ "[Skip] Column not found for anonymization: " ++ source_col)
  %string.

(** The body of the loop over [SENSITIVE_CATEGORICALS]. *)
Definition anonymize_column (st : state)
           (entry : string * (string * string)) : result state :=
  let source_col := fst entry in
  let id_col := fst (snd entry) in
  let prefix := snd (snd entry) in
  if negb (str_in source_col (columns (df_clean st))) then
    ret {| df_clean := df_clean st;
           saved := saved st;
           out := out st ++ [skip_notice source_col] |}
  else
    data <- series source_col (df_clean st) ;;
    let codebook := make_codebook data prefix in
    let df1 := setitem id_col (map (map_codebook codebook) data)
                       (df_clean st) in
    let written :=
      if String.eqb source_col "Item Name" then
        (save_mapping codebook item_mapping_path "Item Name" id_col,
         (Py.nl ++ "Saved item mapping to: " ++ item_mapping_path)%string)
      else if String.eqb source_col "Item Modifiers" then
        (save_mapping codebook modifier_mapping_path "Item Modifiers" id_col,
         (Py.nl ++ "Saved modifier mapping to: "
          ++ modifier_mapping_path)%string)
      else
        let generic_map_path :=
          path_join mapping_dir
            (replace_space (Py.lower source_col) ++ "_mapping.csv")%string in
        (save_mapping codebook generic_map_path source_col id_col,
         (Py.nl ++ "Saved mapping to: " ++ generic_map_path)%string) in
    df2 <- drop [source_col] df1 ;;
    ret {| df_clean := df2;
           saved := saved st ++ [fst written];
           out := out st ++ [snd written] |}.

(** [main()], from the frame [pd.read_csv(raw_path)] returned to the frame
    written to [clean_path]. *)
Definition main (df : frame) : result state :=
  let out0 := "Columns in raw file:" :: columns df in
  df_clean0 <- remove_pii df ;;
  let out1 := out0 ++ (Py.nl ++ "Dropped PII columns:")%string
                   :: cols_to_drop df in
  st <- foldM anonymize_column SENSITIVE_CATEGORICALS
              {| df_clean := df_clean0; saved := []; out := out1 |} ;;
  ret {| df_clean := df_clean st;
         saved := saved st;
         out := out st
                ++ (Py.nl ++ "Columns AFTER cleaning + anonymization:")%string
                :: columns (df_clean st)
                ++ [(Py.nl ++ "Saved anonymized CSV to: "
                     ++ clean_path)%string] |}.

End DataCleansing.

(* ===================================================================== *)
(** * make_daily_revenue_weather_v1.py *)
(* ===================================================================== *)

Module RevenueWeather.

Definition ORDERS_PATH : string :=
  "data/clean/orders-2025-10-01-2025-10-31_anonymized.csv".
Definition WEATHER_PATH : string := "data/external/daily_weather.csv".
Definition RAW_WEATHER_PATH : string := "data/raw/rawweatherdata.csv".
Definition OUTPUT_PATH : string :=
  "data/analytics/daily_revenue_weather_v1.csv".

Definition WEATHER_COLUMN_ALIASES : list (string * list string) :=
  [ ("date", ["date"; "day"; "obs_date"]);
    ("temp", ["temp"; "temperature"; "temp_f"; "tavg"]);
    ("rain", ["rain"; "precip"; "precipitation"; "rainfall"; "prcp"]) ].

(** [{col.lower(): col for col in df.columns}] *)
Definition lower_cols (df : frame) : Py.Dict.t string :=
  Py.Dict.of_items (map (fun col => (Py.lower col, col)) (columns df)).

(** The inner loop: the first alias found among the lowercased labels. *)
Definition first_alias (lc : Py.Dict.t string) (aliases : list string)
  : option string :=
  find (fun alias => Py.Dict.mem alias lc) aliases.

(** The outer loop, filling [renamed]. *)
Definition renamed_of (lc : Py.Dict.t string) : Py.Dict.t string :=
  fold_left
    (fun renamed ta =>
       match first_alias lc (snd ta) with
       | Some alias =>
           match Py.Dict.get alias lc with
           | Some col => Py.Dict.set col (fst ta) renamed
           | None => renamed
           end
       | None => renamed
       end)
    WEATHER_COLUMN_ALIASES [].

Definition required : list string := ["date"; "temp"; "rain"].

Definition missing_message (missing : list string) : string :=
  ("Weather file missing required columns. "
   ++ "Expected columns like: " ++ Py.join ", " required ++ ". "
   ++ "Missing: " ++ Py.join ", " missing ++ ".")%string.

(** [normalize_weather_columns(df)] *)
Definition normalize_weather_columns (df : frame) : result frame :=
  let renamed := renamed_of (lower_cols df) in
  let df := rename renamed df in
  let missing := filter (fun col => negb (str_in col (columns df)))
                        required in
  match missing with
  | [] => select required df
  | _ => raise (ValueError (missing_message missing))
  end.

(** One day of weather. *)
Record weather_row : Type := mk_weather
  { w_date : date; w_temp : option Qc; w_rain : option Qc }.

(** One day of revenue. *)
Record daily_row : Type := mk_daily
  { d_date : date; d_revenue : Qc; d_weekday : Z; d_weekday_name : string }.

(** One row of the merged output. *)
Record merged_row : Type := mk_merged
  { m_date : date; m_revenue : Qc; m_weekday : Z; m_weekday_name : string;
    m_temp : option Qc; m_rain : option Qc }.

(** All entries of a column when none is missing. *)
Fixpoint all_present {A : Type} (l : list (option A)) : option (list A) :=
  match l with
  | [] => Some []
  | None :: _ => None
  | Some x :: r => option_map (cons x) (all_present r)
  end.

Definition zip_weather (ds : list date) (temps rains : list (option Qc))
  : list weather_row :=
  map (fun r => mk_weather (fst r) (fst (snd r)) (snd (snd r)))
      (combine ds (combine temps rains)).

(** [(a + b) / 2] on two float columns; a missing operand gives a missing
    result. *)
Definition half_sum (a b : list (option Qc)) : list (option Qc) :=
  map (fun p => match p with
                | (Some x, Some y) => Some (Qcdiv (Qcplus x y) (num_of_Z 2))
                | _ => None
                end) (combine a b).

(** [a.fillna(b)] *)
Definition fillna (a b : list (option Qc)) : list (option Qc) :=
  map (fun p => match fst p with
                | Some x => Some x
                | None => snd p
                end) (combine a b).

Definition date_warning (n : nat) : string :=
  ("WARNING: Missing weather for " ++ Py.str_nat n
   ++ " day(s). Check date alignment/timezone.")%string.

Definition no_weather_warning : string :=
  ("WARNING: Weather file not found at " ++ WEATHER_PATH
   ++ " and no raw weather file was available. Writing revenue-only output.")
  %string.

(** [daily.merge(weather, on=date, how=left)]: the left rows in their
    order, each once per matching right row, or once with missing weather
    when nothing matches. *)
Definition merge_left (daily : list daily_row) (weather : list weather_row)
  : list merged_row :=
  flat_map
    (fun d =>
       let with_weather t r :=
         mk_merged (d_date d) (d_revenue d) (d_weekday d) (d_weekday_name d)
                   t r in
       match filter (fun w => date_eqb (w_date w) (d_date d)) weather with
       | [] => [with_weather None None]
       | ws => map (fun w => with_weather (w_temp w) (w_rain w)) ws
       end) daily.

Definition is_none {A : Type} (o : option A) : bool :=
  match o with None => true | Some _ => false end.

(** The key of an order in [groupby([date, Order Total])]: missing when the
    date or the total is. *)
Definition order_key (r : option timestamp * option Qc) : option (date * Qc) :=
  match dt_date (fst r), snd r with
  | Some d, Some x => Some (d, x)
  | _, _ => None
  end.

Definition order_key_eqb (a b : date * Qc) : bool :=
  (date_eqb (fst a) (fst b) && Qc_eq_bool (snd a) (snd b))%bool.

Definition order_key_leb (a b : date * Qc) : bool :=
  match date_compare (fst a) (fst b) with
  | Lt => true
  | Gt => false
  | Eq => match Qccompare (snd a) (snd b) with Gt => false | _ => true end
  end.

(** [dup_counts] in [report_duplicate_totals]: the number of orders of each
    (date, total) pair. *)
Definition dup_counts (orders : list (option timestamp * option Qc))
  : list ((date * Qc) * nat) :=
  map (fun g => (fst g, List.length (snd g)))
      (groupby order_key_eqb order_key_leb
               (map (fun r => (order_key r, r)) orders)).

(** [repeat_rows] and [total_rows], the two counts
    [report_duplicate_totals] prints (the percentage and the totals it
    prints beside them are formatted floats and are left out). *)
Definition repeat_rows (orders : list (option timestamp * option Qc)) : nat :=
  list_sum (map snd (filter (fun g => (1 <? snd g)%nat) (dup_counts orders))).

Definition total_rows (orders : list (option timestamp * option Qc)) : nat :=
  List.length orders.

Section Pandas.

(** [pd.to_datetime(column, errors=coerce)]: one entry per cell, NaT
    ([None]) where the cell does not parse. *)
Variable to_datetime : list cell -> list (option timestamp).

(** [pd.to_numeric(column, errors=coerce)] on one cell: NaN ([None])
    where the cell is not a number. *)
Variable to_numeric : cell -> option Qc.

(** The cells [read_csv] finds where [to_csv] wrote a date and a float. *)
Variable csv_date : date -> cell.
Variable csv_float : option Qc -> cell.

(** [load_orders], from the frame [pd.read_csv(path)] returned.  Of the
    frame it returns only the two parsed columns are kept, row by row:
    nothing else is read later. *)
Definition load_orders (df : frame)
  : result (list (option timestamp * option Qc)) :=
  let required := ["Order Date"; "Order Total"] in
  let missing := filter (fun col => negb (str_in col (columns df)))
                        required in
  match missing with
  | _ :: _ =>
      raise (ValueError ("Orders file missing required columns: "
                         ++ Py.join ", " missing)%string)
  | [] =>
      dates <- series "Order Date" df ;;
      totals <- series "Order Total" df ;;
      let order_date := to_datetime dates in
      let order_total := map to_numeric totals in
      let bad_dates := map is_none order_date in
      let bad_totals := map is_none order_total in
      let rows := combine order_date order_total in
      if (any bad_dates || any bad_totals)%bool
      then ret (filter (fun r => negb (is_none (fst r) || is_none (snd r)))
                       rows)
      else ret rows
  end.

(** [load_weather]; [None] stands for a path that does not exist. *)
Definition load_weather (file : option frame) : result (list weather_row) :=
  match file with
  | None =>
      raise (FileNotFoundError
               ("Weather file not found at " ++ WEATHER_PATH ++ ". "
                ++ "Provide a daily weather CSV with columns for date, temp, and rain.")%string)
  | Some weather =>
      weather <- normalize_weather_columns weather ;;
      dates <- series "date" weather ;;
      let dates := map dt_date (to_datetime dates) in
      temps <- series "temp" weather ;;
      let temps := map to_numeric temps in
      rains <- series "rain" weather ;;
      let rains := map to_numeric rains in
      match all_present dates with
      | None =>
          raise (ValueError
                   "Weather file has invalid dates in the date column.")
      | Some ds =>
          if any (duplicated date_eqb ds)
          then raise (ValueError
                 "Weather file has duplicate dates; expected 1 row per day.")
          else ret (zip_weather ds temps rains)
      end
  end.

(** A numeric column of the raw weather file, when the label exists. *)
Definition optional_numeric (col : string) (raw : frame)
  : result (option (list (option Qc))) :=
  if str_in col (columns raw)
  then data <- series col raw ;; ret (Some (map to_numeric data))
  else ret None.

(** [prepare_weather_from_raw]: returns the daily table it writes to
    [out_path], and the line it prints. *)
Definition prepare_weather_from_raw (raw : frame)
  : result (list weather_row * log) :=
  let raw := map (fun c => (Py.upper (Py.strip (fst c)), snd c)) raw in
  if (negb (str_in "DATE" (columns raw))
      || negb (str_in "PRCP" (columns raw)))%bool
  then raise (ValueError
                "Raw weather data must include DATE and PRCP columns.")
  else
    DATE <- series "DATE" raw ;;
    let DATE := map dt_date (to_datetime DATE) in
    PRCP <- series "PRCP" raw ;;
    let PRCP := map to_numeric PRCP in
    TAVG <- optional_numeric "TAVG" raw ;;
    TMAX <- optional_numeric "TMAX" raw ;;
    TMIN <- optional_numeric "TMIN" raw ;;
    temp <- match TAVG, TMAX, TMIN with
            | Some tavg, Some tmax, Some tmin =>
                ret (fillna tavg (half_sum tmax tmin))
            | Some tavg, _, _ => ret tavg
            | None, Some tmax, Some tmin => ret (half_sum tmax tmin)
            | None, _, _ =>
                raise (ValueError
                  "Raw weather data must include TAVG or both TMAX and TMIN.")
            end ;;
    let weather := combine DATE (combine temp PRCP) in
    let weather :=
      map (fun g => mk_weather (fst g)
                               (mean_skipna (map fst (snd g)))
                               (mean_skipna (map snd (snd g))))
          (groupby date_eqb date_leb weather) in
    ret (weather,
         [("Prepared weather file from raw data: " ++ WEATHER_PATH)%string]).

(** The daily revenue table built at the start of [main]. *)
Definition daily_revenue (orders : list (option timestamp * option Qc))
  : list daily_row :=
  let with_date := map (fun r => (dt_date (fst r), snd r)) orders in
  let daily := map (fun g => (fst g, sum_skipna (snd g)))
                   (groupby date_eqb date_leb with_date) in
  let daily := Py.sorted (fun r : date * Qc => fst r) date_leb daily in
  map (fun r => mk_daily (fst r) (snd r) (dayofweek (fst r))
                         (day_name (fst r))) daily.

(** The frame [read_csv] returns for a file [to_csv] wrote from a daily
    weather table. *)
Definition weather_csv (weather : list weather_row) : frame :=
  [ ("date", map (fun w => csv_date (w_date w)) weather);
    ("temp", map (fun w => csv_float (w_temp w)) weather);
    ("rain", map (fun w => csv_float (w_rain w)) weather) ].

(** The first step of [main] about weather: when [WEATHER_PATH] does not
    exist and [RAW_WEATHER_PATH] does, the daily file is derived and
    written.  Returns the content of [WEATHER_PATH] afterwards and the
    printed line. *)
Definition ensure_weather_file (weather_file raw_weather_file : option frame)
  : result (option frame * log) :=
  match weather_file, raw_weather_file with
  | None, Some raw =>
      p <- prepare_weather_from_raw raw ;;
      ret (Some (weather_csv (fst p)), snd p)
  | _, _ => ret (weather_file, [])
  end.

(** The row written for a day when there is no weather table. *)
Definition revenue_only (d : daily_row) : merged_row :=
  mk_merged (d_date d) (d_revenue d) (d_weekday d) (d_weekday_name d)
            None None.

Definition wrote_line (n : nat) : string :=
  ("Wrote " ++ OUTPUT_PATH ++ " (" ++ Py.str_nat n ++ " rows)")%string.

(** [main()].  [orders_file] is the content of [ORDERS_PATH];
    [weather_file] and [raw_weather_file] are the contents of
    [WEATHER_PATH] and [RAW_WEATHER_PATH], [None] when the path does not
    exist.  Returns the table written to [OUTPUT_PATH] and the printed
    lines (those of [report_duplicate_totals], which only prints, are
    left out). *)
Definition main (orders_file : frame)
           (weather_file raw_weather_file : option frame)
  : result (list merged_row * log) :=
  orders <- load_orders orders_file ;;
  let daily := daily_revenue orders in
  prepared <- ensure_weather_file weather_file raw_weather_file ;;
  let weather_file := fst prepared in
  let out := snd prepared in
  merged <-
    match weather_file with
    | Some _ =>
        weather <- load_weather weather_file ;;
        let merged := merge_left daily weather in
        let missing := filter (fun m => (is_none (m_temp m)
                                         || is_none (m_rain m))%bool)
                              merged in
        if (any (map (fun m => is_none (m_temp m)) merged)
            || any (map (fun m => is_none (m_rain m)) merged))%bool
        then ret (merged, out ++ [date_warning (List.length missing)])
        else ret (merged, out)
    | None =>
        ret (map revenue_only daily, out ++ [no_weather_warning])
    end ;;
  ret (fst merged, snd merged ++ [wrote_line (List.length (fst merged))]).

End Pandas.

End RevenueWeather.

(* ===================================================================== *)
(** * summarize_revenue_weather.py *)
(* ===================================================================== *)

Module Summarize.

(** The two columns of the merged table that [rain_summary] reads. *)
Record obs : Type := mk_obs { revenue : option Qc; rain : option Qc }.

(** [(df[rain] > 0).astype(int)] on one row; a missing value is not
    greater than zero. *)
Definition is_rain (r : obs) : Z :=
  match rain r with
  | Some x => if num_gtb0 x then 1%Z else 0%Z
  | None => 0%Z
  end.

Definition length_mismatch (n : nat) : string :=
  ("Length mismatch: Expected axis has " ++ Py.str_nat n
   ++ " elements, new values have 2 elements")%string.

(** [rain_summary(df)]: the Series it returns, as (label, mean) pairs. *)
Definition rain_summary (df : list obs) : result (list (string * option Qc)) :=
  let keyed := map (fun r => (Some (is_rain r), revenue r)) df in
  let summary := map (fun g => (fst g, mean_skipna (snd g)))
                     (groupby Z.eqb Z.leb keyed) in
  let index := ["No Rain"; "Rain"] in
  if (List.length summary =? List.length index)%nat
  then ret (combine index (map snd summary))
  else raise (ValueError (length_mismatch (List.length summary))).

(** A row of the merged table as [load_data] returns it, for the columns the
    summaries read: the weekday name and the revenue and rain values. *)
Record row : Type := mk_row { weekday_name : option string; values : obs }.

Section SortValues.

(** [series.sort_values(ascending=False)] on a Series of means, as (label,
    mean) pairs.  pandas sorts with numpy's quicksort, which fixes no order
    among equal means: the sort is a parameter. *)
Variable sort_values_desc :
  list (string * option Qc) -> list (string * option Qc).

(** [weekday_summary(df)]: the Series it returns. *)
Definition weekday_summary (df : list row) : list (string * option Qc) :=
  sort_values_desc
    (map (fun g => (fst g, mean_skipna (snd g)))
         (groupby String.eqb String.leb
                  (map (fun r => (weekday_name r, revenue (values r))) df))).

(** A summary table as [save_summaries] writes it. *)
Record summary_file : Type := mk_summary_file
  { sf_path : string; sf_rows : list (string * option Qc) }.

(** [save_summaries(weekday_summary, rain_summary, out_dir)] *)
Definition save_summaries (weekday_summary rain_summary : list (string * option Qc))
           (out_dir : string) : list summary_file :=
  [ mk_summary_file (out_dir ++ "/summary_revenue_by_weekday.csv")%string
                    weekday_summary;
    mk_summary_file (out_dir ++ "/summary_revenue_rain_vs_no_rain.csv")%string
                    rain_summary ].

(** [main()], from the table [load_data] returned to the files written
    ([basic_summary] only prints). *)
Definition main (df : list row) : result (list summary_file) :=
  let weekday_avg := weekday_summary df in
  rain_avg <- rain_summary (map values df) ;;
  ret (save_summaries weekday_avg rain_avg "data/analytics").

End SortValues.

End Summarize.

(* ===================================================================== *)
(** * The daily revenue on binary64 values *)
(* ===================================================================== *)

(** [RevenueWeather.daily_revenue] again, with the totals as the float64
    values pandas holds and float64 addition in place of rational addition.
    The sum of a group adds its values from left to right; pandas' grouped
    sum carries a compensation term besides, which has no effect on a group
    of one or two values. *)
Module Float64.

Definition num_sum (l : list float) : float :=
  fold_left PrimFloat.add l 0%float.

Definition present (l : list (option float)) : list float :=
  flat_map (fun o => match o with Some x => [x] | None => [] end) l.

Definition sum_skipna (l : list (option float)) : float :=
  num_sum (present l).

Record daily_row : Type := mk_daily
  { d_date : date; d_revenue : float; d_weekday : Z; d_weekday_name : string }.

Definition daily_revenue (orders : list (option timestamp * option float))
  : list daily_row :=
  let with_date := map (fun r => (dt_date (fst r), snd r)) orders in
  let daily := map (fun g => (fst g, sum_skipna (snd g)))
                   (groupby date_eqb date_leb with_date) in
  let daily := Py.sorted (fun r : date * float => fst r) date_leb daily in
  map (fun r => mk_daily (fst r) (snd r) (dayofweek (fst r))
                         (day_name (fst r))) daily.

(** The rational number a finite float64 value is: its integer significand
    times a power of two. *)
Definition exact (x : float) : Q :=
  match FloatOps.Prim2SF x with
  | SpecFloat.S754_finite negative m e =>
      let v := Qmult (inject_Z (Z.pos m)) (Qpower (inject_Z 2) e) in
      if negative then Qopp v else v
  | _ => inject_Z 0
  end.

Definition exact_sum (l : list float) : Q :=
  fold_left Qplus (map exact l) (inject_Z 0).

End Float64.

(* ===================================================================== *)
(** * The properties stated of the scripts, in their own words *)
(* ===================================================================== *)

(** ** Codebooks *)

(** The non-null values of a column, each in its string form. *)
Definition strings_of (series : list cell) : list string :=
  map astype_str (dropna series).

(** The 1-based rank of [s] among the distinct strings of [strs] in
    ascending order: one more than the number of distinct strings below it. *)
Definition rank (s : string) (strs : list string) : nat :=
  S (List.length (filter (fun t => String.ltb t s) (nodup string_dec strs))).

(** The decimal digits of [index], with zeros in front up to [width]
    characters. *)
Definition zero_pad (index width : nat) : string :=
  (Py.zeros (width - String.length (Py.str_nat index))
   ++ Py.str_nat index)%string.

(** The ID column generated from the values [data] of a sensitive column. *)
Definition generated_ids (data : list cell) (prefix : string) : list cell :=
  map (DataCleansing.map_codebook (DataCleansing.make_codebook data prefix)) data.

(** ** Weather column normalisation *)

(** The alias list of a target column of the weather table. *)
Definition aliases_of (target : string) : list string :=
  match Py.Dict.get target RevenueWeather.WEATHER_COLUMN_ALIASES with
  | Some aliases => aliases
  | None => []
  end.

(** Scanning an alias list in priority order, case-insensitively: the first
    alias that is the lowercased name of some input column. *)
Definition resolve_alias (df : frame) (aliases : list string) : option string :=
  find (fun alias => str_in alias (map Py.lower (columns df))) aliases.

(** The first input column whose lowercased name is that alias. *)
Definition resolve (df : frame) (aliases : list string)
  : option (string * list cell) :=
  match resolve_alias df aliases with
  | Some alias => find (fun c => String.eqb (Py.lower (fst c)) alias) df
  | None => None
  end.

(** The targets for which no alias matches. *)
Definition unresolved (df : frame) : list string :=
  filter (fun target =>
            match resolve_alias df (aliases_of target) with
            | Some _ => false
            | None => true
            end) RevenueWeather.required.

(** ** Weather dates *)

(** The calendar dates of a date column once parsed. *)
Definition parsed_dates (to_datetime : list cell -> list (option timestamp))
           (dates : list cell) : list (option date) :=
  map dt_date (to_datetime dates).

(** ** Orders and daily revenue *)

(** The raw order rows whose date and total both parsed, in file order. *)
Definition both_parsed (rows : list (option timestamp * option Qc))
  : list (timestamp * Qc) :=
  flat_map (fun r => match r with
                     | (Some t, Some x) => [(t, x)]
                     | _ => []
                     end) rows.

(** The parsed totals of the orders placed on calendar date [d]. *)
Definition totals_on (d : date) (kept : list (timestamp * Qc)) : list Qc :=
  map snd (filter (fun r => date_eqb (ts_date (fst r)) d) kept).

(** ** The merge *)

(** The weather row of a calendar date, if the weather table has one. *)
Definition weather_on (weather : list RevenueWeather.weather_row) (d : date)
  : option RevenueWeather.weather_row :=
  find (fun w => date_eqb (RevenueWeather.w_date w) d) weather.

(** The merged row of a day given the weather found for it. *)
Definition with_weather (d : RevenueWeather.daily_row)
           (w : option RevenueWeather.weather_row) : RevenueWeather.merged_row :=
  RevenueWeather.mk_merged
    (RevenueWeather.d_date d) (RevenueWeather.d_revenue d)
    (RevenueWeather.d_weekday d) (RevenueWeather.d_weekday_name d)
    (match w with Some w => RevenueWeather.w_temp w | None => None end)
    (match w with Some w => RevenueWeather.w_rain w | None => None end).

(** ** Raw station observations, row by row *)

(** One raw observation once parsed: its date, its precipitation, and its
    average, maximum and minimum temperature (missing when the value is
    missing or the file has no such column). *)
Record station_row : Type := mk_station
  { s_date : option date;
    s_prcp : option Qc;
    s_tavg : option Qc;
    s_tmax : option Qc;
    s_tmin : option Qc }.

(** The mean of the maximum and the minimum, when both are there. *)
Definition mean2 (a b : option Qc) : option Qc :=
  match a, b with
  | Some x, Some y => Some (Qcdiv (Qcplus x y) (num_of_Z 2))
  | _, _ => None
  end.

(** The temperature of one observation: the average when the file has an
    average column, filled with the mean of maximum and minimum where the
    average is missing and the file has both of those columns; the mean of
    maximum and minimum when the file has no average column. *)
Definition row_temp (has_tavg has_tmax has_tmin : bool) (r : station_row)
  : option Qc :=
  if has_tavg then
    match s_tavg r with
    | Some t => Some t
    | None => if (has_tmax && has_tmin)%bool
              then mean2 (s_tmax r) (s_tmin r)
              else None
    end
  else mean2 (s_tmax r) (s_tmin r).

(** The observations with a date, each with that date. *)
Definition dated (rows : list station_row) : list (date * station_row) :=
  flat_map (fun r => match s_date r with
                     | Some d => [(d, r)]
                     | None => []
                     end) rows.

(** One row per date, in ascending date order: the averages of the
    temperatures and of the precipitations observed on that date. *)
Definition daily_weather (has_tavg has_tmax has_tmin : bool)
           (rows : list station_row) : list RevenueWeather.weather_row :=
  map (fun d =>
         let same := map snd (filter (fun dr => date_eqb (fst dr) d)
                                     (dated rows)) in
         RevenueWeather.mk_weather
           d
           (mean_skipna (map (row_temp has_tavg has_tmax has_tmin) same))
           (mean_skipna (map s_prcp same)))
      (Py.sorted (fun d => d) date_leb
                 (unique date_eqb (map fst (dated rows)))).

(** Entry [i] of a numeric column the file may lack. *)
Definition column_at (col : option (list (option Qc))) (i : nat) : option Qc :=
  match col with
  | Some l => nth i l None
  | None => None
  end.

Definition has_column {A : Type} (col : option A) : bool :=
  match col with Some _ => true | None => false end.

(** The observations of a raw file, from its parsed columns. *)
Definition station_rows (dates : list (option date)) (prcp : list (option Qc))
           (TAVG TMAX TMIN : option (list (option Qc))) : list station_row :=
  map (fun i => mk_station (nth i dates None) (nth i prcp None)
                           (column_at TAVG i) (column_at TMAX i)
                           (column_at TMIN i))
      (seq 0 (List.length dates)).

(** The raw frame once its labels are stripped and upper-cased. *)
Definition upper_labels (raw : frame) : frame :=
  map (fun c => (Py.upper (Py.strip (fst c)), snd c)) raw.

(** A column of the file, when present, has one entry per row. *)
Definition column_length (n : nat) (col : option (list (option Qc))) : Prop :=
  match col with
  | Some l => List.length l = n
  | None => True
  end.

(* ===================================================================== *)
(** * Auxiliary definitions *)
(* ===================================================================== *)

(** ** Orders and intermediate values of the scripts *)

(** Ascending by key. *)
Definition key_le {A K : Type} (key : A -> K) (leb : K -> K -> bool)
           (x y : A) : Prop :=
  leb (key x) (key y) = true.

Definition date_eq_dec (a b : date) : {a = b} + {a <> b}.
Proof. decide equality; apply Z.eq_dec. Defined.

(** The keys of a codebook, in the order [make_codebook] numbers them. *)
Definition codebook_values (series : list cell) : list string :=
  Py.sorted (fun s => s) String.leb (unique String.eqb (strings_of series)).

(** The frame left once the PII columns are gone, and the state of [main]
    before and after the loop over the sensitive columns. *)
Definition pii_free (df : frame) : frame :=
  filter (fun c => negb (str_in (fst c) DataCleansing.pii_columns)) df.

Definition initial_state (df : frame) : DataCleansing.state :=
  {| DataCleansing.df_clean := pii_free df;
     DataCleansing.saved := [];
     DataCleansing.out :=
       ("Columns in raw file:" :: columns df)
         ++ (Py.nl ++ "Dropped PII columns:")%string
         :: DataCleansing.cols_to_drop df |}.

Definition final_state (st : DataCleansing.state) : DataCleansing.state :=
  {| DataCleansing.df_clean := DataCleansing.df_clean st;
     DataCleansing.saved := DataCleansing.saved st;
     DataCleansing.out :=
       DataCleansing.out st
         ++ (Py.nl ++ "Columns AFTER cleaning + anonymization:")%string
         :: columns (DataCleansing.df_clean st)
         ++ [(Py.nl ++ "Saved anonymized CSV to: "
              ++ DataCleansing.clean_path)%string] |}.

(** The mapping file path chosen for a sensitive column. *)
Definition mapping_path_of (source_col : string) : string :=
  if String.eqb source_col "Item Name" then DataCleansing.item_mapping_path
  else if String.eqb source_col "Item Modifiers"
       then DataCleansing.modifier_mapping_path
       else DataCleansing.path_join
              DataCleansing.mapping_dir
              (DataCleansing.replace_space (Py.lower source_col)
               ++ "_mapping.csv")%string.

(** The state after the loop body has replaced the column [source_col],
    whose values are [data]. *)
Definition anonymized (st : DataCleansing.state)
           (source_col id_col prefix : string) (data : list cell) (line : string)
  : DataCleansing.state :=
  {| DataCleansing.df_clean :=
       filter (fun c => negb (str_in (fst c) [source_col]))
              (setitem id_col (generated_ids data prefix)
                       (DataCleansing.df_clean st));
     DataCleansing.saved :=
       DataCleansing.saved st
         ++ [DataCleansing.save_mapping
               (DataCleansing.make_codebook data prefix)
               (mapping_path_of source_col) source_col id_col];
     DataCleansing.out := DataCleansing.out st ++ [line] |}.

(** The state after the loop body has skipped a column that is not there. *)
Definition skipped (st : DataCleansing.state) (source_col : string)
  : DataCleansing.state :=
  {| DataCleansing.df_clean := DataCleansing.df_clean st;
     DataCleansing.saved := DataCleansing.saved st;
     DataCleansing.out :=
       DataCleansing.out st ++ [DataCleansing.skip_notice source_col] |}.

(** The columns [main] leaves as they are: neither PII nor sensitive. *)
Definition kept_columns (df : frame) : frame :=
  filter (fun c => negb (str_in (fst c)
                           (DataCleansing.pii_columns
                            ++ map fst DataCleansing.SENSITIVE_CATEGORICALS)))
         df.

(** The ID column generated for a sensitive column, when the frame has
    that column. *)
Definition id_column (df : frame) (entry : string * (string * string))
  : frame :=
  match getitem (fst entry) df with
  | OneColumn data =>
      [(fst (snd entry), generated_ids data (snd (snd entry)))]
  | _ => []
  end.

(** The (date, total) pairs of the orders that have both, in file order,
    and whether a pair occurs more than once among them. *)
Definition order_keys (orders : list (option timestamp * option Qc))
  : list (date * Qc) :=
  flat_map (fun r => match RevenueWeather.order_key r with
                     | Some k => [k]
                     | None => []
                     end) orders.

Definition occurrences (keys : list (date * Qc)) (k : date * Qc) : nat :=
  List.length (filter (fun k' => RevenueWeather.order_key_eqb k' k) keys).

Definition shared (keys : list (date * Qc)) (k : date * Qc) : bool :=
  (1 <? occurrences keys k)%nat.

(** Whether a table has a row in the rain group [k] (1: rain above zero,
    0: no rain or no value), and the rows of a weekday. *)
Definition has_rain_group (k : Z) (df : list Summarize.obs) : bool :=
  existsb (fun r => Z.eqb (Summarize.is_rain r) k) df.

Definition on_weekday (name : string) (r : Summarize.row) : bool :=
  match Summarize.weekday_name r with
  | Some n => String.eqb n name
  | None => false
  end.

(** The column the renaming loop picks for a target, and the label a column
    carries once renamed. *)
Definition col_of (df : frame) (target : string) : option string :=
  match RevenueWeather.first_alias (RevenueWeather.lower_cols df)
                                   (aliases_of target) with
  | Some alias => Py.Dict.get alias (RevenueWeather.lower_cols df)
  | None => None
  end.

Definition new_label (df : frame) (c : string) : string :=
  match Py.Dict.get c (RevenueWeather.renamed_of (RevenueWeather.lower_cols df)) with
  | Some target => target
  | None => c
  end.

(** ** Stand-ins for the pandas parsers

    Used to instantiate the statements below at concrete inputs: ISO dates
    (YYYY-MM-DD, midnight) and plain decimal numerals only. *)

Definition digit (c : ascii) : option Z :=
  let n := nat_of_ascii c in
  if ((48 <=? n)%nat && (n <=? 57)%nat)%bool then Some (Z.of_nat (n - 48))
  else None.

Fixpoint digits_from (acc : Z) (s : string) : option Z :=
  match s with
  | EmptyString => Some acc
  | String c r =>
      match digit c with
      | Some d => digits_from (10 * acc + d)%Z r
      | None => None
      end
  end.

Definition digits (s : string) : option Z :=
  match s with
  | EmptyString => None
  | _ => digits_from 0%Z s
  end.

Definition iso_date (s : string) : option date :=
  match digits (substring 0 4 s), digits (substring 5 2 s),
        digits (substring 8 2 s) with
  | Some y, Some m, Some d =>
      if ((String.length s =? 10)%nat
          && String.eqb (substring 4 1 s) "-"
          && String.eqb (substring 7 1 s) "-"
          && (1 <=? m)%Z && (m <=? 12)%Z && (1 <=? d)%Z && (d <=? 31)%Z)%bool
      then Some (mkdate y m d)
      else None
  | _, _, _ => None
  end.

Definition sample_to_datetime (column : list cell) : list (option timestamp) :=
  map (fun c => match c with
                | Str s => option_map (fun d => mkts d 0%Z) (iso_date s)
                | _ => None
                end) column.

(** [whole.frac] with at least one digit on each side, or [whole] alone. *)
Definition decimal (s : string) : option Qc :=
  match index 0 "." s with
  | Some i =>
      let frac := substring (i + 1) (String.length s - (i + 1)) s in
      match digits (substring 0 i s), digits frac with
      | Some w, Some f =>
          Some (Qcdiv (num_of_Z (w * 10 ^ Z.of_nat (String.length frac) + f))
                      (num_of_Z (10 ^ Z.of_nat (String.length frac))))
      | _, _ => None
      end
  | None => option_map num_of_Z (digits s)
  end.

Definition sample_to_numeric (c : cell) : option Qc :=
  match c with
  | Str s => decimal s
  | Int z => Some (num_of_Z z)
  | _ => None
  end.

Definition sample_csv_date (d : date) : cell :=
  Str (Py.zfill 4 (Py.str_Z (year d)) ++ "-" ++ Py.zfill 2 (Py.str_Z (month d))
       ++ "-" ++ Py.zfill 2 (Py.str_Z (day d)))%string.

(** A stand-in for [sort_values(ascending=False)]: a stable sort by
    descending value, missing values last. *)
Definition value_geb (a b : option Qc) : bool :=
  match a, b with
  | Some x, Some y => match Qccompare y x with Gt => false | _ => true end
  | _, None => true
  | None, Some _ => false
  end.

Definition sample_sort_values_desc (l : list (string * option Qc))
  : list (string * option Qc) :=
  Py.sorted (fun e : string * option Qc => snd e) value_geb l.

(** The order totals 4.25, 3.55 and 0.02 as [pd.to_numeric] reads them:
    the nearest float64 values. *)
Definition sample_totals : list float := [4.25%float; 3.55%float; 0.02%float].

(** Whole numbers only; anything else is written as an empty field. *)
Definition sample_csv_float (x : option Qc) : cell :=
  match x with
  | Some q => if Pos.eqb (Qden (this q)) 1 then Int (Qnum (this q)) else NA
  | None => NA
  end.

(** ** Proof automation *)

(** Equality of computed tables: two rationals are equal when their reduced
    fractions are. *)
Ltac same_values :=
  lazymatch goal with
  | |- @eq Qc _ _ => apply Qc_is_canon; reflexivity
  | |- Some _ = Some _ => apply f_equal; same_values
  | |- inr _ = inr _ => apply f_equal; same_values
  | |- (_, _) = (_, _) => apply f_equal2; same_values
  | |- _ :: _ = _ :: _ => apply f_equal2; same_values
  | |- RevenueWeather.mk_weather _ _ _ = RevenueWeather.mk_weather _ _ _ =>
      f_equal; same_values
  | |- RevenueWeather.mk_merged _ _ _ _ _ _
       = RevenueWeather.mk_merged _ _ _ _ _ _ =>
      f_equal; same_values
  | |- _ => reflexivity
  end.
(* ===================================================================== *)
(** * Facts about the Python and pandas primitives *)
(* ===================================================================== *)

(** ** The order of strings *)

Lemma ascii_compare_lt_trans a b c :
  Ascii.compare a b = Lt -> Ascii.compare b c = Lt -> Ascii.compare a c = Lt.
Proof.
  unfold Ascii.compare. rewrite !N.compare_lt_iff. lia.
Qed.

Lemma string_compare_lt_trans :
  forall a b c : string,
    String.compare a b = Lt -> String.compare b c = Lt ->
    String.compare a c = Lt.
Proof.
  induction a as [|x a IH]; intros [|y b] [|z c]; simpl; try congruence.
  destruct (Ascii.compare x y) eqn:Exy; try discriminate.
  - apply Ascii.compare_eq_iff in Exy. subst y.
    destruct (Ascii.compare x z); try congruence. apply IH.
  - intros _. destruct (Ascii.compare y z) eqn:Eyz; try discriminate.
    + apply Ascii.compare_eq_iff in Eyz. subst z. now rewrite Exy.
    + now rewrite (ascii_compare_lt_trans _ _ _ Exy Eyz).
Qed.

Lemma string_compare_refl : forall s : string, String.compare s s = Eq.
Proof.
  induction s as [|x s IH]; simpl; auto.
  assert (E : Ascii.compare x x = Eq) by (unfold Ascii.compare; apply N.compare_refl).
  now rewrite E.
Qed.

Lemma string_leb_trans :
  forall a b c : string,
    String.leb a b = true -> String.leb b c = true -> String.leb a c = true.
Proof.
  unfold String.leb. intros a b c.
  destruct (String.compare a b) eqn:Eab; try discriminate;
    destruct (String.compare b c) eqn:Ebc; try discriminate; intros _ _.
  - apply String.compare_eq_iff in Eab, Ebc. subst. now rewrite string_compare_refl.
  - apply String.compare_eq_iff in Eab. subst. now rewrite Ebc.
  - apply String.compare_eq_iff in Ebc. subst. now rewrite Eab.
  - now rewrite (string_compare_lt_trans _ _ _ Eab Ebc).
Qed.

Lemma string_ltb_leb_neq (t s : string) :
  String.ltb t s = true <-> String.leb t s = true /\ t <> s.
Proof.
  unfold String.ltb, String.leb.
  destruct (String.compare t s) eqn:E; split; try (intros [? ?]); try discriminate;
    try (split; [reflexivity|]); auto.
  - apply String.compare_eq_iff in E. contradiction.
  - intros ->. rewrite string_compare_refl in E. discriminate.
Qed.

(** ** Insertion sort *)

Section SortedFacts.
Context {A K : Type}.
Variable key : A -> K.
Variable leb : K -> K -> bool.
Hypothesis leb_total : forall a b, leb a b = true \/ leb b a = true.
Hypothesis leb_trans :
  forall a b c, leb a b = true -> leb b c = true -> leb a c = true.

Lemma insert_perm x l : Permutation (Py.insert key leb x l) (x :: l).
Proof.
  induction l as [|y r IH]; simpl; auto.
  destruct (leb (key x) (key y)); auto.
  rewrite IH. apply perm_swap.
Qed.

Lemma sorted_perm l : Permutation (Py.sorted key leb l) l.
Proof.
  induction l as [|x r IH]; simpl; auto.
  rewrite insert_perm. now constructor.
Qed.

Lemma sorted_In x l : In x (Py.sorted key leb l) <-> In x l.
Proof.
  split; apply Permutation_in; [|symmetry]; apply sorted_perm.
Qed.

Lemma insert_sorted x l :
  StronglySorted (key_le key leb) l ->
  StronglySorted (key_le key leb) (Py.insert key leb x l).
Proof.
  induction 1 as [|y r Hr IH Hy]; simpl.
  - repeat constructor.
  - destruct (leb (key x) (key y)) eqn:E.
    + constructor; [now constructor|].
      constructor; [exact E|].
      eapply Forall_impl; [|exact Hy]. intros z Hz.
      unfold key_le in *. eauto.
    + constructor; [exact IH|].
      assert (Hyx : (key_le key leb) y x).
      { destruct (leb_total (key x) (key y)); [congruence|assumption]. }
      eapply Permutation_Forall; [symmetry; apply insert_perm|].
      now constructor.
Qed.

Lemma sorted_StronglySorted l : StronglySorted (key_le key leb) (Py.sorted key leb l).
Proof.
  induction l; simpl; [constructor|now apply insert_sorted].
Qed.

(** Sorting a sorted list changes nothing. *)
Lemma sorted_fixpoint l :
  StronglySorted (key_le key leb) l -> Py.sorted key leb l = l.
Proof.
  induction 1 as [|y r Hr IH Hy]; simpl; auto.
  rewrite IH. destruct r as [|z r]; simpl; auto.
  inversion Hy as [|? ? Hyz ?]; subst. unfold key_le in Hyz. now rewrite Hyz.
Qed.
End SortedFacts.

(** Two duplicate-free ascending lists with the same elements are equal. *)
Section SortedUnique.
Context {A : Type}.
Variable leb : A -> A -> bool.
Hypothesis leb_antisym : forall a b, leb a b = true -> leb b a = true -> a = b.

Lemma sorted_unique :
  forall l1 l2 : list A,
    StronglySorted (key_le (fun x => x) leb) l1 ->
    StronglySorted (key_le (fun x => x) leb) l2 ->
    NoDup l1 -> NoDup l2 ->
    (forall x, In x l1 <-> In x l2) ->
    l1 = l2.
Proof.
  induction l1 as [|x l1 IH]; intros [|y l2] S1 S2 N1 N2 Hiff.
  - reflexivity.
  - exfalso. apply (proj2 (Hiff y)). now left.
  - exfalso. apply (proj1 (Hiff x)). now left.
  - inversion S1 as [|? ? S1' F1]; inversion S2 as [|? ? S2' F2]; subst.
    inversion N1 as [|? ? Nx N1']; inversion N2 as [|? ? Ny N2']; subst.
    rewrite Forall_forall in F1, F2.
    assert (x = y) as ->.
    { destruct (proj1 (Hiff x) (or_introl eq_refl)) as [E|Hx]; [now subst|].
      destruct (proj2 (Hiff y) (or_introl eq_refl)) as [E|Hy]; [now subst|].
      apply leb_antisym; [now apply F1|now apply F2]. }
    f_equal. apply IH; auto.
    intros z. split; intros Hz.
    + destruct (proj1 (Hiff z) (or_intror Hz)) as [E|?]; [subst; contradiction|auto].
    + destruct (proj2 (Hiff z) (or_intror Hz)) as [E|?]; [subst; contradiction|auto].
Qed.
End SortedUnique.

Lemma StronglySorted_map {A B} (f : A -> B) (R : B -> B -> Prop) (l : list A) :
  StronglySorted (fun x y => R (f x) (f y)) l -> StronglySorted R (map f l).
Proof.
  induction 1 as [|x l Hl IH Hx]; simpl; constructor; auto.
  rewrite Forall_forall in *. intros y Hy.
  apply in_map_iff in Hy. destruct Hy as [z [<- Hz]]. auto.
Qed.

Lemma StronglySorted_strict {A} (le lt : A -> A -> Prop) (l : list A) :
  (forall x y, le x y -> x <> y -> lt x y) ->
  StronglySorted le l -> NoDup l -> StronglySorted lt l.
Proof.
  intros Hlt. induction 1 as [|x l Hl IH Hx]; intros N; constructor;
    inversion N as [|? ? Hn N']; subst; auto.
  rewrite Forall_forall in *. intros y Hy. apply Hlt; auto.
  intros ->. contradiction.
Qed.

(** ** [unique] and [duplicated] *)

Section UniqueFacts.
Context {A : Type}.
Variable eqb : A -> A -> bool.
Hypothesis eqb_eq : forall a b, eqb a b = true <-> a = b.

Lemma existsb_eqb_In x l : existsb (eqb x) l = true <-> In x l.
Proof.
  rewrite existsb_exists. split.
  - intros [y [Hy E]]. apply eqb_eq in E. now subst.
  - intros H. exists x. split; auto. now apply eqb_eq.
Qed.

Lemma unique_from_spec l :
  forall seen,
    NoDup seen ->
    let r := fold_left
               (fun seen x => if existsb (eqb x) seen then seen else seen ++ [x])
               l seen in
    NoDup r /\ forall x, In x r <-> In x seen \/ In x l.
Proof.
  induction l as [|y l IH]; intros seen Hs; simpl.
  - split; auto. intros x; tauto.
  - destruct (existsb (eqb y) seen) eqn:E.
    + destruct (IH seen Hs) as [N I]. split; auto.
      intros x. rewrite I. apply existsb_eqb_In in E.
      split; [tauto|]. intros [?|[->|?]]; auto.
    + assert (Hy : ~ In y seen).
      { intros H. apply existsb_eqb_In in H. congruence. }
      assert (Hs' : NoDup (seen ++ [y])).
      { apply NoDup_app; auto.
        - repeat constructor. intros [].
        - intros z Hz [<-|[]]. contradiction. }
      destruct (IH _ Hs') as [N I]. split; auto.
      intros x. rewrite I, in_app_iff. simpl. tauto.
Qed.

Lemma unique_NoDup l : NoDup (unique eqb l).
Proof. apply (unique_from_spec l []). constructor. Qed.

Lemma unique_In x l : In x (unique eqb l) <-> In x l.
Proof.
  unfold unique. rewrite (proj2 (unique_from_spec l [] (NoDup_nil _))).
  simpl. tauto.
Qed.

Lemma duplicated_from_none seen l :
  any (duplicated_from eqb seen l) = false <->
  NoDup l /\ forall x, In x l -> ~ In x seen.
Proof.
  revert seen. induction l as [|y l IH]; intros seen; simpl.
  - split; [intros _; split; [constructor|tauto]|auto].
  - unfold any in *. simpl. rewrite orb_false_iff, IH. split.
    + intros [E [N D]].
      assert (Hy : ~ In y seen).
      { intros H. apply existsb_eqb_In in H. congruence. }
      split.
      * constructor; auto. intros H. apply (D y H). now left.
      * intros x [<-|Hx]; auto. intros H. apply (D x Hx). now right.
    + intros [N D]. inversion N as [|? ? Ny N']; subst. repeat split; auto.
      * destruct (existsb (eqb y) seen) eqn:E; auto.
        apply existsb_eqb_In in E. exfalso. apply (D y); auto.
      * intros x Hx [<-|H]; [contradiction|]. apply (D x); auto.
Qed.

Lemma duplicated_none l : any (duplicated eqb l) = false <-> NoDup l.
Proof.
  unfold duplicated. rewrite duplicated_from_none. split; [tauto|].
  intros N. split; auto.
Qed.
End UniqueFacts.

Lemma NoDup_constant {A} (l : list A) c :
  NoDup l -> l <> [] -> (forall x, In x l -> x = c) -> l = [c].
Proof.
  intros N Hne Hc. destruct l as [|x [|y l]]; [congruence| |].
  - f_equal. apply Hc. now left.
  - exfalso. inversion N as [|? ? Hx _]; subst. apply Hx.
    rewrite (Hc x), (Hc y); cbn; auto.
Qed.

(** ** Lists *)

Lemma filter_none {A} (f : A -> bool) (l : list A) :
  (forall x, In x l -> f x = false) -> filter f l = [].
Proof.
  induction l as [|x l IH]; simpl; auto.
  intros H. rewrite (H x (or_introl eq_refl)). apply IH. auto.
Qed.

Lemma filter_all {A} (f : A -> bool) (l : list A) :
  (forall x, In x l -> f x = true) -> filter f l = l.
Proof.
  induction l as [|x l IH]; simpl; auto.
  intros H. rewrite (H x (or_introl eq_refl)). f_equal. apply IH. auto.
Qed.

Lemma Permutation_filter {A} (f : A -> bool) (l l' : list A) :
  Permutation l l' -> Permutation (filter f l) (filter f l').
Proof.
  induction 1 as [|x l l' P IH|x y l|l l' l'' P1 IH1 P2 IH2]; simpl.
  - constructor.
  - destruct (f x); auto.
  - destruct (f x), (f y); auto. apply perm_swap.
  - now transitivity (filter f l').
Qed.

Lemma NoDup_map_filter {X Y} (keep : X -> bool) (label : X -> Y) (xs : list X) :
  NoDup (map label xs) -> NoDup (map label (filter keep xs)).
Proof.
  intros N. induction xs as [|x xs IH]; simpl in *; auto.
  inversion N as [|? ? Hx N']; subst.
  destruct (keep x); simpl; auto. constructor; auto.
  intros H. apply Hx. apply in_map_iff in H. destruct H as [y [E Hy]].
  apply filter_In in Hy. apply in_map_iff. exists y. tauto.
Qed.

Lemma NoDup_map_inv {A B} (f : A -> B) (l : list A) :
  NoDup (map f l) -> NoDup l.
Proof.
  induction l as [|x l IH]; simpl; intros N; [constructor|].
  inversion N as [|? ? Hx N']; subst. constructor; auto.
  intros H. apply Hx. now apply in_map.
Qed.

Lemma filter_map_swap {A B} (f : A -> B) (p : B -> bool) (l : list A) :
  filter p (map f l) = map f (filter (fun x => p (f x)) l).
Proof.
  induction l as [|x l IH]; simpl; auto.
  destruct (p (f x)); simpl; now rewrite IH.
Qed.

Lemma find_unique_key {A} (f : A -> string) (x : A) (l : list A) :
  NoDup (map f l) -> In x l ->
  find (fun y => String.eqb (f y) (f x)) l = Some x.
Proof.
  induction l as [|y l IH]; simpl; [tauto|].
  intros N H. inversion N as [|? ? Hy N']; subst.
  destruct H as [->|H].
  - now rewrite String.eqb_refl.
  - destruct (String.eqb_spec (f y) (f x)) as [E|Hne]; auto.
    exfalso. apply Hy. rewrite E. now apply in_map.
Qed.

Lemma filter_unique_key {A} (f : A -> string) (x : A) (l : list A) :
  NoDup (map f l) -> In x l ->
  filter (fun y => String.eqb (f y) (f x)) l = [x].
Proof.
  induction l as [|y l IH]; simpl; [tauto|].
  intros N H. inversion N as [|? ? Hy N']; subst.
  destruct H as [->|H].
  - rewrite String.eqb_refl. f_equal. apply filter_none.
    intros z Hz. destruct (String.eqb_spec (f z) (f x)) as [E|]; auto.
    exfalso. apply Hy. rewrite <- E. now apply in_map.
  - destruct (String.eqb_spec (f y) (f x)) as [E|Hne]; auto.
    exfalso. apply Hy. rewrite E. now apply in_map.
Qed.

Lemma NoDup_map_fst_combine {A B} (l : list A) (l' : list B) :
  NoDup l -> NoDup (map fst (combine l l')).
Proof.
  revert l'. induction l as [|x l IH]; intros [|y l'] N; simpl; try constructor.
  - inversion N as [|? ? Hx N']; subst. intros H. apply Hx.
    apply in_map_iff in H. destruct H as [[a b] [E H]]. simpl in E. subst.
    now apply in_combine_l in H.
  - inversion N; subst. now apply IH.
Qed.


(** Three columns of one length, zipped, are the rows read off by index. *)
Lemma combine3_rows {A B C R} (l1 : list A) (l2 : list B) (l3 : list C)
      (d1 : A) (d2 : B) (d3 : C) (row : nat -> R) (f : R -> A * (B * C)) :
  List.length l2 = List.length l1 ->
  List.length l3 = List.length l1 ->
  (forall i, i < List.length l1 ->
             f (row i) = (nth i l1 d1, (nth i l2 d2, nth i l3 d3))) ->
  combine l1 (combine l2 l3) = map f (map row (seq 0 (List.length l1))).
Proof.
  intros H2 H3 Hrow.
  apply (nth_ext _ _ (d1, (d2, d3)) (f (row 0))).
  - rewrite !length_map, length_seq, !length_combine. lia.
  - intros i Hi. rewrite !length_combine in Hi.
    assert (Hi1 : i < List.length l1) by lia.
    rewrite combine_nth by (rewrite length_combine; lia).
    rewrite combine_nth by lia.
    rewrite map_map.
    rewrite (nth_indep _ _ (f (row (nth 0 [] 0))))
      by (rewrite length_map, length_seq; exact Hi1).
    rewrite (map_nth (fun j => f (row j)) (seq 0 (List.length l1)) (nth 0 [] 0) i).
    rewrite seq_nth by exact Hi1. cbn [Nat.add]. symmetry. now apply Hrow.
Qed.

Lemma NoDup_count_occ_one {A} (dec : forall a b : A, {a = b} + {a <> b})
      (l : list A) x :
  NoDup l -> In x l -> count_occ dec l x = 1.
Proof.
  intros N H. apply (proj1 (NoDup_count_occ' dec l) N x H).
Qed.

(** ** Dictionaries *)

Lemma dict_get_In {V} k (d : Py.Dict.t V) v :
  Py.Dict.get k d = Some v -> In (k, v) d.
Proof.
  induction d as [|[k' v'] d IH]; simpl; [discriminate|].
  destruct (String.eqb_spec k' k).
  - intros [= ->]. subst. now left.
  - intros H. right. auto.
Qed.

Lemma dict_get_None {V} k (d : Py.Dict.t V) :
  Py.Dict.get k d = None <-> ~ In k (Py.Dict.keys d).
Proof.
  induction d as [|[k' v'] d IH]; simpl; [tauto|].
  destruct (String.eqb_spec k' k).
  - split; [discriminate|]. intros H. exfalso. apply H. now left.
  - rewrite IH. tauto.
Qed.

Lemma dict_mem_In {V} k (d : Py.Dict.t V) :
  Py.Dict.mem k d = true <-> In k (Py.Dict.keys d).
Proof.
  unfold Py.Dict.mem. destruct (Py.Dict.get k d) eqn:E.
  - split; auto. intros _. apply dict_get_In in E.
    apply (in_map fst) in E. exact E.
  - split; [discriminate|]. intros H. apply dict_get_None in E. contradiction.
Qed.

Lemma dict_set_fresh {V} k (v : V) d :
  ~ In k (Py.Dict.keys d) -> Py.Dict.set k v d = d ++ [(k, v)].
Proof.
  induction d as [|[k' v'] d IH]; simpl; auto.
  intros H. destruct (String.eqb_spec k' k); [tauto|].
  f_equal. apply IH. tauto.
Qed.

Lemma dict_of_items_from {V} (items d : list (string * V)) :
  NoDup (map fst (d ++ items)) ->
  fold_left (fun d kv => Py.Dict.set (fst kv) (snd kv) d) items d = d ++ items.
Proof.
  revert d. induction items as [|[k v] items IH]; intros d N; simpl.
  - now rewrite app_nil_r.
  - rewrite dict_set_fresh.
    + rewrite IH; rewrite <- app_assoc; auto.
    + rewrite map_app in N. simpl in N.
      apply NoDup_remove_2 in N. intros H. apply N.
      apply in_or_app. now left.
Qed.

(** A comprehension over distinct keys is the list of its items. *)
Lemma dict_of_items_NoDup {V} (items : list (string * V)) :
  NoDup (map fst items) -> Py.Dict.of_items items = items.
Proof.
  intros N. unfold Py.Dict.of_items. now rewrite dict_of_items_from.
Qed.

Lemma dict_get_set {V} k (v : V) c d :
  Py.Dict.get c (Py.Dict.set k v d)
  = if String.eqb k c then Some v else Py.Dict.get c d.
Proof.
  induction d as [|[k' v'] d IH]; simpl.
  - reflexivity.
  - destruct (String.eqb_spec k' k) as [->|Hk]; simpl.
    + destruct (String.eqb_spec k c); auto.
    + destruct (String.eqb_spec k' c) as [->|Hc].
      * destruct (String.eqb_spec k c); [congruence|auto].
      * exact IH.
Qed.

Lemma dict_fold_set_get {V} (items : list (string * V)) :
  forall d k v,
    Py.Dict.get k (fold_left (fun d kv => Py.Dict.set (fst kv) (snd kv) d) items d)
    = Some v ->
    In (k, v) items \/ Py.Dict.get k d = Some v.
Proof.
  induction items as [|[k0 v0] items IH]; intros d k v; simpl; auto.
  intros H. apply IH in H. destruct H as [H|H]; auto.
  rewrite dict_get_set in H. cbn [fst snd] in H.
  destruct (String.eqb_spec k0 k) as [->|Hk]; auto.
  inversion H; subst. auto.
Qed.

Lemma dict_fold_set_mem {V} (items : list (string * V)) :
  forall d k,
    Py.Dict.mem k (fold_left (fun d kv => Py.Dict.set (fst kv) (snd kv) d) items d)
    = (str_in k (map fst items) || Py.Dict.mem k d)%bool.
Proof.
  induction items as [|[k0 v0] items IH]; intros d k; simpl; auto.
  rewrite IH. unfold Py.Dict.mem. rewrite dict_get_set. cbn [fst snd].
  rewrite (String.eqb_sym k k0).
  destruct (String.eqb k0 k); simpl.
  - now rewrite orb_true_r.
  - reflexivity.
Qed.

Lemma dict_get_NoDup {V} k (v : V) (d : Py.Dict.t V) :
  NoDup (Py.Dict.keys d) -> In (k, v) d -> Py.Dict.get k d = Some v.
Proof.
  induction d as [|[k' v'] d IH]; simpl; [tauto|].
  intros N H. inversion N as [|? ? Hk N']; subst.
  destruct H as [H|H].
  - inversion H; subst. now rewrite String.eqb_refl.
  - destruct (String.eqb_spec k' k) as [->|Hne]; auto.
    exfalso. apply Hk. apply (in_map fst) in H. exact H.
Qed.

(** ** Decimal numerals and [zfill] *)

Lemma str_nat_unsigned n :
  exists c r, Py.str_nat n = String c r /\ Py.is_sign c = false.
Proof.
  unfold Py.str_nat.
  assert (H : Nat.to_uint n <> Decimal.Nil).
  { rewrite <- (DecimalNat.Unsigned.of_to n) at 1.
    rewrite DecimalNat.Unsigned.to_of. apply DecimalFacts.unorm_nonnil. }
  destruct (Nat.to_uint n); try congruence; simpl; eauto.
Qed.

(** On the numeral of a natural number [zfill] is plain zero padding. *)
Lemma zfill_str_nat width n :
  Py.zfill width (Py.str_nat n) = zero_pad n width.
Proof.
  unfold Py.zfill, zero_pad.
  destruct (str_nat_unsigned n) as [c [r [E Hc]]].
  destruct (width <=? String.length (Py.str_nat n))%nat eqn:Hw.
  - apply Nat.leb_le in Hw.
    replace (width - String.length (Py.str_nat n)) with 0 by lia. reflexivity.
  - rewrite E, Hc. reflexivity.
Qed.

(** ** Frames *)

Lemma str_in_In c l : str_in c l = true <-> In c l.
Proof. apply existsb_eqb_In. apply String.eqb_eq. Qed.

Lemma str_in_false c l : str_in c l = false <-> ~ In c l.
Proof.
  rewrite <- str_in_In. destruct (str_in c l); split; congruence.
Qed.

Lemma columns_In c (df : frame) :
  In c (columns df) <-> exists d, In (c, d) df.
Proof.
  unfold columns. rewrite in_map_iff. split.
  - intros [[c' d] [E H]]. simpl in E. subst. eauto.
  - intros [d H]. exists (c, d). auto.
Qed.

Lemma drop_present cols (df : frame) :
  (forall c, In c cols -> In c (columns df)) ->
  drop cols df = ret (filter (fun c => negb (str_in (fst c) cols)) df).
Proof.
  intros H. unfold drop. rewrite filter_none; auto.
  intros c Hc. apply H, str_in_In in Hc. now rewrite Hc.
Qed.

Lemma In_setitem c d col data (df : frame) :
  In (c, d) (setitem col data df) <->
  (c = col /\ d = data) \/ (c <> col /\ In (c, d) df).
Proof.
  unfold setitem. destruct (str_in col (columns df)) eqn:E.
  - apply str_in_In, columns_In in E. destruct E as [d0 H0].
    rewrite in_map_iff. split.
    + intros [[c' d'] [Heq Hin]]. simpl in Heq.
      destruct (String.eqb_spec c' col).
      * inversion Heq; subst. now left.
      * inversion Heq; subst. right. auto.
    + intros [[-> ->]|[Hne Hin]].
      * exists (col, d0). simpl. now rewrite String.eqb_refl.
      * exists (c, d). simpl. destruct (String.eqb_spec c col); [contradiction|auto].
  - apply str_in_false in E. rewrite in_app_iff. simpl. split.
    + intros [H|[H|[]]].
      * right. split; auto. intros ->. apply E, columns_In. eauto.
      * inversion H; subst. now left.
    + intros [[-> ->]|[_ H]]; auto.
Qed.

Lemma columns_setitem col data (df : frame) :
  columns (setitem col data df)
  = if str_in col (columns df) then columns df else columns df ++ [col].
Proof.
  unfold setitem, columns. destruct (str_in col (map fst df)).
  - rewrite map_map. apply map_ext. intros [c d]. simpl.
    now destruct (String.eqb c col).
  - now rewrite map_app.
Qed.

Lemma NoDup_columns_setitem col data (df : frame) :
  NoDup (columns df) -> NoDup (columns (setitem col data df)).
Proof.
  intros N. rewrite columns_setitem. destruct (str_in col (columns df)) eqn:E; auto.
  apply str_in_false in E. apply NoDup_app; auto.
  - repeat constructor. intros [].
  - intros x Hx [<-|[]]. contradiction.
Qed.

Lemma getitem_OneColumn c d (df : frame) :
  NoDup (columns df) -> In (c, d) df -> getitem c df = OneColumn d.
Proof.
  intros N H. unfold getitem.
  assert (E : filter (fun e : string * list cell => String.eqb (fst e) c) df = [(c, d)]).
  { induction df as [|[c' d'] df IH]; simpl in *; [contradiction|].
    inversion N as [|? ? Hc N']; subst.
    destruct H as [H|H].
    - inversion H; subst. rewrite String.eqb_refl. f_equal.
      apply filter_none. intros [c2 d2] H2. simpl.
      destruct (String.eqb_spec c2 c); auto. subst.
      exfalso. apply Hc. apply columns_In. eauto.
    - destruct (String.eqb_spec c' c); auto. subst.
      exfalso. apply Hc. apply columns_In. eauto. }
  now rewrite E.
Qed.

Lemma getitem_NoColumn c (df : frame) :
  ~ In c (columns df) -> getitem c df = NoColumn.
Proof.
  intros H. unfold getitem. rewrite filter_none; auto.
  intros [c' d'] Hin. simpl. destruct (String.eqb_spec c' c); auto. subst.
  exfalso. apply H, columns_In. eauto.
Qed.

Lemma series_present c (df : frame) :
  NoDup (columns df) -> In c (columns df) ->
  exists d, In (c, d) df /\ getitem c df = OneColumn d /\ series c df = ret d.
Proof.
  intros N H. apply columns_In in H. destruct H as [d H]. exists d.
  pose proof (getitem_OneColumn c d df N H) as E.
  unfold series. now rewrite E.
Qed.

Lemma series_str_in c (df : frame) data :
  series c df = inr data -> str_in c (columns df) = true.
Proof.
  unfold series. intros H. apply str_in_In.
  destruct (in_dec string_dec c (columns df)) as [|Hn]; auto.
  rewrite (getitem_NoColumn c df Hn) in H. discriminate.
Qed.

(** ** Dates *)

Lemma date_compare_eq a b : date_compare a b = Eq <-> a = b.
Proof.
  destruct a as [y m d], b as [y' m' d']. unfold date_compare. cbn [year month day].
  split.
  - destruct (y ?= y')%Z eqn:Ey; try discriminate.
    destruct (m ?= m')%Z eqn:Em; try discriminate.
    intros Ed. apply Z.compare_eq in Ey, Em, Ed. now subst.
  - intros E. inversion E; subst. now rewrite !Z.compare_refl.
Qed.

Lemma date_eqb_eq a b : date_eqb a b = true <-> a = b.
Proof.
  unfold date_eqb. rewrite <- date_compare_eq.
  destruct (date_compare a b); split; congruence.
Qed.

Lemma date_compare_lt a b :
  date_compare a b = Lt <->
  (year a < year b
   \/ (year a = year b /\ (month a < month b
                           \/ (month a = month b /\ day a < day b))))%Z.
Proof.
  unfold date_compare.
  destruct (Z.compare_spec (year a) (year b));
    destruct (Z.compare_spec (month a) (month b));
    destruct (Z.compare_spec (day a) (day b));
    split; intros; try discriminate; try reflexivity; lia.
Qed.

Lemma date_compare_gt a b : date_compare a b = Gt <-> date_compare b a = Lt.
Proof.
  rewrite date_compare_lt. unfold date_compare.
  destruct (Z.compare_spec (year a) (year b));
    destruct (Z.compare_spec (month a) (month b));
    destruct (Z.compare_spec (day a) (day b));
    split; intros; try discriminate; try reflexivity; lia.
Qed.

Lemma date_leb_total a b : date_leb a b = true \/ date_leb b a = true.
Proof.
  unfold date_leb. destruct (date_compare a b) eqn:E; auto.
  apply date_compare_gt in E. rewrite E. auto.
Qed.

Lemma date_leb_trans a b c :
  date_leb a b = true -> date_leb b c = true -> date_leb a c = true.
Proof.
  unfold date_leb.
  destruct (date_compare a b) eqn:Eab; try discriminate;
    destruct (date_compare b c) eqn:Ebc; try discriminate; intros _ _;
    destruct (date_compare a c) eqn:Eac; auto; exfalso;
    try (apply date_compare_eq in Eab; subst);
    try (apply date_compare_eq in Ebc; subst);
    try congruence;
    apply date_compare_gt in Eac; rewrite date_compare_lt in *; lia.
Qed.

Lemma date_leb_antisym a b :
  date_leb a b = true -> date_leb b a = true -> a = b.
Proof.
  unfold date_leb.
  destruct (date_compare a b) eqn:Eab; try discriminate.
  - intros _ _. now apply date_compare_eq.
  - destruct (date_compare b a) eqn:Eba; try discriminate; intros _ _.
    + symmetry. now apply date_compare_eq.
    + rewrite date_compare_lt in *. lia.
Qed.

Lemma date_ltb_leb_neq a b :
  date_ltb a b = true <-> date_leb a b = true /\ a <> b.
Proof.
  unfold date_ltb, date_leb.
  destruct (date_compare a b) eqn:E; split; try (intros [? ?]); try discriminate;
    try (split; [reflexivity|]); auto.
  - apply date_compare_eq in E. contradiction.
  - intros ->. assert (Hbb : date_compare b b = Eq) by now apply date_compare_eq.
    congruence.
Qed.

Lemma sakamoto_nonneg m :
  (1 <= m <= 12)%Z -> (0 <= nth (Z.to_nat (m - 1)) sakamoto_arr 0 <= 6)%Z.
Proof.
  intros H.
  assert (E : exists k, (k < 12)%nat /\ Z.to_nat (m - 1) = k).
  { exists (Z.to_nat (m - 1)). split; auto. lia. }
  destruct E as [k [Hk ->]].
  do 12 (destruct k as [|k]; [cbn; lia|]). lia.
Qed.

(** On a calendar date the weekday index is between 0 and 6. *)
Lemma dayofweek_range d :
  (1 <= year d)%Z -> (1 <= month d <= 12)%Z -> (1 <= day d)%Z ->
  (0 <= dayofweek d < 7)%Z.
Proof.
  intros Hy Hm Hd. unfold dayofweek.
  set (ym := (if (month d <? 3)%Z then (year d - 1)%Z else year d)).
  assert (Hym : (0 <= ym)%Z) by (unfold ym; destruct (month d <? 3)%Z; lia).
  pose proof (sakamoto_nonneg (month d) Hm) as Hs.
  assert (H4 : (0 <= Z.quot ym 4)%Z) by (apply Z.quot_pos; lia).
  assert (H400 : (0 <= Z.quot ym 400)%Z) by (apply Z.quot_pos; lia).
  assert (H100 : (Z.quot ym 100 <= ym)%Z).
  { rewrite Z.quot_div_nonneg by lia.
    apply Z.div_le_upper_bound; lia. }
  set (s := (ym + Z.quot ym 4 - Z.quot ym 100 + Z.quot ym 400
             + nth (Z.to_nat (month d - 1)) sakamoto_arr 0 + day d)%Z).
  assert (Hs0 : (0 <= s)%Z) by (unfold s; lia).
  pose proof (Z.rem_bound_pos s 7 Hs0 ltac:(lia)) as Hw.
  apply Z.rem_bound_pos; lia.
Qed.

(** ** Columns with no missing entry *)

Lemma all_present_Some {A} (l : list (option A)) ds :
  RevenueWeather.all_present l = Some ds <-> l = map Some ds.
Proof.
  revert ds. induction l as [|[x|] l IH]; intros ds; simpl.
  - split.
    + intros [= <-]. reflexivity.
    + destruct ds; [reflexivity|discriminate].
  - destruct (RevenueWeather.all_present l) as [r|] eqn:E; simpl.
    + split.
      * intros [= <-]. simpl. f_equal. now apply IH.
      * destruct ds as [|d ds]; [discriminate|]. simpl. intros [= -> H].
        apply IH in H. congruence.
    + split; [discriminate|].
      destruct ds as [|d ds]; [discriminate|]. simpl. intros [= -> H].
      apply IH in H. discriminate.
  - split; [discriminate|]. destruct ds; discriminate.
Qed.


(** ** Sums *)

Lemma present_map_Some (l : list Qc) : present (map Some l) = l.
Proof.
  unfold present. induction l as [|x l IH]; cbn [map flat_map app]; auto.
  now rewrite IH.
Qed.

(** Grouping by key over distinct keys that cover the rows only reorders
    the rows: each row falls in exactly one group. *)
Lemma group_insert_perm {R K} (eqb : K -> K -> bool)
      (eqb_eq : forall a b, eqb a b = true <-> a = b)
      (k0 : K) (r : R) (g : K -> list R) (keys : list K) :
  NoDup keys -> In k0 keys ->
  Permutation (flat_map (fun k => if eqb k0 k then r :: g k else g k) keys)
              (r :: flat_map g keys).
Proof.
  intros N. induction N as [|k keys Hk N IH]; [intros []|].
  intros Hin. cbn [flat_map].
  destruct (eqb k0 k) eqn:E.
  - apply eqb_eq in E. subst k. cbn [app]. constructor.
    apply Permutation_app_head.
    assert (S : forall l,
               ~ In k0 l ->
               flat_map (fun k => if eqb k0 k then r :: g k else g k) l
               = flat_map g l).
    { induction l as [|y l IHl]; intros Hn; [reflexivity|].
      cbn [flat_map]. rewrite IHl by (intros H; apply Hn; now right).
      destruct (eqb k0 y) eqn:Ey; [|reflexivity].
      apply eqb_eq in Ey. subst. exfalso. apply Hn. now left. }
    rewrite (S keys Hk). reflexivity.
  - assert (Hin' : In k0 keys).
    { destruct Hin as [->|H]; [|exact H].
      assert (T : eqb k0 k0 = true) by now apply eqb_eq. congruence. }
    eapply Permutation_trans;
      [apply Permutation_app_head, (IH Hin')|].
    symmetry. apply Permutation_middle.
Qed.

Lemma partition_by_key {R K} (eqb : K -> K -> bool) (key : R -> K)
      (eqb_eq : forall a b, eqb a b = true <-> a = b) (keys : list K) :
  NoDup keys ->
  forall rows,
    (forall r, In r rows -> In (key r) keys) ->
    Permutation (flat_map (fun k => filter (fun r => eqb (key r) k) rows) keys)
                rows.
Proof.
  intros N. induction rows as [|r rows IH]; intros Hcov.
  - cbn [filter]. clear. induction keys as [|k keys IH]; [constructor|exact IH].
  - cbn [filter].
    eapply Permutation_trans.
    + apply (group_insert_perm eqb eqb_eq (key r) r
               (fun k => filter (fun r0 => eqb (key r0) k) rows) keys N).
      apply Hcov. now left.
    + constructor. apply IH. intros r0 Hr0. apply Hcov. now right.
Qed.

Lemma flat_map_of_map {X Y Z} (g : X -> Y) (body : Y -> list Z) (xs : list X) :
  flat_map body (map g xs) = flat_map (fun x => body (g x)) xs.
Proof.
  induction xs as [|x xs IH]; [reflexivity|]. cbn [map flat_map]. now rewrite IH.
Qed.

Lemma map_of_flat_map {X Y Z} (h : Y -> Z) (body : X -> list Y) (xs : list X) :
  map h (flat_map body xs) = flat_map (fun x => map h (body x)) xs.
Proof.
  induction xs as [|x xs IH]; [reflexivity|].
  cbn [flat_map]. now rewrite map_app, IH.
Qed.

(** ** groupby *)

Lemma keyed_Some {R K V} (key : R -> K) (val : R -> V) (rows : list R) :
  keyed (map (fun r => (Some (key r), val r)) rows)
  = map (fun r => (key r, val r)) rows.
Proof.
  unfold keyed. induction rows as [|r rows IH]; simpl; auto. now rewrite IH.
Qed.

Lemma keyed_rows {R K V} (key : R -> option K) (val : R -> V) (rows : list R) :
  keyed (map (fun r => (key r, val r)) rows)
  = map (fun kr => (fst kr, val (snd kr)))
        (flat_map (fun r => match key r with
                            | Some k => [(k, r)]
                            | None => []
                            end) rows).
Proof.
  unfold keyed. induction rows as [|r rows IH]; cbn [map flat_map fst snd]; auto.
  rewrite IH. destruct (key r); reflexivity.
Qed.

Section GroupByFacts.
Context {K V : Type}.
Variable eqb : K -> K -> bool.
Variable leb : K -> K -> bool.
Hypothesis eqb_eq : forall a b, eqb a b = true <-> a = b.
Hypothesis leb_total : forall a b, leb a b = true \/ leb b a = true.
Hypothesis leb_trans :
  forall a b c, leb a b = true -> leb b c = true -> leb a c = true.

Lemma group_keys_In (rows : list (option K * V)) k :
  In k (group_keys eqb leb rows) <-> In k (map fst (keyed rows)).
Proof.
  unfold group_keys. rewrite sorted_In. now apply unique_In.
Qed.

Lemma group_keys_NoDup (rows : list (option K * V)) :
  NoDup (group_keys eqb leb rows).
Proof.
  unfold group_keys. eapply Permutation_NoDup; [symmetry; apply sorted_perm|].
  now apply unique_NoDup.
Qed.

Lemma group_keys_sorted (rows : list (option K * V)) :
  StronglySorted (key_le (fun k => k) leb) (group_keys eqb leb rows).
Proof.
  unfold group_keys. now apply sorted_StronglySorted.
Qed.
End GroupByFacts.

(* ===================================================================== *)
(** * data_cleansing.py *)
(* ===================================================================== *)

(** ** Codebooks *)

Lemma codebook_values_In s series :
  In s (codebook_values series) <-> In s (strings_of series).
Proof.
  unfold codebook_values. rewrite sorted_In.
  apply unique_In. apply String.eqb_eq.
Qed.

Lemma codebook_values_NoDup series : NoDup (codebook_values series).
Proof.
  unfold codebook_values.
  eapply Permutation_NoDup; [symmetry; apply sorted_perm|].
  apply unique_NoDup. apply String.eqb_eq.
Qed.

Lemma codebook_values_sorted series :
  StronglySorted (key_le (fun s => s) String.leb) (codebook_values series).
Proof.
  apply sorted_StronglySorted.
  - apply String.leb_total.
  - apply string_leb_trans.
Qed.

Lemma enumerate_keys {A B} (f : nat -> B) (l : list A) start :
  map fst (map (fun iv : nat * A => (snd iv, f (fst iv)))
               (combine (seq start (List.length l)) l)) = l.
Proof.
  revert start. induction l as [|x l IH]; intros start; simpl; auto.
  f_equal. apply IH.
Qed.

Lemma make_codebook_items series prefix :
  DataCleansing.make_codebook series prefix =
  map (fun iv => (snd iv, (prefix ++ Py.zfill 4 (Py.str_nat (fst iv + 1)))%string))
      (Py.enumerate (codebook_values series)).
Proof.
  unfold DataCleansing.make_codebook. fold (strings_of series).
  fold (codebook_values series).
  apply dict_of_items_NoDup. unfold Py.enumerate.
  rewrite (enumerate_keys (fun i => (prefix ++ Py.zfill 4 (Py.str_nat (i + 1)))%string)).
  apply codebook_values_NoDup.
Qed.

Lemma make_codebook_keys series prefix :
  Py.Dict.keys (DataCleansing.make_codebook series prefix) = codebook_values series.
Proof.
  rewrite make_codebook_items. unfold Py.Dict.keys, Py.enumerate.
  apply (enumerate_keys (fun i => (prefix ++ Py.zfill 4 (Py.str_nat (i + 1)))%string)).
Qed.

(** Looking a string up in the numbered items of an ascending list without
    repetition: its number is the count of the entries below it. *)
Lemma get_enumerated (g : nat -> string) s :
  forall vals start,
    StronglySorted (key_le (fun s => s) String.leb) vals ->
    NoDup vals ->
    Py.Dict.get s (map (fun iv : nat * string => (snd iv, g (fst iv)))
                       (combine (seq start (List.length vals)) vals))
    = if in_dec string_dec s vals
      then Some (g (start + List.length (filter (fun t => String.ltb t s) vals)))
      else None.
Proof.
  induction vals as [|v vals IH]; intros start HS N; simpl; auto.
  inversion HS as [|? ? S' F]; inversion N as [|? ? Nv N']; subst.
  rewrite Forall_forall in F.
  destruct (String.eqb_spec v s) as [Evs|Hvs].
  - subst v. destruct (string_dec s s) as [Hss|]; [|congruence].
    assert (E : String.ltb s s = false).
    { unfold String.ltb. now rewrite string_compare_refl. }
    rewrite E.
    assert (Hf : filter (fun t => String.ltb t s) vals = []).
    { apply filter_none. intros t Ht.
      destruct (String.ltb t s) eqn:Ets; auto.
      apply string_ltb_leb_neq in Ets. destruct Ets as [L Hne].
      exfalso. apply Hne. apply String.leb_antisym; auto. now apply F. }
    rewrite Hf. simpl. now rewrite Nat.add_0_r.
  - rewrite (IH (S start) S' N').
    destruct (string_dec v s) as [|Hne]; [contradiction|].
    destruct (in_dec string_dec s vals) as [Hin|Hout].
    + assert (E : String.ltb v s = true).
      { apply string_ltb_leb_neq. split; auto. now apply F. }
      rewrite E. simpl. f_equal. f_equal. lia.
    + reflexivity.
Qed.

Lemma rank_codebook_values s series :
  S (List.length (filter (fun t => String.ltb t s) (codebook_values series)))
  = rank s (strings_of series).
Proof.
  unfold rank. f_equal. apply Permutation_length. apply Permutation_filter.
  apply NoDup_Permutation.
  - apply codebook_values_NoDup.
  - apply NoDup_nodup.
  - intros x. rewrite codebook_values_In, nodup_In. tauto.
Qed.

Lemma make_codebook_get series prefix s :
  Py.Dict.get s (DataCleansing.make_codebook series prefix)
  = if in_dec string_dec s (strings_of series)
    then Some (prefix ++ zero_pad (rank s (strings_of series)) 4)%string
    else None.
Proof.
  rewrite make_codebook_items. unfold Py.enumerate.
  rewrite (get_enumerated (fun i => (prefix ++ Py.zfill 4 (Py.str_nat (i + 1)))%string)).
  - destruct (in_dec string_dec s (codebook_values series)) as [H|H];
      destruct (in_dec string_dec s (strings_of series)) as [H'|H'];
      rewrite codebook_values_In in H; try contradiction; auto.
    simpl. rewrite zfill_str_nat, Nat.add_1_r, rank_codebook_values. reflexivity.
  - apply codebook_values_sorted.
  - apply codebook_values_NoDup.
Qed.

Lemma codebook_values_ext series series' :
  (forall s, In s (strings_of series) <-> In s (strings_of series')) ->
  codebook_values series' = codebook_values series.
Proof.
  intros H. apply (sorted_unique String.leb String.leb_antisym).
  - apply codebook_values_sorted.
  - apply codebook_values_sorted.
  - apply codebook_values_NoDup.
  - apply codebook_values_NoDup.
  - intros x. rewrite !codebook_values_In. symmetry. apply H.
Qed.

Lemma strings_of_perm series series' :
  Permutation series series' -> Permutation (strings_of series) (strings_of series').
Proof.
  intros H. unfold strings_of, dropna. apply Permutation_map.
  now apply Permutation_filter.
Qed.

(** C1.  [make_codebook] returns exactly the mapping that sends each distinct
    non-null value, in its string form, to the prefix followed by the
    zero-padded (width 4) 1-based rank of that string in ascending
    lexicographic order of the distinct strings, and nothing else; it has one
    entry per distinct string; it depends neither on the order nor on the
    multiplicity of the input; an empty input gives an empty mapping; and
    Latte, Mocha, Latte, Chai with prefix MTI give Chai MTI0001, Latte
    MTI0002, Mocha MTI0003. *)
Theorem make_codebook_spec :
  forall (series : list cell) (prefix : string),
    (forall s,
        Py.Dict.get s (DataCleansing.make_codebook series prefix)
        = if in_dec string_dec s (strings_of series)
          then Some (prefix ++ zero_pad (rank s (strings_of series)) 4)%string
          else None)
    /\ NoDup (Py.Dict.keys (DataCleansing.make_codebook series prefix))
    /\ (forall series',
           (forall s, In s (strings_of series) <-> In s (strings_of series')) ->
           DataCleansing.make_codebook series' prefix
           = DataCleansing.make_codebook series prefix)
    /\ (forall series',
           Permutation series series' ->
           DataCleansing.make_codebook series' prefix
           = DataCleansing.make_codebook series prefix)
    /\ DataCleansing.make_codebook [] prefix = []
    /\ DataCleansing.make_codebook
         [Str "Latte"; Str "Mocha"; Str "Latte"; Str "Chai"] "MTI"
       = [("Chai", "MTI0001"); ("Latte", "MTI0002"); ("Mocha", "MTI0003")].
Proof.
  intros series prefix.
  assert (Hext : forall series',
             (forall s, In s (strings_of series) <-> In s (strings_of series')) ->
             DataCleansing.make_codebook series' prefix
             = DataCleansing.make_codebook series prefix).
  { intros series' H. rewrite !make_codebook_items.
    now rewrite (codebook_values_ext series series' H). }
  split; [|split; [|split; [|split; [|split]]]].
  - intros s. apply make_codebook_get.
  - rewrite make_codebook_keys. apply codebook_values_NoDup.
  - exact Hext.
  - intros series' P. apply Hext. intros s.
    split; apply Permutation_in; [|symmetry]; now apply strings_of_perm.
  - reflexivity.
  - reflexivity.
Qed.

Lemma make_codebook_spec_witness :
  DataCleansing.make_codebook [Str "b"; NA; Str "a"; Str "a"] "MTI"
  = DataCleansing.make_codebook [Str "a"; Str "b"] "MTI"
  /\ DataCleansing.make_codebook [Int 7; Str "a"; NA] "MTM"
     = DataCleansing.make_codebook [Str "a"; Int 7; NA] "MTM".
Proof.
  split.
  - apply (proj1 (proj2 (proj2 (make_codebook_spec [Str "a"; Str "b"] "MTI")))).
    intros s. simpl. tauto.
  - apply (proj1 (proj2 (proj2 (proj2
             (make_codebook_spec [Str "a"; Int 7; NA] "MTM"))))).
    apply perm_swap.
Defined.

(** ** PII removal and the anonymisation loop *)

Lemma cols_to_drop_In c df :
  In c (DataCleansing.cols_to_drop df)
  <-> In c DataCleansing.pii_columns /\ In c (columns df).
Proof.
  unfold DataCleansing.cols_to_drop. rewrite filter_In, str_in_In. tauto.
Qed.

Lemma remove_pii_ok df :
  DataCleansing.remove_pii df
  = ret (filter (fun c => negb (str_in (fst c) DataCleansing.pii_columns)) df).
Proof.
  unfold DataCleansing.remove_pii. rewrite drop_present.
  - f_equal. apply filter_ext_in. intros [c d] H. cbn [fst]. f_equal.
    destruct (str_in c DataCleansing.pii_columns) eqn:E.
    + apply str_in_In. apply cols_to_drop_In. split.
      * now apply str_in_In.
      * apply columns_In. eauto.
    + apply str_in_false. apply str_in_false in E.
      rewrite cols_to_drop_In. tauto.
  - intros c H. now apply cols_to_drop_In in H.
Qed.

(** Whatever one round of the loop returns has the labels it started with,
    and possibly the ID label. *)
Lemma anonymize_column_columns st entry st' :
  DataCleansing.anonymize_column st entry = inr st' ->
  forall c, In c (columns (DataCleansing.df_clean st')) ->
            In c (columns (DataCleansing.df_clean st)) \/ c = fst (snd entry).
Proof.
  unfold DataCleansing.anonymize_column.
  destruct (negb (str_in (fst entry) (columns (DataCleansing.df_clean st)))).
  - intros [= <-]. simpl. auto.
  - destruct (series (fst entry) (DataCleansing.df_clean st)) as [e|data];
      simpl; [discriminate|].
    match goal with |- context [drop ?cs ?df] => destruct (drop cs df) as [e|df2] eqn:D end;
      simpl; [discriminate|].
    intros [= <-]. simpl. intros c Hc.
    unfold drop in D.
    match type of D with
    | match ?l with _ => _ end = _ => destruct l; [|discriminate]
    end.
    inversion D; subst. apply columns_In in Hc. destruct Hc as [d Hd].
    apply filter_In in Hd. destruct Hd as [Hd _].
    apply In_setitem in Hd. destruct Hd as [[-> _]|[_ Hd]]; auto.
    left. apply columns_In. eauto.
Qed.

(** One round of the loop on a frame with distinct labels. *)
Lemma anonymize_column_step st src id prefix :
  NoDup (columns (DataCleansing.df_clean st)) ->
  src <> id ->
  exists st',
    DataCleansing.anonymize_column st (src, (id, prefix)) = inr st'
    /\ NoDup (columns (DataCleansing.df_clean st'))
    /\ ((In src (columns (DataCleansing.df_clean st))
         /\ exists data f line,
             In (src, data) (DataCleansing.df_clean st)
             /\ (forall c d,
                    In (c, d) (DataCleansing.df_clean st') <->
                    (c = id /\ d = generated_ids data prefix)
                    \/ (c <> id /\ c <> src
                        /\ In (c, d) (DataCleansing.df_clean st)))
             /\ DataCleansing.saved st' = DataCleansing.saved st ++ [f]
             /\ DataCleansing.mf_header f = (src, id)
             /\ DataCleansing.mf_rows f
                = Py.Dict.items (DataCleansing.make_codebook data prefix)
             /\ DataCleansing.out st' = DataCleansing.out st ++ [line])
        \/ (~ In src (columns (DataCleansing.df_clean st))
            /\ DataCleansing.df_clean st' = DataCleansing.df_clean st
            /\ DataCleansing.saved st' = DataCleansing.saved st
            /\ DataCleansing.out st'
               = DataCleansing.out st ++ [DataCleansing.skip_notice src])).
Proof.
  intros N Hne. unfold DataCleansing.anonymize_column. cbn [fst snd].
  destruct (str_in src (columns (DataCleansing.df_clean st))) eqn:E; cbn [negb].
  - apply str_in_In in E.
    destruct (series_present src _ N E) as [data [Hin [_ Hs]]].
    rewrite Hs. cbn [bind ret].
    set (ids := map (DataCleansing.map_codebook
                       (DataCleansing.make_codebook data prefix)) data).
    set (df1 := setitem id ids (DataCleansing.df_clean st)).
    assert (Hsrc1 : In src (columns df1)).
    { apply columns_In. exists data. apply In_setitem. right. auto. }
    rewrite (drop_present [src] df1).
    2:{ intros c [<-|[]]. exact Hsrc1. }
    cbn [bind ret].
    eexists. split; [reflexivity|]. cbn [DataCleansing.df_clean
      DataCleansing.saved DataCleansing.out].
    split.
    { apply NoDup_map_filter. now apply NoDup_columns_setitem. }
    left. split; [exact E|].
    match goal with
    | |- context [DataCleansing.saved st ++ [fst ?w]] => set (written := w)
    end.
    exists data, (fst written), (snd written). split; [exact Hin|]. split.
    { intros c d. rewrite filter_In. unfold df1. rewrite In_setitem.
      cbn [fst str_in existsb]. rewrite orb_false_r.
      fold ids. unfold generated_ids. fold ids.
      destruct (String.eqb_spec c src) as [->|Hc]; cbn [negb].
      - split.
        + intros [_ H]. discriminate.
        + intros [[-> _]|[_ [H _]]]; congruence.
      - split.
        + intros [[[-> ->]|[H1 H2]] _]; auto.
        + intros [[-> ->]|[H1 [_ H2]]]; auto. }
    split; [reflexivity|].
    assert (Hw : DataCleansing.mf_header (fst written) = (src, id)
                 /\ DataCleansing.mf_rows (fst written)
                    = Py.Dict.items (DataCleansing.make_codebook data prefix)).
    { unfold written.
      destruct (String.eqb_spec src "Item Name") as [->|H1]; [now split|].
      destruct (String.eqb_spec src "Item Modifiers") as [->|H2]; now split. }
    destruct Hw as [Hw1 Hw2]. repeat split; auto.
  - apply str_in_false in E. eexists. split; [reflexivity|].
    cbn [DataCleansing.df_clean DataCleansing.saved DataCleansing.out].
    split; [exact N|]. right. repeat split; auto.
Qed.

(** Non-null values always have an entry in the codebook built from their
    own column. *)
Lemma make_codebook_covers data prefix v :
  In v data -> v <> NA ->
  exists i,
    Py.Dict.get (astype_str v) (DataCleansing.make_codebook data prefix) = Some i
    /\ DataCleansing.map_codebook (DataCleansing.make_codebook data prefix) v
       = Str i.
Proof.
  intros Hin Hv. unfold DataCleansing.map_codebook.
  rewrite make_codebook_get.
  destruct (in_dec string_dec (astype_str v) (strings_of data)) as [H|H].
  - eexists. split; reflexivity.
  - exfalso. apply H. unfold strings_of, dropna. apply in_map.
    apply filter_In. split; auto. destruct v; auto; congruence.
Qed.

Lemma remove_pii_In c (d : list cell) (df : frame) :
  ~ In c DataCleansing.pii_columns ->
  (In (c, d) (filter (fun e => negb (str_in (fst e) DataCleansing.pii_columns)) df)
   <-> In (c, d) df).
Proof.
  intros H. rewrite filter_In. cbn [fst].
  apply str_in_false in H. rewrite H. simpl. tauto.
Qed.

Lemma main_unfold df :
  DataCleansing.main df =
  (st1 <- DataCleansing.anonymize_column (initial_state df)
                                        ("Item Name", ("Item ID", "MTI")) ;;
   st2 <- DataCleansing.anonymize_column st1
                                        ("Item Modifiers", ("Modifier ID", "MTM")) ;;
   ret (final_state st2)).
Proof.
  unfold DataCleansing.main. rewrite remove_pii_ok. cbn [bind ret].
  cbn [DataCleansing.SENSITIVE_CATEGORICALS foldM].
  fold (pii_free df). fold (initial_state df).
  destruct (DataCleansing.anonymize_column (initial_state df) _) as [e|st1];
    cbn [bind ret]; auto.
  destruct (DataCleansing.anonymize_column st1 _) as [e|st2];
    cbn [bind ret]; auto.
Qed.

Lemma pii_free_NoDup df : NoDup (columns df) -> NoDup (columns (pii_free df)).
Proof. apply NoDup_map_filter. Qed.

Lemma pii_free_no_pii df c :
  In c DataCleansing.pii_columns -> ~ In c (columns (pii_free df)).
Proof.
  intros Hc H. apply columns_In in H. destruct H as [d H].
  apply filter_In in H. destruct H as [_ H]. cbn [fst] in H.
  apply str_in_In in Hc. rewrite Hc in H. discriminate.
Qed.

(** C7.  Removing PII never fails and drops exactly the columns that carry a
    PII label, whichever of them the input has; none of the PII column names
    is a column of the anonymised output; and on an input with distinct
    column labels, as [read_csv] delivers it, the run completes. *)
Theorem pii_columns_removed :
  forall df : frame,
    DataCleansing.remove_pii df
    = ret (filter (fun c => negb (str_in (fst c) DataCleansing.pii_columns)) df)
    /\ (forall st,
           DataCleansing.main df = inr st ->
           forall c, In c DataCleansing.pii_columns ->
                     ~ In c (columns (DataCleansing.df_clean st)))
    /\ (NoDup (columns df) -> exists st, DataCleansing.main df = inr st).
Proof.
  intros df. split; [apply remove_pii_ok|]. split.
  - intros st. rewrite main_unfold.
    destruct (DataCleansing.anonymize_column (initial_state df) _)
      as [e|st1] eqn:E1; cbn [bind ret]; [discriminate|].
    destruct (DataCleansing.anonymize_column st1 _)
      as [e|st2] eqn:E2; cbn [bind ret]; [discriminate|].
    intros [= <-] c Hc H. cbn [final_state DataCleansing.df_clean] in H.
    destruct (anonymize_column_columns _ _ _ E2 c H) as [H1| ->].
    + destruct (anonymize_column_columns _ _ _ E1 c H1) as [H0| ->].
      * revert H0. now apply pii_free_no_pii.
      * cbn in Hc. intuition discriminate.
    + cbn in Hc. intuition discriminate.
  - intros N. rewrite main_unfold.
    destruct (anonymize_column_step (initial_state df) "Item Name" "Item ID" "MTI")
      as [st1 [E1 [N1 _]]]; [now apply pii_free_NoDup|discriminate|].
    destruct (anonymize_column_step st1 "Item Modifiers" "Modifier ID" "MTM")
      as [st2 [E2 _]]; [assumption|discriminate|].
    rewrite E1. cbn [bind]. rewrite E2. cbn [bind ret]. eauto.
Qed.

Lemma pii_columns_removed_witness :
  exists st,
    DataCleansing.main
      [("Order Name", [Str "Ann"]); ("Item Name", [Str "Latte"]);
       ("Order Total", [Str "4.50"])] = inr st.
Proof.
  apply (proj2 (proj2 (pii_columns_removed
      [("Order Name", [Str "Ann"]); ("Item Name", [Str "Latte"]);
       ("Order Total", [Str "4.50"])]))).
  cbn. repeat constructor; cbn; intuition discriminate.
Defined.

(** C6.  On an input with distinct column labels, as [read_csv] delivers it,
    the run completes, and for every configured sensitive column: when the
    input has it, the output has the generated ID column, holding for each
    row the ID of that row's original value, and no longer has the original
    column; the mapping file written for it is the codebook of the column,
    and every non-null original value is a key of that mapping whose ID is
    the one that replaced it; when the input lacks it, the column is skipped
    with a notice and no mapping file is written for it. *)
Theorem sensitive_columns_anonymised :
  forall df : frame,
    NoDup (columns df) ->
    exists st,
      DataCleansing.main df = inr st
      /\ forall src id prefix,
          In (src, (id, prefix)) DataCleansing.SENSITIVE_CATEGORICALS ->
          (In src (columns df) ->
           exists data f,
             getitem src df = OneColumn data
             /\ getitem id (DataCleansing.df_clean st)
                = OneColumn (generated_ids data prefix)
             /\ ~ In src (columns (DataCleansing.df_clean st))
             /\ In f (DataCleansing.saved st)
             /\ DataCleansing.mf_header f = (src, id)
             /\ DataCleansing.mf_rows f
                = Py.Dict.items (DataCleansing.make_codebook data prefix)
             /\ (forall v, In v data -> v <> NA ->
                  exists i,
                    In (astype_str v, i) (DataCleansing.mf_rows f)
                    /\ DataCleansing.map_codebook
                         (DataCleansing.make_codebook data prefix) v = Str i))
          /\ (~ In src (columns df) ->
              In (DataCleansing.skip_notice src) (DataCleansing.out st)
              /\ forall f, In f (DataCleansing.saved st) ->
                           fst (DataCleansing.mf_header f) <> src).
Proof.
  intros df N. rewrite main_unfold.
  pose proof (pii_free_NoDup df N) as N0.
  destruct (anonymize_column_step (initial_state df) "Item Name" "Item ID" "MTI")
    as [st1 [E1 [N1 P1]]]; [assumption|discriminate|].
  destruct (anonymize_column_step st1 "Item Modifiers" "Modifier ID" "MTM")
    as [st2 [E2 [N2 P2]]]; [assumption|discriminate|].
  rewrite E1. cbn [bind]. rewrite E2. cbn [bind ret].
  eexists. split; [reflexivity|].
  cbn [final_state DataCleansing.df_clean DataCleansing.saved DataCleansing.out].
  cbn [initial_state DataCleansing.df_clean DataCleansing.saved
         DataCleansing.out] in P1.
  assert (Hname : forall d, In ("Item Name", d) (pii_free df) <-> In ("Item Name", d) df).
  { intros d. apply remove_pii_In. cbn. intuition discriminate. }
  assert (Hmod : forall d, In ("Item Modifiers", d) (pii_free df)
                           <-> In ("Item Modifiers", d) df).
  { intros d. apply remove_pii_In. cbn. intuition discriminate. }
  (* what the two rounds did to the frame *)
  assert (Hmod1 : forall d, In ("Item Modifiers", d) (DataCleansing.df_clean st1)
                            <-> In ("Item Modifiers", d) df).
  { intros d. rewrite <- Hmod.
    destruct P1 as [[_ [data [f [line [_ [C _]]]]]]|[_ [-> _]]]; [|tauto].
    rewrite C. split.
    - intros [[H _]|[_ [_ H]]]; [discriminate|auto].
    - intros H. right. repeat split; auto; discriminate. }
  intros src id prefix [H|[H|[]]]; inversion H; subst src id prefix; clear H.
  - (* Item Name *)
    split.
    + intros Hin. apply columns_In in Hin. destruct Hin as [d0 Hd0].
      destruct P1 as [[_ [data [f [line [Hd [C [S1 [Hh [Hr _]]]]]]]]]|[Habs _]].
      2:{ exfalso. apply Habs. apply columns_In. exists d0. now apply Hname. }
      exists data, f.
      assert (Hid1 : In ("Item ID", generated_ids data "MTI")
                        (DataCleansing.df_clean st1)).
      { apply C. now left. }
      assert (Hgone1 : forall d, ~ In ("Item Name", d) (DataCleansing.df_clean st1)).
      { intros d Hd'. apply C in Hd'. destruct Hd' as [[Hx _]|[_ [Hx _]]];
          [discriminate|congruence]. }
      split; [apply getitem_OneColumn; [assumption|now apply Hname]|].
      split.
      { apply getitem_OneColumn; [assumption|].
        destruct P2 as [[_ [data2 [f2 [line2 [_ [C2 _]]]]]]|[_ [-> _]]]; auto.
        apply C2. right. repeat split; auto; discriminate. }
      split.
      { intros Hc. apply columns_In in Hc. destruct Hc as [d Hd'].
        destruct P2 as [[_ [data2 [f2 [line2 [_ [C2 _]]]]]]|[_ [E _]]].
        - apply C2 in Hd'. destruct Hd' as [[Hx _]|[_ [_ Hx]]];
            [discriminate|]. now apply (Hgone1 d).
        - rewrite E in Hd'. now apply (Hgone1 d). }
      split.
      { destruct P2 as [[_ [data2 [f2 [line2 [_ [_ [S2 _]]]]]]]|[_ [_ [S2 _]]]];
          rewrite S2, S1; cbn; auto. }
      repeat split; auto.
      intros v Hv Hna.
      destruct (make_codebook_covers data "MTI" v Hv Hna) as [i [G M]].
      exists i. split; auto. rewrite Hr. now apply dict_get_In.
    + intros Habs.
      destruct P1 as [[Hin _]|[_ [_ [S1 O1]]]].
      { exfalso. apply Habs. apply columns_In in Hin. destruct Hin as [d Hd].
        apply columns_In. exists d. now apply Hname. }
      destruct P2 as [[_ [data2 [f2 [line2 [_ [_ [S2 [Hh2 [_ O2]]]]]]]]]
                     |[_ [_ [S2 O2]]]]; rewrite O2, O1, S2, S1.
      * split.
        -- rewrite !in_app_iff. cbn. auto.
        -- intros f [<-|[]]. rewrite Hh2. discriminate.
      * split.
        -- rewrite !in_app_iff. cbn. auto.
        -- intros f [].
  - (* Item Modifiers *)
    split.
    + intros Hin. apply columns_In in Hin. destruct Hin as [d0 Hd0].
      destruct P2 as [[_ [data [f [line [Hd [C [S2 [Hh [Hr _]]]]]]]]]|[Habs _]].
      2:{ exfalso. apply Habs. apply columns_In. exists d0. now apply Hmod1. }
      exists data, f.
      split; [apply getitem_OneColumn; [assumption|now apply Hmod1]|].
      split.
      { apply getitem_OneColumn; [assumption|]. apply C. now left. }
      split.
      { intros Hc. apply columns_In in Hc. destruct Hc as [d Hd'].
        apply C in Hd'. destruct Hd' as [[Hx _]|[_ [Hx _]]];
          [discriminate|congruence]. }
      split.
      { rewrite S2. apply in_or_app. right. now left. }
      repeat split; auto.
      intros v Hv Hna.
      destruct (make_codebook_covers data "MTM" v Hv Hna) as [i [G M]].
      exists i. split; auto. rewrite Hr. now apply dict_get_In.
    + intros Habs.
      destruct P2 as [[Hin _]|[_ [_ [S2 O2]]]].
      { exfalso. apply Habs. apply columns_In in Hin. destruct Hin as [d Hd].
        apply columns_In. exists d. now apply Hmod1. }
      rewrite O2, S2. split.
      * rewrite !in_app_iff. cbn. auto.
      * destruct P1 as [[_ [data1 [f1 [line1 [_ [_ [S1 [Hh1 _]]]]]]]]
                       |[_ [_ [S1 _]]]]; rewrite S1.
        -- intros f [<-|[]]. rewrite Hh1. discriminate.
        -- intros f [].
Qed.

Lemma sensitive_columns_anonymised_witness :
  exists st,
    DataCleansing.main
      [("Order Name", [Str "Ann"; Str "Bob"]);
       ("Item Name", [Str "Latte"; NA]);
       ("Order Total", [Str "4.50"; Str "5.00"])] = inr st.
Proof.
  destruct (sensitive_columns_anonymised
      [("Order Name", [Str "Ann"; Str "Bob"]);
       ("Item Name", [Str "Latte"; NA]);
       ("Order Total", [Str "4.50"; Str "5.00"])]) as [st [H _]].
  - cbn. repeat constructor; cbn; intuition discriminate.
  - exists st. exact H.
Defined.

(* ===================================================================== *)
(** * make_daily_revenue_weather_v1.py *)
(* ===================================================================== *)

(** ** Column normalisation *)

Section Normalize.
Variable df : frame.

Lemma lower_cols_mem a :
  Py.Dict.mem a (RevenueWeather.lower_cols df)
  = str_in a (map Py.lower (columns df)).
Proof.
  unfold RevenueWeather.lower_cols, Py.Dict.of_items.
  rewrite dict_fold_set_mem. rewrite map_map. cbn [fst].
  unfold Py.Dict.mem. simpl. now rewrite orb_false_r.
Qed.

Lemma first_alias_resolve aliases :
  RevenueWeather.first_alias (RevenueWeather.lower_cols df) aliases
  = resolve_alias df aliases.
Proof.
  unfold RevenueWeather.first_alias, resolve_alias.
  induction aliases as [|a l IH]; simpl; auto.
  rewrite lower_cols_mem, IH. reflexivity.
Qed.

Lemma lower_cols_get a col :
  Py.Dict.get a (RevenueWeather.lower_cols df) = Some col ->
  In col (columns df) /\ Py.lower col = a.
Proof.
  unfold RevenueWeather.lower_cols, Py.Dict.of_items. intros H.
  apply dict_fold_set_get in H. destruct H as [H|H]; [|discriminate].
  apply in_map_iff in H. destruct H as [c [E Hc]]. inversion E; subst. auto.
Qed.

Lemma col_of_Some target col :
  col_of df target = Some col ->
  In col (columns df) /\ In (Py.lower col) (aliases_of target)
  /\ resolve_alias df (aliases_of target) = Some (Py.lower col).
Proof.
  unfold col_of. rewrite first_alias_resolve.
  destruct (resolve_alias df (aliases_of target)) as [a|] eqn:E; [|discriminate].
  intros H. apply lower_cols_get in H. destruct H as [H1 H2]. subst a.
  split; auto. split; auto.
  unfold resolve_alias in E. now apply find_some in E.
Qed.

Lemma col_of_None target :
  col_of df target = None <-> resolve_alias df (aliases_of target) = None.
Proof.
  unfold col_of. rewrite first_alias_resolve.
  destruct (resolve_alias df (aliases_of target)) as [a|] eqn:E.
  - split; [|discriminate]. intros H. exfalso.
    unfold resolve_alias in E. apply find_some in E. destruct E as [_ E].
    rewrite <- lower_cols_mem in E. unfold Py.Dict.mem in E.
    now rewrite H in E.
  - tauto.
Qed.

(** The alias lists of different targets share no name. *)
Lemma aliases_disjoint t t' a :
  In t RevenueWeather.required -> In t' RevenueWeather.required ->
  In a (aliases_of t) -> In a (aliases_of t') -> t = t'.
Proof.
  cbn. intros [<-|[<-|[<-|[]]]] [<-|[<-|[<-|[]]]]; cbn; auto;
    intuition (subst; try discriminate).
Qed.

Lemma col_of_inj t t' col :
  In t RevenueWeather.required -> In t' RevenueWeather.required ->
  col_of df t = Some col -> col_of df t' = Some col -> t = t'.
Proof.
  intros Ht Ht' H H'. apply col_of_Some in H, H'.
  apply (aliases_disjoint t t' (Py.lower col)); tauto.
Qed.

Lemma renamed_of_fold :
  RevenueWeather.renamed_of (RevenueWeather.lower_cols df)
  = fold_left (fun renamed target =>
                 match col_of df target with
                 | Some col => Py.Dict.set col target renamed
                 | None => renamed
                 end) RevenueWeather.required [].
Proof.
  unfold RevenueWeather.renamed_of, col_of. cbn [fold_left
    RevenueWeather.WEATHER_COLUMN_ALIASES RevenueWeather.required fst snd].
  change ["date"; "day"; "obs_date"] with (aliases_of "date").
  change ["temp"; "temperature"; "temp_f"; "tavg"] with (aliases_of "temp").
  change ["rain"; "precip"; "precipitation"; "rainfall"; "prcp"]
    with (aliases_of "rain").
  destruct (RevenueWeather.first_alias (RevenueWeather.lower_cols df)
                                       (aliases_of "date"));
    destruct (RevenueWeather.first_alias (RevenueWeather.lower_cols df)
                                         (aliases_of "temp"));
    destruct (RevenueWeather.first_alias (RevenueWeather.lower_cols df)
                                         (aliases_of "rain"));
    reflexivity.
Qed.

Lemma renamed_get c target :
  Py.Dict.get c (RevenueWeather.renamed_of (RevenueWeather.lower_cols df))
  = Some target
  <-> In target RevenueWeather.required /\ col_of df target = Some c.
Proof.
  rewrite renamed_of_fold. cbn [fold_left RevenueWeather.required].
  assert (R : forall t, In t RevenueWeather.required ->
                        t = "date" \/ t = "temp" \/ t = "rain").
  { cbn. intuition. }
  assert (Hd : In "date" RevenueWeather.required) by (cbn; auto).
  assert (Ht : In "temp" RevenueWeather.required) by (cbn; auto).
  assert (Hr : In "rain" RevenueWeather.required) by (cbn; auto).
  destruct (col_of df "date") as [cd|] eqn:Ed;
    destruct (col_of df "temp") as [ct|] eqn:Et;
    destruct (col_of df "rain") as [cr|] eqn:Er;
    rewrite ?dict_get_set; cbn [Py.Dict.get];
    repeat match goal with
           | |- context [String.eqb ?x c] => destruct (String.eqb_spec x c); subst
           end;
    (split;
     [ intros H; inversion H; subst; split; auto
     | intros [H1 H2]; destruct (R _ H1) as [-> | [-> | ->]];
       try congruence ]);
    try (exfalso;
         match goal with
         | A : col_of df ?t = Some ?x, B : col_of df ?t' = Some ?x |- _ =>
             assert (t = t') by (apply (col_of_inj t t' x); cbn; auto);
             discriminate
         end).
Qed.
End Normalize.

Section NormalizeResult.
Variable df : frame.

Lemma rename_frame :
  rename (RevenueWeather.renamed_of (RevenueWeather.lower_cols df)) df
  = map (fun c => (new_label df (fst c), snd c)) df.
Proof.
  unfold rename, new_label. apply map_ext. intros [c d]. cbn [fst snd].
  now destruct (Py.Dict.get c _).
Qed.

Lemma columns_renamed :
  columns (rename (RevenueWeather.renamed_of (RevenueWeather.lower_cols df)) df)
  = map (new_label df) (columns df).
Proof.
  rewrite rename_frame. unfold columns. now rewrite !map_map.
Qed.

(** A target heads its own alias list and is in lower case. *)
Lemma target_own_alias t :
  In t RevenueWeather.required ->
  exists rest, aliases_of t = t :: rest /\ Py.lower t = t.
Proof.
  cbn. intros [<-|[<-|[<-|[]]]]; eexists; split; reflexivity.
Qed.

Lemma target_label_resolves t :
  In t RevenueWeather.required -> In t (columns df) ->
  resolve_alias df (aliases_of t) = Some t.
Proof.
  intros Ht Hin. destruct (target_own_alias t Ht) as [rest [E L]].
  rewrite E. unfold resolve_alias. cbn [find].
  assert (H : str_in t (map Py.lower (columns df)) = true).
  { apply str_in_In. rewrite <- L. now apply in_map. }
  now rewrite H.
Qed.

(** A target label is present after the rename exactly when one of its
    aliases matched. *)
Lemma target_present t :
  In t RevenueWeather.required ->
  (In t (map (new_label df) (columns df))
   <-> resolve_alias df (aliases_of t) <> None).
Proof.
  intros Ht. rewrite <- col_of_None. split.
  - intros H. apply in_map_iff in H. destruct H as [c [E Hc]].
    unfold new_label in E.
    destruct (Py.Dict.get c _) as [t'|] eqn:G.
    + subst t'. apply renamed_get in G. destruct G as [_ G]. congruence.
    + subst c. rewrite col_of_None, (target_label_resolves t Ht Hc).
      discriminate.
  - intros H. destruct (col_of df t) as [c|] eqn:E; [|congruence].
    apply in_map_iff. exists c. split.
    + unfold new_label.
      rewrite (proj2 (renamed_get df c t) (conj Ht E)). reflexivity.
    + now apply col_of_Some in E.
Qed.

Lemma missing_unresolved :
  filter (fun col =>
            negb (str_in col
                         (columns (rename (RevenueWeather.renamed_of
                                             (RevenueWeather.lower_cols df)) df))))
         RevenueWeather.required
  = unresolved df.
Proof.
  unfold unresolved. apply filter_ext_in. intros t Ht.
  rewrite columns_renamed.
  pose proof (target_present t Ht) as P.
  destruct (str_in t (map (new_label df) (columns df))) eqn:E.
  - apply str_in_In in E. apply P in E.
    destruct (resolve_alias df (aliases_of t)); [reflexivity|congruence].
  - apply str_in_false in E.
    destruct (resolve_alias df (aliases_of t)) eqn:R; [|reflexivity].
    exfalso. apply E. apply P. discriminate.
Qed.

Lemma normalize_unfold :
  RevenueWeather.normalize_weather_columns df
  = match unresolved df with
    | [] => select RevenueWeather.required
                   (map (fun c => (new_label df (fst c), snd c)) df)
    | missing => raise (ValueError (RevenueWeather.missing_message missing))
    end.
Proof.
  unfold RevenueWeather.normalize_weather_columns.
  rewrite missing_unresolved, rename_frame.
  now destruct (unresolved df).
Qed.

Hypothesis distinct : NoDup (map Py.lower (columns df)).

Lemma lower_cols_get_own c :
  In c (columns df) ->
  Py.Dict.get (Py.lower c) (RevenueWeather.lower_cols df) = Some c.
Proof.
  intros H. unfold RevenueWeather.lower_cols.
  rewrite dict_of_items_NoDup.
  - apply dict_get_NoDup.
    + unfold Py.Dict.keys. rewrite map_map. exact distinct.
    + apply in_map_iff. eauto.
  - rewrite map_map. exact distinct.
Qed.

Lemma new_label_target t c :
  In t RevenueWeather.required -> In c (columns df) ->
  (new_label df c = t <-> col_of df t = Some c).
Proof.
  intros Ht Hc. split.
  - unfold new_label. destruct (Py.Dict.get c _) as [t'|] eqn:G.
    + intros ->. now apply renamed_get in G.
    + intros ->. exfalso.
      assert (E : col_of df t = Some t).
      { unfold col_of. rewrite first_alias_resolve.
        rewrite (target_label_resolves t Ht Hc).
        destruct (target_own_alias t Ht) as [_ [_ L]].
        rewrite <- L at 1. now apply lower_cols_get_own. }
      rewrite (proj2 (renamed_get df t t) (conj Ht E)) in G. discriminate.
  - intros E. unfold new_label.
    now rewrite (proj2 (renamed_get df c t) (conj Ht E)).
Qed.

(** With labels distinct ignoring case, a resolved target labels exactly
    one column after the rename: the first (and only) input column whose
    lowercased name is the matched alias. *)
Lemma target_column t :
  In t RevenueWeather.required ->
  resolve_alias df (aliases_of t) <> None ->
  exists col,
    resolve df (aliases_of t) = Some col
    /\ filter (fun c => String.eqb (fst c) t)
              (map (fun c => (new_label df (fst c), snd c)) df)
       = [(t, snd col)].
Proof.
  intros Ht R. rewrite <- col_of_None in R.
  destruct (col_of df t) as [c|] eqn:E; [clear R|congruence].
  pose proof (col_of_Some df t c E) as [Hc [_ Ra]].
  pose proof Hc as Hcin.
  apply columns_In in Hc. destruct Hc as [d Hd].
  assert (Nf : NoDup (map (fun e : string * list cell => Py.lower (fst e)) df)).
  { unfold columns in distinct. now rewrite map_map in distinct. }
  exists (c, d). split.
  - unfold resolve. rewrite Ra.
    apply (find_unique_key (fun e : string * list cell => Py.lower (fst e))
                           (c, d) df Nf Hd).
  - rewrite (filter_map_swap (fun c0 : string * list cell =>
                                (new_label df (fst c0), snd c0))).
    cbn [fst snd].
    rewrite (filter_ext_in _ (fun e : string * list cell =>
                                String.eqb (fst e) (fst (c, d)))).
    + rewrite (filter_unique_key (fun e : string * list cell => fst e)).
      * cbn [map fst snd]. f_equal. f_equal.
        apply (proj2 (new_label_target t c Ht Hcin)). exact E.
      * fold (columns df). eapply NoDup_map_inv. exact distinct.
      * exact Hd.
    + intros [c' d'] Hin. cbn [fst].
      assert (Hc' : In c' (columns df)) by (apply columns_In; eauto).
      pose proof (new_label_target t c' Ht Hc') as P.
      destruct (String.eqb_spec (new_label df c') t) as [E1|E1];
        destruct (String.eqb_spec c' c) as [E2|E2]; auto.
      * apply P in E1. congruence.
      * subst c'. exfalso. apply E1. now apply P.
Qed.
End NormalizeResult.

Lemma unresolved_nil df t :
  unresolved df = [] -> In t RevenueWeather.required ->
  resolve_alias df (aliases_of t) <> None.
Proof.
  unfold unresolved. intros H Ht R.
  assert (Hin : In t (filter (fun target =>
            match resolve_alias df (aliases_of target) with
            | Some _ => false
            | None => true
            end) RevenueWeather.required)).
  { apply filter_In. split; auto. now rewrite R. }
  rewrite H in Hin. destruct Hin.
Qed.

(** What the normalisation does off the colliding labels.  Each target
    (date, temp, rain) is resolved by scanning its alias list in priority
    order against the lowercased input labels.  If some target has no
    matching alias, normalisation raises a validation error whose message
    lists exactly the unresolved targets.  Otherwise, on an input whose
    labels are pairwise distinct ignoring case, it returns exactly the
    columns date, temp, rain, each holding the data of the first input
    column whose lowercased label is the matched alias. *)
Theorem normalize_weather_columns_spec :
  forall df : frame,
    (unresolved df <> [] ->
     RevenueWeather.normalize_weather_columns df
     = raise (ValueError
                ("Weather file missing required columns. "
                 ++ "Expected columns like: date, temp, rain. "
                 ++ "Missing: " ++ Py.join ", " (unresolved df) ++ ".")%string))
    /\ (unresolved df = [] ->
        NoDup (map Py.lower (columns df)) ->
        exists d t r,
          resolve df (aliases_of "date") = Some d
          /\ resolve df (aliases_of "temp") = Some t
          /\ resolve df (aliases_of "rain") = Some r
          /\ RevenueWeather.normalize_weather_columns df
             = ret [("date", snd d); ("temp", snd t); ("rain", snd r)]).
Proof.
  intros df. rewrite normalize_unfold. split.
  - intros H. destruct (unresolved df); [congruence|reflexivity].
  - intros H N. rewrite H.
    destruct (target_column df N "date") as [d [Rd Fd]];
      [cbn; auto|apply unresolved_nil; cbn; auto|].
    destruct (target_column df N "temp") as [t [Rt Ft]];
      [cbn; auto|apply unresolved_nil; cbn; auto|].
    destruct (target_column df N "rain") as [r [Rr Fr]];
      [cbn; auto|apply unresolved_nil; cbn; auto|].
    exists d, t, r. repeat split; auto.
    unfold select.
    assert (P : forall x, In x RevenueWeather.required ->
                In x (columns (map (fun c => (new_label df (fst c), snd c)) df))).
    { intros x Hx.
      replace (columns (map (fun c => (new_label df (fst c), snd c)) df))
        with (map (new_label df) (columns df))
        by (unfold columns; now rewrite !map_map).
      apply target_present; auto. now apply unresolved_nil. }
    rewrite filter_none.
    + cbn [flat_map RevenueWeather.required]. rewrite Fd, Ft, Fr. reflexivity.
    + intros x Hx. apply P, str_in_In in Hx. now rewrite Hx.
Qed.

Lemma normalize_weather_columns_spec_witness :
  (exists e,
      RevenueWeather.normalize_weather_columns
        [("Day", [Str "2025-10-01"]); ("TEMP_F", [Str "70"])] = inl e)
  /\ RevenueWeather.normalize_weather_columns
       [("Day", [Str "2025-10-01"]); ("TEMP_F", [Str "70"]);
        ("station", [Str "KSJC"]); ("Prcp", [Str "0"])]
     = ret [("date", [Str "2025-10-01"]); ("temp", [Str "70"]);
            ("rain", [Str "0"])].
Proof.
  split.
  - eexists.
    apply (proj1 (normalize_weather_columns_spec
                    [("Day", [Str "2025-10-01"]); ("TEMP_F", [Str "70"])])).
    vm_compute. discriminate.
  - destruct (proj2 (normalize_weather_columns_spec
       [("Day", [Str "2025-10-01"]); ("TEMP_F", [Str "70"]);
        ("station", [Str "KSJC"]); ("Prcp", [Str "0"])]))
      as [d [t [r [Hd [Ht [Hr H]]]]]].
    + reflexivity.
    + vm_compute. repeat constructor; cbn; intuition discriminate.
    + rewrite H. vm_compute in Hd, Ht, Hr.
      inversion Hd; inversion Ht; inversion Hr; subst. reflexivity.
Defined.

(** C8, where the code departs from it.  The lowercased labels are the keys
    of a dictionary, so of several columns with the same name ignoring case
    the last one stands for the alias.  With the headers date, Date, temp,
    rain every target resolves, Date is the column renamed, and the
    selection returns four columns, the label date twice, where the claim
    says exactly the columns date, temp, rain.  With the headers Date, DATE,
    temp, rain the result has the three columns, but its date column holds
    the data of DATE and not of Date, the first input column whose lowercased
    name matches. *)
Theorem normalize_weather_columns_case_collision :
  (let df := [("date", [Str "2025-10-01"]); ("Date", [Str "2025-10-02"]);
              ("temp", [Str "70"]); ("rain", [Str "0"])] in
   unresolved df = []
   /\ resolve df (aliases_of "date") = Some ("date", [Str "2025-10-01"])
   /\ RevenueWeather.normalize_weather_columns df
      = inr [("date", [Str "2025-10-01"]); ("date", [Str "2025-10-02"]);
             ("temp", [Str "70"]); ("rain", [Str "0"])]
   /\ ~ (exists out,
            RevenueWeather.normalize_weather_columns df = inr out
            /\ columns out = ["date"; "temp"; "rain"]))
  /\ (let df := [("Date", [Str "2025-10-01"]); ("DATE", [Str "2025-10-02"]);
                 ("temp", [Str "70"]); ("rain", [Str "0"])] in
      resolve df (aliases_of "date") = Some ("Date", [Str "2025-10-01"])
      /\ RevenueWeather.normalize_weather_columns df
         = inr [("date", [Str "2025-10-02"]);
                ("temp", [Str "70"]); ("rain", [Str "0"])]).
Proof.
  cbv zeta. split.
  - repeat split; try reflexivity.
    intros [out [H C]]. vm_compute in H. inversion H; subst. discriminate.
  - split; reflexivity.
Qed.

(** ** load_weather *)

Lemma zip_weather_dates ds temps rains :
  map RevenueWeather.w_date (RevenueWeather.zip_weather ds temps rains)
  = map fst (combine ds (combine temps rains)).
Proof.
  unfold RevenueWeather.zip_weather. rewrite map_map. reflexivity.
Qed.

Section LoadWeather.
Variable to_datetime : list cell -> list (option timestamp).
Variable to_numeric : cell -> option Qc.

Lemma load_weather_unique_dates file w :
  RevenueWeather.load_weather to_datetime to_numeric file = inr w ->
  NoDup (map RevenueWeather.w_date w).
Proof.
  unfold RevenueWeather.load_weather. destruct file as [df|]; [|discriminate].
  destruct (RevenueWeather.normalize_weather_columns df) as [e|norm];
    cbn [bind]; [discriminate|].
  destruct (series "date" norm) as [e|dcol]; cbn [bind]; [discriminate|].
  destruct (series "temp" norm) as [e|tcol]; cbn [bind]; [discriminate|].
  destruct (series "rain" norm) as [e|rcol]; cbn [bind]; [discriminate|].
  destruct (RevenueWeather.all_present _) as [ds|]; [|discriminate].
  destruct (any (duplicated date_eqb ds)) eqn:D; [discriminate|].
  intros [= <-]. rewrite zip_weather_dates. apply NoDup_map_fst_combine.
  apply (duplicated_none date_eqb date_eqb_eq). exact D.
Qed.

(** The load of a file whose labels normalise to the three columns. *)
Lemma load_weather_normalized df dcol tcol rcol :
  RevenueWeather.normalize_weather_columns df
  = inr [("date", dcol); ("temp", tcol); ("rain", rcol)] ->
  RevenueWeather.load_weather to_datetime to_numeric (Some df)
  = match RevenueWeather.all_present (parsed_dates to_datetime dcol) with
    | None => raise (ValueError
                       "Weather file has invalid dates in the date column.")
    | Some ds =>
        if any (duplicated date_eqb ds)
        then raise (ValueError
               "Weather file has duplicate dates; expected 1 row per day.")
        else ret (RevenueWeather.zip_weather ds (map to_numeric tcol)
                                             (map to_numeric rcol))
    end.
Proof.
  intros H. unfold RevenueWeather.load_weather. rewrite H. reflexivity.
Qed.
End LoadWeather.




(** ** prepare_weather_from_raw *)

Lemma nth_half_sum a b i :
  nth i (RevenueWeather.half_sum a b) None = mean2 (nth i a None) (nth i b None).
Proof.
  unfold RevenueWeather.half_sum. revert b i.
  induction a as [|x a IH]; intros b i.
  - cbn [combine map]. destruct i; reflexivity.
  - destruct b as [|y b].
    + cbn [combine map]. destruct i; cbn [nth].
      * destruct x; reflexivity.
      * destruct (nth i a None); reflexivity.
    + destruct i; cbn [combine map nth].
      * destruct x, y; reflexivity.
      * apply IH.
Qed.

Lemma length_half_sum a b :
  List.length a = List.length b ->
  List.length (RevenueWeather.half_sum a b) = List.length a.
Proof.
  intros H. unfold RevenueWeather.half_sum.
  rewrite length_map, length_combine. lia.
Qed.

Lemma nth_fillna a b i :
  List.length a = List.length b ->
  nth i (RevenueWeather.fillna a b) None
  = match nth i a None with
    | Some x => Some x
    | None => nth i b None
    end.
Proof.
  unfold RevenueWeather.fillna. revert b i.
  induction a as [|x a IH]; intros b i H.
  - destruct b; [|discriminate]. destruct i; reflexivity.
  - destruct b as [|y b]; [discriminate|].
    destruct i; cbn [combine map nth fst snd].
    + destruct x; reflexivity.
    + apply IH. cbn in H. lia.
Qed.

Lemma length_fillna a b :
  List.length a = List.length b ->
  List.length (RevenueWeather.fillna a b) = List.length a.
Proof.
  intros H. unfold RevenueWeather.fillna.
  rewrite length_map, length_combine. lia.
Qed.

(** Grouping the zipped columns and averaging is the row-wise daily table. *)
Lemma groupby_mean_rows flags_tavg flags_tmax flags_tmin (rows : list station_row) :
  map (fun g => RevenueWeather.mk_weather
                  (fst g) (mean_skipna (map fst (snd g)))
                  (mean_skipna (map snd (snd g))))
      (groupby date_eqb date_leb
               (map (fun r => (s_date r,
                               (row_temp flags_tavg flags_tmax flags_tmin r,
                                s_prcp r))) rows))
  = daily_weather flags_tavg flags_tmax flags_tmin rows.
Proof.
  unfold groupby, daily_weather, group_keys, group. rewrite map_map.
  rewrite (keyed_rows s_date
             (fun r => (row_temp flags_tavg flags_tmax flags_tmin r, s_prcp r))).
  fold (dated rows). rewrite map_map. cbn [fst snd].
  apply map_ext. intros d. cbn [fst snd].
  rewrite (filter_map_swap
             (fun kr : date * station_row =>
                (fst kr, (row_temp flags_tavg flags_tmax flags_tmin (snd kr),
                          s_prcp (snd kr))))).
  cbn [fst]. rewrite !map_map. cbn [fst snd]. reflexivity.
Qed.

Lemma optional_numeric_absent to_numeric c (df : frame) :
  str_in c (columns df) = false ->
  RevenueWeather.optional_numeric to_numeric c df = inr None.
Proof.
  intros H. unfold RevenueWeather.optional_numeric. now rewrite H.
Qed.

Lemma optional_numeric_None to_numeric c (df : frame) r :
  str_in c (columns df) = false ->
  RevenueWeather.optional_numeric to_numeric c df = inr r -> r = None.
Proof.
  intros H E. rewrite (optional_numeric_absent _ _ _ H) in E. congruence.
Qed.

Lemma daily_weather_dates f1 f2 f3 rows :
  map RevenueWeather.w_date (daily_weather f1 f2 f3 rows)
  = Py.sorted (fun d => d) date_leb (unique date_eqb (map fst (dated rows))).
Proof.
  unfold daily_weather. rewrite map_map. cbn [RevenueWeather.w_date].
  apply map_id.
Qed.

Lemma dated_In d rows :
  In d (map fst (dated rows)) <-> In (Some d) (map s_date rows).
Proof.
  unfold dated. induction rows as [|r rows IH]; cbn [flat_map map]; [tauto|].
  rewrite map_app, in_app_iff, IH. cbn [In].
  destruct (s_date r) as [d'|]; cbn; split; intros H.
  - destruct H as [[H|[]]|H]; subst; auto.
  - destruct H as [H|H]; auto. inversion H; auto.
  - destruct H as [[]|H]; auto.
  - destruct H as [H|H]; [discriminate|auto].
Qed.

Section PrepareWeather.
Variable to_datetime : list cell -> list (option timestamp).
Variable to_numeric : cell -> option Qc.

Lemma prepare_unfold raw dcol pcol TAVG TMAX TMIN :
  series "DATE" (upper_labels raw) = inr dcol ->
  series "PRCP" (upper_labels raw) = inr pcol ->
  RevenueWeather.optional_numeric to_numeric "TAVG" (upper_labels raw) = inr TAVG ->
  RevenueWeather.optional_numeric to_numeric "TMAX" (upper_labels raw) = inr TMAX ->
  RevenueWeather.optional_numeric to_numeric "TMIN" (upper_labels raw) = inr TMIN ->
  RevenueWeather.prepare_weather_from_raw to_datetime to_numeric raw
  = (temp <- match TAVG, TMAX, TMIN with
             | Some tavg, Some tmax, Some tmin =>
                 ret (RevenueWeather.fillna tavg (RevenueWeather.half_sum tmax tmin))
             | Some tavg, _, _ => ret tavg
             | None, Some tmax, Some tmin => ret (RevenueWeather.half_sum tmax tmin)
             | None, _, _ =>
                 raise (ValueError
                   "Raw weather data must include TAVG or both TMAX and TMIN.")
             end ;;
     ret (map (fun g => RevenueWeather.mk_weather
                          (fst g) (mean_skipna (map fst (snd g)))
                          (mean_skipna (map snd (snd g))))
              (groupby date_eqb date_leb
                       (combine (parsed_dates to_datetime dcol)
                                (combine temp (map to_numeric pcol)))),
          ["Prepared weather file from raw data: data/external/daily_weather.csv"])).
Proof.
  intros Hd Hp Ha Hx Hn. unfold RevenueWeather.prepare_weather_from_raw.
  fold (upper_labels raw).
  rewrite (series_str_in _ _ _ Hd), (series_str_in _ _ _ Hp). cbn [negb orb].
  rewrite Hd, Hp. cbn [bind]. rewrite Ha, Hx, Hn. cbn [bind].
  reflexivity.
Qed.

Lemma prepare_rows raw dcol pcol TAVG TMAX TMIN :
  series "DATE" (upper_labels raw) = inr dcol ->
  series "PRCP" (upper_labels raw) = inr pcol ->
  RevenueWeather.optional_numeric to_numeric "TAVG" (upper_labels raw) = inr TAVG ->
  RevenueWeather.optional_numeric to_numeric "TMAX" (upper_labels raw) = inr TMAX ->
  RevenueWeather.optional_numeric to_numeric "TMIN" (upper_labels raw) = inr TMIN ->
  (has_column TAVG || (has_column TMAX && has_column TMIN))%bool = true ->
  List.length (map to_numeric pcol)
  = List.length (parsed_dates to_datetime dcol) ->
  column_length (List.length (parsed_dates to_datetime dcol)) TAVG ->
  column_length (List.length (parsed_dates to_datetime dcol)) TMAX ->
  column_length (List.length (parsed_dates to_datetime dcol)) TMIN ->
  RevenueWeather.prepare_weather_from_raw to_datetime to_numeric raw
  = inr (daily_weather (has_column TAVG) (has_column TMAX) (has_column TMIN)
                       (station_rows (parsed_dates to_datetime dcol)
                                     (map to_numeric pcol) TAVG TMAX TMIN),
         ["Prepared weather file from raw data: data/external/daily_weather.csv"]).
Proof.
  intros Hd Hp Ha Hx Hn Hflags Lp La Lx Ln.
  rewrite (prepare_unfold raw dcol pcol TAVG TMAX TMIN Hd Hp Ha Hx Hn).
  set (dates := parsed_dates to_datetime dcol) in *.
  set (prcp := map to_numeric pcol) in *.
  assert (Hrows : forall temp,
             List.length temp = List.length dates ->
             (forall i, i < List.length dates ->
                        nth i temp None
                        = row_temp (has_column TAVG) (has_column TMAX)
                                   (has_column TMIN)
                                   (mk_station (nth i dates None) (nth i prcp None)
                                               (column_at TAVG i) (column_at TMAX i)
                                               (column_at TMIN i))) ->
             map (fun g => RevenueWeather.mk_weather
                             (fst g) (mean_skipna (map fst (snd g)))
                             (mean_skipna (map snd (snd g))))
                 (groupby date_eqb date_leb (combine dates (combine temp prcp)))
             = daily_weather (has_column TAVG) (has_column TMAX) (has_column TMIN)
                             (station_rows dates prcp TAVG TMAX TMIN)).
  { intros temp Lt Ht.
    rewrite (combine3_rows dates temp prcp None None None
               (fun i => mk_station (nth i dates None) (nth i prcp None)
                                    (column_at TAVG i) (column_at TMAX i)
                                    (column_at TMIN i))
               (fun r => (s_date r,
                          (row_temp (has_column TAVG) (has_column TMAX)
                                    (has_column TMIN) r, s_prcp r)))); auto.
    - apply groupby_mean_rows.
    - intros i Hi. cbn [s_date s_prcp]. now rewrite (Ht i Hi). }
  assert (Hkeep : forall (tavg : list (option Qc)) i,
             nth i tavg None
             = match nth i tavg None with
               | Some t => Some t
               | None => None
               end).
  { intros tavg i. now destruct (nth i tavg None). }
  destruct TAVG as [tavg|], TMAX as [tmax|], TMIN as [tmin|];
    cbn in Hflags, La, Lx, Ln; try discriminate; cbn [bind ret].
  - rewrite Hrows; [reflexivity| |].
    + rewrite length_fillna; [exact La|]. rewrite length_half_sum; congruence.
    + intros i Hi. unfold row_temp.
      cbn [has_column s_tavg s_tmax s_tmin column_at andb].
      rewrite nth_fillna by (rewrite length_half_sum; congruence).
      now rewrite nth_half_sum.
  - rewrite Hrows; [reflexivity|exact La|].
    intros i Hi. unfold row_temp.
    cbn [has_column s_tavg s_tmax s_tmin column_at andb]. apply Hkeep.
  - rewrite Hrows; [reflexivity|exact La|].
    intros i Hi. unfold row_temp.
    cbn [has_column s_tavg s_tmax s_tmin column_at andb]. apply Hkeep.
  - rewrite Hrows; [reflexivity|exact La|].
    intros i Hi. unfold row_temp.
    cbn [has_column s_tavg s_tmax s_tmin column_at andb]. apply Hkeep.
  - rewrite Hrows; [reflexivity| |].
    + rewrite length_half_sum; congruence.
    + intros i Hi. unfold row_temp.
      cbn [has_column s_tavg s_tmax s_tmin column_at andb].
      apply nth_half_sum.
Qed.

Lemma prepare_no_temperature raw :
  str_in "TAVG" (columns (upper_labels raw)) = false ->
  str_in "TMAX" (columns (upper_labels raw)) = false
  \/ str_in "TMIN" (columns (upper_labels raw)) = false ->
  exists e,
    RevenueWeather.prepare_weather_from_raw to_datetime to_numeric raw = inl e.
Proof.
  intros Ha Hxn. unfold RevenueWeather.prepare_weather_from_raw.
  fold (upper_labels raw).
  destruct (negb (str_in "DATE" (columns (upper_labels raw)))
            || negb (str_in "PRCP" (columns (upper_labels raw))))%bool;
    [eexists; reflexivity|].
  destruct (series "DATE" (upper_labels raw)); cbn [bind]; [eexists; reflexivity|].
  destruct (series "PRCP" (upper_labels raw)); cbn [bind]; [eexists; reflexivity|].
  rewrite (optional_numeric_absent _ _ _ Ha). cbn [bind].
  destruct (RevenueWeather.optional_numeric to_numeric "TMAX" (upper_labels raw))
    as [e|TMAX] eqn:Ex; cbn [bind]; [eexists; reflexivity|].
  destruct (RevenueWeather.optional_numeric to_numeric "TMIN" (upper_labels raw))
    as [e|TMIN] eqn:En; cbn [bind]; [eexists; reflexivity|].
  destruct Hxn as [H|H].
  - rewrite (optional_numeric_None _ _ _ _ H Ex). cbn [bind]. eexists; reflexivity.
  - rewrite (optional_numeric_None _ _ _ _ H En).
    destruct TMAX; cbn [bind]; eexists; reflexivity.
Qed.
End PrepareWeather.

(** C5.  With the DATE and PRCP columns and the temperature columns each
    denoting one column of the relabelled file: the derivation fails when
    the file has neither an average column nor both a maximum and a minimum
    column; otherwise it succeeds and returns one row per parsed date, in
    ascending date order, holding the average over that date's observations
    of the row temperature (the average reading, filled with the mean of
    maximum and minimum where it is missing and both columns exist, or the
    mean of maximum and minimum when there is no average column) and of the
    precipitation; observations whose date does not parse are left out.  A
    file with no average label and without one of the other two labels fails
    whatever else it holds.  TMAX 80, TMIN 60, no TAVG, PRCP 0.0 on one date
    give temp 70 and rain 0. *)
Theorem prepare_weather_from_raw_spec :
  forall (to_datetime : list cell -> list (option timestamp))
         (to_numeric : cell -> option Qc),
    (forall raw dcol pcol TAVG TMAX TMIN,
        series "DATE" (upper_labels raw) = inr dcol ->
        series "PRCP" (upper_labels raw) = inr pcol ->
        RevenueWeather.optional_numeric to_numeric "TAVG" (upper_labels raw)
        = inr TAVG ->
        RevenueWeather.optional_numeric to_numeric "TMAX" (upper_labels raw)
        = inr TMAX ->
        RevenueWeather.optional_numeric to_numeric "TMIN" (upper_labels raw)
        = inr TMIN ->
        let dates := parsed_dates to_datetime dcol in
        let prcp := map to_numeric pcol in
        (TAVG = None -> TMAX = None \/ TMIN = None ->
         RevenueWeather.prepare_weather_from_raw to_datetime to_numeric raw
         = raise (ValueError
                    "Raw weather data must include TAVG or both TMAX and TMIN."))
        /\ ((has_column TAVG || (has_column TMAX && has_column TMIN))%bool = true ->
            List.length prcp = List.length dates ->
            column_length (List.length dates) TAVG ->
            column_length (List.length dates) TMAX ->
            column_length (List.length dates) TMIN ->
            RevenueWeather.prepare_weather_from_raw to_datetime to_numeric raw
            = inr (daily_weather (has_column TAVG) (has_column TMAX)
                                 (has_column TMIN)
                                 (station_rows dates prcp TAVG TMAX TMIN),
                   ["Prepared weather file from raw data: data/external/daily_weather.csv"])))
    /\ (forall raw,
           str_in "TAVG" (columns (upper_labels raw)) = false ->
           str_in "TMAX" (columns (upper_labels raw)) = false
           \/ str_in "TMIN" (columns (upper_labels raw)) = false ->
           exists e,
             RevenueWeather.prepare_weather_from_raw to_datetime to_numeric raw
             = inl e)
    /\ (forall f1 f2 f3 rows,
           NoDup (map RevenueWeather.w_date (daily_weather f1 f2 f3 rows))
           /\ StronglySorted (fun a b => date_ltb a b = true)
                             (map RevenueWeather.w_date
                                  (daily_weather f1 f2 f3 rows))
           /\ forall d,
               In d (map RevenueWeather.w_date (daily_weather f1 f2 f3 rows))
               <-> In (Some d) (map s_date rows))
    /\ (to_datetime [Str "2025-10-01"] = [Some (mkts (mkdate 2025 10 1) 0)] ->
        to_numeric (Int 80) = Some (num_of_Z 80) ->
        to_numeric (Int 60) = Some (num_of_Z 60) ->
        to_numeric (Str "0.0") = Some (num_of_Z 0) ->
        RevenueWeather.prepare_weather_from_raw to_datetime to_numeric
          [("DATE", [Str "2025-10-01"]); ("TMAX", [Int 80]);
           ("TMIN", [Int 60]); ("PRCP", [Str "0.0"])]
        = inr ([RevenueWeather.mk_weather (mkdate 2025 10 1)
                                          (Some (num_of_Z 70))
                                          (Some (num_of_Z 0))],
               ["Prepared weather file from raw data: data/external/daily_weather.csv"])).
Proof.
  intros to_datetime to_numeric. split; [|split; [|split]].
  - intros raw dcol pcol TAVG TMAX TMIN Hd Hp Ha Hx Hn dates prcp. split.
    + intros -> H.
      rewrite (prepare_unfold to_datetime to_numeric raw dcol pcol _ _ _
                              Hd Hp Ha Hx Hn).
      destruct H as [-> | ->]; [reflexivity|]. now destruct TMAX.
    + apply prepare_rows; assumption.
  - apply prepare_no_temperature.
  - intros f1 f2 f3 rows. rewrite daily_weather_dates.
    assert (N : NoDup (Py.sorted (fun d => d) date_leb
                                 (unique date_eqb (map fst (dated rows))))).
    { eapply Permutation_NoDup; [symmetry; apply sorted_perm|].
      apply unique_NoDup. apply date_eqb_eq. }
    split; [exact N|]. split.
    + apply (StronglySorted_strict (key_le (fun k => k) date_leb)).
      * intros x y Hle Hne. apply date_ltb_leb_neq. split; auto.
      * apply sorted_StronglySorted;
          [apply date_leb_total|apply date_leb_trans].
      * exact N.
    + intros d. rewrite sorted_In, (unique_In date_eqb date_eqb_eq).
      apply dated_In.
  - intros Hdt H80 H60 H0.
    rewrite (prepare_rows to_datetime to_numeric _
               [Str "2025-10-01"] [Str "0.0"] None
               (Some (map to_numeric [Int 80])) (Some (map to_numeric [Int 60])));
      try reflexivity; try exact I;
      try (unfold column_length, parsed_dates; rewrite Hdt; reflexivity).
    unfold parsed_dates. rewrite Hdt. cbn [map]. rewrite H80, H60, H0.
    reflexivity.
Qed.

Lemma prepare_weather_from_raw_spec_witness :
  (exists w out,
      RevenueWeather.prepare_weather_from_raw sample_to_datetime sample_to_numeric
        [("date", [Str "2025-10-01"; Str "2025-10-01"; Str "n/a"]);
         (" tavg", [NA; Int 64; Int 50]);
         ("TMAX ", [Int 80; Int 70; Int 60]);
         ("Tmin", [Int 60; Int 58; Int 40]);
         ("prcp", [Str "0.0"; Str "0.2"; Str "0.1"])]
      = inr (w, out)
      /\ map RevenueWeather.w_date w = [mkdate 2025 10 1])
  /\ (exists e,
         RevenueWeather.prepare_weather_from_raw sample_to_datetime sample_to_numeric
           [("DATE", [Str "2025-10-01"]); ("TMAX", [Int 80]);
            ("PRCP", [Str "0.0"])]
         = inl e)
  /\ RevenueWeather.prepare_weather_from_raw sample_to_datetime sample_to_numeric
       [("DATE", [Str "2025-10-01"]); ("TMAX", [Int 80]);
        ("TMIN", [Int 60]); ("PRCP", [Str "0.0"])]
     = inr ([RevenueWeather.mk_weather (mkdate 2025 10 1)
                                       (Some (num_of_Z 70))
                                       (Some (num_of_Z 0))],
            ["Prepared weather file from raw data: data/external/daily_weather.csv"]).
Proof.
  pose proof (prepare_weather_from_raw_spec sample_to_datetime sample_to_numeric)
    as [Rows [NoTemp [_ Scenario]]].
  split; [|split].
  - eexists. eexists. split.
    + apply (proj2 (Rows
        [("date", [Str "2025-10-01"; Str "2025-10-01"; Str "n/a"]);
         (" tavg", [NA; Int 64; Int 50]);
         ("TMAX ", [Int 80; Int 70; Int 60]);
         ("Tmin", [Int 60; Int 58; Int 40]);
         ("prcp", [Str "0.0"; Str "0.2"; Str "0.1"])]
        [Str "2025-10-01"; Str "2025-10-01"; Str "n/a"]
        [Str "0.0"; Str "0.2"; Str "0.1"]
        (Some (map sample_to_numeric [NA; Int 64; Int 50]))
        (Some (map sample_to_numeric [Int 80; Int 70; Int 60]))
        (Some (map sample_to_numeric [Int 60; Int 58; Int 40]))
        eq_refl eq_refl eq_refl eq_refl eq_refl)); reflexivity.
    + reflexivity.
  - apply NoTemp; [reflexivity|right; reflexivity].
  - apply Scenario.
    + reflexivity.
    + reflexivity.
    + reflexivity.
    + vm_compute. apply f_equal. apply Qc_is_canon. reflexivity.
Defined.

(** ** One weather row per date *)

(** Whatever [prepare_weather_from_raw] returns has one row per date. *)
Lemma prepare_unique_dates to_datetime to_numeric raw w out :
  RevenueWeather.prepare_weather_from_raw to_datetime to_numeric raw
  = inr (w, out) ->
  NoDup (map RevenueWeather.w_date w).
Proof.
  unfold RevenueWeather.prepare_weather_from_raw.
  destruct (negb _ || negb _)%bool; [discriminate|].
  destruct (series "DATE" _) as [e|dcol]; cbn [bind]; [discriminate|].
  destruct (series "PRCP" _) as [e|pcol]; cbn [bind]; [discriminate|].
  destruct (RevenueWeather.optional_numeric to_numeric "TAVG" _) as [e|TAVG];
    cbn [bind]; [discriminate|].
  destruct (RevenueWeather.optional_numeric to_numeric "TMAX" _) as [e|TMAX];
    cbn [bind]; [discriminate|].
  destruct (RevenueWeather.optional_numeric to_numeric "TMIN" _) as [e|TMIN];
    cbn [bind]; [discriminate|].
  match goal with
  | |- bind ?m _ = _ -> _ => destruct m as [e|temp]
  end; cbn [bind ret]; [discriminate|].
  intros [= <- _]. unfold groupby. rewrite !map_map.
  cbn [RevenueWeather.w_date fst]. rewrite map_id.
  apply (group_keys_NoDup date_eqb date_leb date_eqb_eq).
Qed.



(** ** load_orders and the daily revenue table *)

Lemma keep_both_parsed (rows : list (option timestamp * option Qc)) :
  filter (fun r => negb (RevenueWeather.is_none (fst r)
                         || RevenueWeather.is_none (snd r))) rows
  = map (fun r => (Some (fst r), Some (snd r))) (both_parsed rows).
Proof.
  induction rows as [|[[t|] [x|]] rows IH]; simpl; auto. now rewrite IH.
Qed.

Lemma any_is_none_false {A} (l : list (option A)) :
  any (map RevenueWeather.is_none l) = false ->
  forall o, In o l -> RevenueWeather.is_none o = false.
Proof.
  unfold any. induction l as [|x l IH]; simpl; [tauto|].
  rewrite orb_false_iff. intros [Hx Hl] o [<-|Ho]; auto.
Qed.

Lemma load_orders_ok to_datetime to_numeric (df : frame) dcol tcol :
  getitem "Order Date" df = OneColumn dcol ->
  getitem "Order Total" df = OneColumn tcol ->
  RevenueWeather.load_orders to_datetime to_numeric df
  = inr (map (fun r => (Some (fst r), Some (snd r)))
             (both_parsed (combine (to_datetime dcol) (map to_numeric tcol)))).
Proof.
  intros Hd Ht. unfold RevenueWeather.load_orders.
  assert (Hin : forall c data, getitem c df = OneColumn data -> In c (columns df)).
  { intros c data H.
    destruct (in_dec string_dec c (columns df)) as [|Hn]; auto.
    rewrite (getitem_NoColumn c df Hn) in H. discriminate. }
  assert (E1 : str_in "Order Date" (columns df) = true)
    by (apply str_in_In; eauto).
  assert (E2 : str_in "Order Total" (columns df) = true)
    by (apply str_in_In; eauto).
  cbn [filter]. rewrite E1, E2. cbn [negb].
  unfold series. rewrite Hd, Ht. cbn [bind ret].
  rewrite <- keep_both_parsed.
  destruct (any (map RevenueWeather.is_none (to_datetime dcol))
            || any (map RevenueWeather.is_none (map to_numeric tcol)))%bool eqn:B;
    [reflexivity|].
  apply orb_false_iff in B. destruct B as [B1 B2].
  unfold ret. f_equal. symmetry. apply filter_all.
  intros [t x] Hr. cbn [fst snd].
  rewrite (any_is_none_false _ B1 t), (any_is_none_false _ B2 x); auto.
  - now apply in_combine_r in Hr.
  - now apply in_combine_l in Hr.
Qed.

(** The daily table, group by group. *)
Lemma daily_revenue_rows (kept : list (timestamp * Qc)) :
  RevenueWeather.daily_revenue
    (map (fun r => (Some (fst r), Some (snd r))) kept)
  = map (fun d => RevenueWeather.mk_daily d (num_sum (totals_on d kept))
                                          (dayofweek d) (day_name d))
        (group_keys date_eqb date_leb
                    (map (fun r => (Some (ts_date (fst r)), Some (snd r))) kept)).
Proof.
  unfold RevenueWeather.daily_revenue. rewrite map_map. cbn [fst snd dt_date option_map].
  set (rows := map (fun r : timestamp * Qc => (Some (ts_date (fst r)), Some (snd r))) kept).
  unfold groupby. rewrite map_map. cbn [fst snd].
  rewrite sorted_fixpoint.
  - rewrite map_map. apply map_ext. intros d. cbn [fst snd]. f_equal.
    unfold sum_skipna, group, totals_on, rows.
    rewrite (keyed_Some (fun r : timestamp * Qc => ts_date (fst r))
                        (fun r : timestamp * Qc => Some (snd r))).
    rewrite (filter_map_swap (fun r : timestamp * Qc => (ts_date (fst r), Some (snd r)))).
    cbn [fst]. rewrite map_map. cbn [snd].
    rewrite <- (map_map snd Some). now rewrite present_map_Some.
  - pose proof (group_keys_sorted date_eqb date_leb date_leb_total date_leb_trans rows) as S.
    induction S as [|k ks Hks IH Hk]; simpl; constructor; auto.
    rewrite Forall_forall in *. intros y Hy.
    apply in_map_iff in Hy. destruct Hy as [z [<- Hz]].
    unfold key_le in *. cbn [fst]. auto.
Qed.

Lemma daily_revenue_dates (kept : list (timestamp * Qc)) :
  map RevenueWeather.d_date
      (RevenueWeather.daily_revenue
         (map (fun r => (Some (fst r), Some (snd r))) kept))
  = group_keys date_eqb date_leb
               (map (fun r => (Some (ts_date (fst r)), Some (snd r))) kept).
Proof.
  rewrite daily_revenue_rows, map_map. cbn [RevenueWeather.d_date].
  apply map_id.
Qed.

Lemma order_group_keys_In (kept : list (timestamp * Qc)) d :
  In d (group_keys date_eqb date_leb
                   (map (fun r => (Some (ts_date (fst r)), Some (snd r))) kept))
  <-> In d (map (fun r => ts_date (fst r)) kept).
Proof.
  rewrite (group_keys_In date_eqb date_leb date_eqb_eq).
  rewrite (keyed_Some (fun r : timestamp * Qc => ts_date (fst r))
                      (fun r : timestamp * Qc => Some (snd r))).
  rewrite map_map. cbn [fst]. tauto.
Qed.

(** C2, as amended.  With the two required columns present, [load_orders]
    keeps exactly the rows whose date and total both parse, and the daily
    table built from them has one row per calendar date of a kept row and no
    other; the revenue of a row is the sum of the parsed totals of that
    date, and the totals counted under the dates are, taken together, the
    totals of the kept rows, each counted under exactly one date; each row
    carries its weekday index (Monday is 0) and weekday name; the rows are in
    strictly ascending date order.  Orders of 10.00 and 5.00 on 2025-10-01
    and one with an unparseable total on 2025-10-02 give the single row
    2025-10-01 with revenue 15.00.  That the revenues add up to the sum of
    the kept totals is left out: in float64 they do so only up to
    rounding. *)
Theorem daily_revenue_spec :
  forall (to_datetime : list cell -> list (option timestamp))
         (to_numeric : cell -> option Qc),
    (forall (df : frame) (dcol tcol : list cell),
        getitem "Order Date" df = OneColumn dcol ->
        getitem "Order Total" df = OneColumn tcol ->
        let kept :=
          both_parsed (combine (to_datetime dcol) (map to_numeric tcol)) in
        exists orders,
          RevenueWeather.load_orders to_datetime to_numeric df = inr orders
          /\ orders = map (fun r => (Some (fst r), Some (snd r))) kept
          /\ let daily := RevenueWeather.daily_revenue orders in
             NoDup (map RevenueWeather.d_date daily)
             /\ (forall d, In d (map RevenueWeather.d_date daily)
                           <-> In d (map (fun r => ts_date (fst r)) kept))
             /\ (forall row,
                    In row daily ->
                    RevenueWeather.d_revenue row
                    = num_sum (totals_on (RevenueWeather.d_date row) kept)
                    /\ RevenueWeather.d_weekday row
                       = dayofweek (RevenueWeather.d_date row)
                    /\ RevenueWeather.d_weekday_name row
                       = nth (Z.to_nat (RevenueWeather.d_weekday row))
                             DAYS_FULL "")
             /\ Permutation
                  (flat_map (fun row =>
                               totals_on (RevenueWeather.d_date row) kept)
                            daily)
                  (map snd kept)
             /\ StronglySorted (fun a b => date_ltb a b = true)
                               (map RevenueWeather.d_date daily))
    /\ (forall d, (1 <= year d)%Z -> (1 <= month d <= 12)%Z -> (1 <= day d)%Z ->
                  (0 <= dayofweek d < 7)%Z)
    /\ (dayofweek (mkdate 2025 10 6) = 0%Z /\ day_name (mkdate 2025 10 6) = "Monday")
    /\ (to_datetime [Str "2025-10-01"; Str "2025-10-01"; Str "2025-10-02"]
        = [Some (mkts (mkdate 2025 10 1) 0); Some (mkts (mkdate 2025 10 1) 0);
           Some (mkts (mkdate 2025 10 2) 0)] ->
        to_numeric (Str "10.00") = Some (num_of_Z 10) ->
        to_numeric (Str "5.00") = Some (num_of_Z 5) ->
        to_numeric (Str "bad") = None ->
        exists orders,
          RevenueWeather.load_orders to_datetime to_numeric
            [("Order Date", [Str "2025-10-01"; Str "2025-10-01"; Str "2025-10-02"]);
             ("Order Total", [Str "10.00"; Str "5.00"; Str "bad"])]
          = inr orders
          /\ RevenueWeather.daily_revenue orders
             = [RevenueWeather.mk_daily (mkdate 2025 10 1) (num_of_Z 15) 2
                                        "Wednesday"]).
Proof.
  intros to_datetime to_numeric. split; [|split; [|split]].
  - intros df dcol tcol Hd Ht kept.
    eexists. split; [apply (load_orders_ok _ _ df dcol tcol Hd Ht)|].
    fold kept. split; [reflexivity|]. cbv zeta.
    split; [|split; [|split; [|split]]].
    + rewrite daily_revenue_dates.
      apply (group_keys_NoDup date_eqb date_leb date_eqb_eq).
    + intros d. rewrite daily_revenue_dates. apply order_group_keys_In.
    + intros row Hrow. rewrite daily_revenue_rows in Hrow.
      apply in_map_iff in Hrow. destruct Hrow as [d [<- _]].
      cbn [RevenueWeather.d_date RevenueWeather.d_revenue
             RevenueWeather.d_weekday RevenueWeather.d_weekday_name].
      repeat split; reflexivity.
    + rewrite daily_revenue_rows, flat_map_of_map.
      cbn [RevenueWeather.d_date]. unfold totals_on.
      rewrite <- (map_of_flat_map snd).
      apply Permutation_map.
      apply (partition_by_key date_eqb
                              (fun r : timestamp * Qc => ts_date (fst r))
                              date_eqb_eq).
      * apply (group_keys_NoDup date_eqb date_leb date_eqb_eq).
      * intros r Hr. apply order_group_keys_In.
        apply in_map_iff. eauto.
    + rewrite daily_revenue_dates.
      apply (StronglySorted_strict (key_le (fun k => k) date_leb)).
      * intros x y Hle Hne. apply date_ltb_leb_neq. split; auto.
      * apply (group_keys_sorted date_eqb date_leb date_leb_total date_leb_trans).
      * apply (group_keys_NoDup date_eqb date_leb date_eqb_eq).
  - apply dayofweek_range.
  - split; reflexivity.
  - intros Hdt H10 H5 Hbad.
    eexists. split.
    + apply (load_orders_ok _ _ _ [Str "2025-10-01"; Str "2025-10-01"; Str "2025-10-02"]
                            [Str "10.00"; Str "5.00"; Str "bad"]); reflexivity.
    + rewrite Hdt. cbn [map]. rewrite H10, H5, Hbad.
      cbn [combine both_parsed flat_map app].
      rewrite daily_revenue_rows.
      replace (group_keys date_eqb date_leb _) with [mkdate 2025 10 1]
        by reflexivity.
      cbn [map].
      match goal with
      | |- context [num_sum ?l] =>
          assert (E : num_sum l = num_of_Z 15)
            by (apply Qc_is_canon; reflexivity);
          rewrite E
      end.
      reflexivity.
Qed.

Lemma daily_revenue_spec_witness :
  (exists orders,
      RevenueWeather.load_orders sample_to_datetime sample_to_numeric
        [("Order Date", [Str "2025-10-01"; Str "2025-10-01"; Str "2025-10-02"]);
         ("Order Total", [Str "10.00"; Str "5.00"; Str "bad"])]
      = inr orders
      /\ RevenueWeather.daily_revenue orders
         = [RevenueWeather.mk_daily (mkdate 2025 10 1) (num_of_Z 15) 2
                                    "Wednesday"])
  /\ (0 <= dayofweek (mkdate 2025 10 1) < 7)%Z
  /\ exists orders,
      RevenueWeather.load_orders sample_to_datetime sample_to_numeric
        [("Order Date", [Str "2025-10-03"; NA]);
         ("Order Total", [Int 4; Int 5])]
      = inr orders.
Proof.
  pose proof (daily_revenue_spec sample_to_datetime sample_to_numeric)
    as [General [Range [_ Scenario]]].
  split; [|split].
  - apply Scenario.
    + reflexivity.
    + vm_compute. apply f_equal. apply Qc_is_canon. reflexivity.
    + vm_compute. apply f_equal. apply Qc_is_canon. reflexivity.
    + reflexivity.
  - apply Range; cbn; lia.
  - destruct (General [("Order Date", [Str "2025-10-03"; NA]);
                        ("Order Total", [Int 4; Int 5])]
                       [Str "2025-10-03"; NA] [Int 4; Int 5] eq_refl eq_refl)
      as [orders [H _]].
    exists orders. exact H.
Defined.

(** C2 as stated fails where it says that the total output revenue equals
    the sum of the order totals.  Orders of 4.25 on 2025-10-01 and of 3.55
    and 0.02 on 2025-10-02 give two daily rows, and the float64 sum of
    their revenues is not the float64 sum of the three totals; the two are
    not even equal as real numbers, the sum of the second day being
    rounded.  (Each day has at most two orders, so the order of summation
    within a day plays no part.) *)
Lemma daily_revenue_sum_not_conserved :
  let orders :=
    combine [Some (mkts (mkdate 2025 10 1) 0);
             Some (mkts (mkdate 2025 10 2) 0);
             Some (mkts (mkdate 2025 10 2) 0)]
            (map Some sample_totals) in
  let daily := Float64.daily_revenue orders in
  map Float64.d_date daily = [mkdate 2025 10 1; mkdate 2025 10 2]
  /\ Float64.num_sum (map Float64.d_revenue daily)
     <> Float64.num_sum sample_totals
  /\ ~ Qeq (Float64.exact_sum (map Float64.d_revenue daily))
           (Float64.exact_sum sample_totals).
Proof.
  cbv zeta. split; [reflexivity|]. split.
  - intros E.
    assert (H : PrimFloat.ltb (Float64.num_sum sample_totals)
                              (Float64.num_sum sample_totals) = false)
      by (vm_compute; reflexivity).
    rewrite <- E in H at 2. vm_compute in H. discriminate.
  - intros E. apply Qeq_bool_iff in E. vm_compute in E. discriminate.
Qed.

(** ** The merge *)

Lemma filter_unique_date (weather : list RevenueWeather.weather_row) d :
  NoDup (map RevenueWeather.w_date weather) ->
  filter (fun w => date_eqb (RevenueWeather.w_date w) d) weather
  = match weather_on weather d with
    | Some w => [w]
    | None => []
    end.
Proof.
  unfold weather_on. induction weather as [|w ws IH]; simpl; auto.
  intros N. inversion N as [|? ? Hw N']; subst.
  destruct (date_eqb (RevenueWeather.w_date w) d) eqn:E.
  - f_equal. apply filter_none. intros w' Hw'.
    destruct (date_eqb (RevenueWeather.w_date w') d) eqn:E'; auto.
    apply date_eqb_eq in E, E'. exfalso. apply Hw.
    rewrite E, <- E'. now apply in_map.
  - now apply IH.
Qed.

(** Against a weather table with one row per date the left merge yields one
    row per revenue row, in order. *)
Lemma merge_left_unique daily weather :
  NoDup (map RevenueWeather.w_date weather) ->
  RevenueWeather.merge_left daily weather
  = map (fun d => with_weather d (weather_on weather (RevenueWeather.d_date d)))
        daily.
Proof.
  intros N. unfold RevenueWeather.merge_left. cbv zeta.
  match goal with |- flat_map ?f daily = _ => set (body := f) end.
  induction daily as [|d daily IH]; [reflexivity|].
  cbn [flat_map map]. rewrite IH. unfold body at 1.
  rewrite (filter_unique_date weather _ N).
  destruct (weather_on weather (RevenueWeather.d_date d)); reflexivity.
Qed.

Lemma daily_revenue_NoDup orders :
  NoDup (map RevenueWeather.d_date (RevenueWeather.daily_revenue orders)).
Proof.
  unfold RevenueWeather.daily_revenue. rewrite map_map. cbn [RevenueWeather.d_date].
  match goal with
  | |- NoDup (map _ (Py.sorted ?k ?le ?l)) =>
      apply (Permutation_NoDup (l := map fst l));
      [apply Permutation_map; symmetry; apply sorted_perm|]
  end.
  unfold groupby. rewrite !map_map. cbn [fst]. rewrite map_id.
  apply (group_keys_NoDup date_eqb date_leb date_eqb_eq).
Qed.

Section Merge.
Variable to_datetime : list cell -> list (option timestamp).
Variable to_numeric : cell -> option Qc.
Variable csv_date : date -> cell.
Variable csv_float : option Qc -> cell.

Lemma main_with_weather orders_file orders weather_file raw_weather_file wf out0 weather :
  RevenueWeather.load_orders to_datetime to_numeric orders_file = inr orders ->
  RevenueWeather.ensure_weather_file to_datetime to_numeric csv_date csv_float
    weather_file raw_weather_file = inr (Some wf, out0) ->
  RevenueWeather.load_weather to_datetime to_numeric (Some wf) = inr weather ->
  exists out,
    RevenueWeather.main to_datetime to_numeric csv_date csv_float
                        orders_file weather_file raw_weather_file
    = inr (map (fun d => with_weather d (weather_on weather (RevenueWeather.d_date d)))
               (RevenueWeather.daily_revenue orders), out).
Proof.
  intros Ho Hw Hl. unfold RevenueWeather.main.
  rewrite Ho. cbn [bind]. rewrite Hw. cbn [bind fst snd]. rewrite Hl. cbn [bind].
  rewrite (merge_left_unique _ weather
             (load_weather_unique_dates to_datetime to_numeric _ _ Hl)).
  match goal with
  | |- context [if ?b then _ else _] => destruct b
  end; cbn [bind ret fst snd]; eexists; reflexivity.
Qed.

Lemma main_without_weather orders_file orders weather_file raw_weather_file out0 :
  RevenueWeather.load_orders to_datetime to_numeric orders_file = inr orders ->
  RevenueWeather.ensure_weather_file to_datetime to_numeric csv_date csv_float
    weather_file raw_weather_file = inr (None, out0) ->
  RevenueWeather.main to_datetime to_numeric csv_date csv_float
                      orders_file weather_file raw_weather_file
  = inr (map RevenueWeather.revenue_only (RevenueWeather.daily_revenue orders),
         out0 ++ [RevenueWeather.no_weather_warning;
                  RevenueWeather.wrote_line
                    (List.length (RevenueWeather.daily_revenue orders))]).
Proof.
  intros Ho Hw. unfold RevenueWeather.main.
  rewrite Ho. cbn [bind]. rewrite Hw. cbn [bind ret fst snd].
  rewrite length_map, <- app_assoc. reflexivity.
Qed.

Lemma main_dates orders_file orders weather_file raw_weather_file merged out :
  RevenueWeather.load_orders to_datetime to_numeric orders_file = inr orders ->
  RevenueWeather.main to_datetime to_numeric csv_date csv_float
                      orders_file weather_file raw_weather_file
  = inr (merged, out) ->
  map RevenueWeather.m_date merged
  = map RevenueWeather.d_date (RevenueWeather.daily_revenue orders)
  /\ map RevenueWeather.m_revenue merged
     = map RevenueWeather.d_revenue (RevenueWeather.daily_revenue orders).
Proof.
  intros Ho Hm.
  destruct (RevenueWeather.ensure_weather_file to_datetime to_numeric csv_date
              csv_float weather_file raw_weather_file) as [e|[[wf|] out0]] eqn:Hw.
  - unfold RevenueWeather.main in Hm. rewrite Ho in Hm. cbn [bind] in Hm.
    rewrite Hw in Hm. discriminate.
  - destruct (RevenueWeather.load_weather to_datetime to_numeric (Some wf))
      as [e|weather] eqn:Hl.
    + unfold RevenueWeather.main in Hm. rewrite Ho in Hm. cbn [bind] in Hm.
      rewrite Hw in Hm. cbn [bind fst snd] in Hm. rewrite Hl in Hm. discriminate.
    + destruct (main_with_weather _ _ _ _ _ _ _ Ho Hw Hl) as [out' E].
      rewrite E in Hm. inversion Hm; subst. rewrite !map_map. split; reflexivity.
  - rewrite (main_without_weather _ _ _ _ _ Ho Hw) in Hm.
    inversion Hm; subst. rewrite !map_map. split; reflexivity.
Qed.
End Merge.

Lemma weather_on_Some weather d w :
  weather_on weather d = Some w -> In w weather /\ RevenueWeather.w_date w = d.
Proof.
  unfold weather_on. intros H. apply find_some in H.
  destruct H as [H E]. apply date_eqb_eq in E. auto.
Qed.

Lemma weather_on_None weather d :
  weather_on weather d = None ->
  forall w, In w weather -> RevenueWeather.w_date w <> d.
Proof.
  unfold weather_on. intros H w Hw E.
  apply (find_none _ _ H) in Hw. apply date_eqb_eq in E. congruence.
Qed.

(** C3.  Given the orders load, every run of [main] that writes an output
    writes the dates of the daily revenue table, in the same order and with
    the same revenue, so each revenue date appears exactly once, whatever
    the weather table covers.  With a weather table loaded, a day takes the
    temp and rain of the weather row of its date and missing values when
    there is none.  When neither the weather file nor the raw weather file
    exists, the run still succeeds: it writes the revenue rows with temp and
    rain missing in every row and prints a warning. *)
Theorem merge_keeps_every_revenue_date :
  forall (to_datetime : list cell -> list (option timestamp))
         (to_numeric : cell -> option Qc)
         (csv_date : date -> cell) (csv_float : option Qc -> cell)
         (orders_file : frame) orders,
    RevenueWeather.load_orders to_datetime to_numeric orders_file = inr orders ->
    let daily := RevenueWeather.daily_revenue orders in
    let main := RevenueWeather.main to_datetime to_numeric csv_date csv_float in
    (forall weather_file raw_weather_file merged out,
        main orders_file weather_file raw_weather_file = inr (merged, out) ->
        map RevenueWeather.m_date merged = map RevenueWeather.d_date daily
        /\ map RevenueWeather.m_revenue merged
           = map RevenueWeather.d_revenue daily
        /\ forall d, In d (map RevenueWeather.d_date daily) ->
                     count_occ date_eq_dec (map RevenueWeather.m_date merged) d
                     = 1)
    /\ (forall weather_file raw_weather_file wf out0 weather,
           RevenueWeather.ensure_weather_file
             to_datetime to_numeric csv_date csv_float
             weather_file raw_weather_file = inr (Some wf, out0) ->
           RevenueWeather.load_weather to_datetime to_numeric (Some wf)
           = inr weather ->
           exists out,
             main orders_file weather_file raw_weather_file
             = inr (map (fun d =>
                           with_weather
                             d (weather_on weather (RevenueWeather.d_date d)))
                        daily, out))
    /\ (forall weather d w,
           weather_on weather d = Some w ->
           In w weather /\ RevenueWeather.w_date w = d)
    /\ (forall weather d,
           weather_on weather d = None ->
           forall w, In w weather -> RevenueWeather.w_date w <> d)
    /\ main orders_file None None
       = inr (map RevenueWeather.revenue_only daily,
              [RevenueWeather.no_weather_warning;
               RevenueWeather.wrote_line (List.length daily)])
    /\ (forall d,
           RevenueWeather.m_temp (RevenueWeather.revenue_only d) = None
           /\ RevenueWeather.m_rain (RevenueWeather.revenue_only d) = None).
Proof.
  intros to_datetime to_numeric csv_date csv_float orders_file orders Ho daily main.
  split; [|split; [|split; [|split; [|split]]]].
  - intros weather_file raw_weather_file merged out Hm.
    destruct (main_dates _ _ _ _ _ _ _ _ _ _ Ho Hm) as [Hd Hr].
    split; [exact Hd|]. split; [exact Hr|].
    intros d Hin. rewrite Hd. apply NoDup_count_occ_one; auto.
    apply daily_revenue_NoDup.
  - intros weather_file raw_weather_file wf out0 weather Hw Hl.
    apply (main_with_weather _ _ _ _ _ _ _ _ _ _ _ Ho Hw Hl).
  - apply weather_on_Some.
  - apply weather_on_None.
  - unfold main.
    rewrite (main_without_weather _ _ _ _ _ orders None None [] Ho eq_refl).
    reflexivity.
  - intros d. split; reflexivity.
Qed.

Lemma merge_keeps_every_revenue_date_witness :
  exists merged,
    RevenueWeather.main sample_to_datetime sample_to_numeric
      sample_csv_date sample_csv_float
      [("Order Date", [Str "2025-10-02"; Str "2025-10-01"; Str "2025-10-02"]);
       ("Order Total", [Int 4; Int 5; Int 6])]
      None None
    = inr (merged,
           [RevenueWeather.no_weather_warning; RevenueWeather.wrote_line 2])
    /\ map RevenueWeather.m_date merged = [mkdate 2025 10 1; mkdate 2025 10 2]
    /\ map RevenueWeather.m_temp merged = [None; None].
Proof.
  pose proof (merge_keeps_every_revenue_date
                sample_to_datetime sample_to_numeric
                sample_csv_date sample_csv_float
                [("Order Date", [Str "2025-10-02"; Str "2025-10-01"; Str "2025-10-02"]);
                 ("Order Total", [Int 4; Int 5; Int 6])]
                _ eq_refl) as [_ [_ [_ [_ [H _]]]]].
  eexists. split; [exact H|]. split; reflexivity.
Defined.

(* ===================================================================== *)
(** * summarize_revenue_weather.py *)
(* ===================================================================== *)

Lemma rain_groups_single (df : list Summarize.obs) k :
  df <> [] ->
  (forall r, In r df -> Summarize.is_rain r = k) ->
  group_keys Z.eqb Z.leb
             (map (fun r => (Some (Summarize.is_rain r), Summarize.revenue r)) df)
  = [k].
Proof.
  intros Hne Hk. unfold group_keys.
  rewrite (keyed_Some Summarize.is_rain Summarize.revenue), map_map. cbn [fst].
  match goal with
  | |- Py.sorted _ _ ?u = _ => assert (U : u = [k])
  end.
  { apply NoDup_constant.
    - apply unique_NoDup. apply Z.eqb_eq.
    - destruct df as [|r df]; [congruence|]. intros E.
      assert (H : In (Summarize.is_rain r)
                     (unique Z.eqb (map (fun x => Summarize.is_rain x) (r :: df)))).
      { apply (unique_In Z.eqb Z.eqb_eq). now left. }
      rewrite E in H. destruct H.
    - intros x Hx. apply (proj1 (unique_In Z.eqb Z.eqb_eq _ _)) in Hx.
      apply in_map_iff in Hx. destruct Hx as [r [<- Hr]]. auto. }
  rewrite U. reflexivity.
Qed.

Lemma rain_groups_both (df : list Summarize.obs) :
  (exists r, In r df /\ Summarize.is_rain r = 0%Z) ->
  (exists r, In r df /\ Summarize.is_rain r = 1%Z) ->
  group_keys Z.eqb Z.leb
             (map (fun r => (Some (Summarize.is_rain r), Summarize.revenue r)) df)
  = [0%Z; 1%Z].
Proof.
  intros [r0 [H0 E0]] [r1 [H1 E1]].
  assert (Hkeys : forall k,
             In k (group_keys Z.eqb Z.leb
                     (map (fun r => (Some (Summarize.is_rain r),
                                     Summarize.revenue r)) df))
             <-> In k (map Summarize.is_rain df)).
  { intros k. rewrite (group_keys_In Z.eqb Z.leb Z.eqb_eq).
    rewrite (keyed_Some Summarize.is_rain Summarize.revenue), map_map.
    cbn [fst]. tauto. }
  apply (sorted_unique Z.leb).
  - intros a b Ha Hb. apply Z.leb_le in Ha, Hb. lia.
  - apply (group_keys_sorted Z.eqb Z.leb).
    + intros a b. rewrite !Z.leb_le. lia.
    + intros a b c. rewrite !Z.leb_le. lia.
  - repeat constructor; unfold key_le; cbn; auto.
  - apply (group_keys_NoDup Z.eqb Z.leb Z.eqb_eq).
  - repeat constructor; cbn; intuition discriminate.
  - intros k. rewrite Hkeys. split.
    + intros Hk. apply in_map_iff in Hk. destruct Hk as [r [<- _]].
      unfold Summarize.is_rain.
      destruct (Summarize.rain r) as [x|]; [destruct (num_gtb0 x)|]; cbn; auto.
    + intros [<-|[<-|[]]]; apply in_map_iff; eauto.
Qed.

(** With days of both kinds the summary is the mean revenue of the days
    without rain above zero, labelled No Rain, then that of the days with
    rain, labelled Rain. *)
Lemma rain_summary_two_groups (df : list Summarize.obs) :
  (exists r, In r df /\ Summarize.is_rain r = 0%Z) ->
  (exists r, In r df /\ Summarize.is_rain r = 1%Z) ->
  Summarize.rain_summary df
  = inr [("No Rain",
          mean_skipna (map Summarize.revenue
                           (filter (fun r => Z.eqb (Summarize.is_rain r) 0) df)));
         ("Rain",
          mean_skipna (map Summarize.revenue
                           (filter (fun r => Z.eqb (Summarize.is_rain r) 1) df)))].
Proof.
  intros H0 H1. unfold Summarize.rain_summary, groupby.
  rewrite (rain_groups_both df H0 H1). cbn [map List.length Nat.eqb fst snd combine].
  unfold ret, group.
  rewrite (keyed_Some Summarize.is_rain Summarize.revenue).
  rewrite !(filter_map_swap (fun r : Summarize.obs =>
                               (Summarize.is_rain r, Summarize.revenue r))).
  cbn [fst]. rewrite !map_map. cbn [snd]. reflexivity.
Qed.

(** C9, where the code departs from it.  On a table in which every row falls
    in the same rain group (no day with rain above zero, as in the
    revenue-only output, or rain on every day) the summary has a single
    group and relabelling it with the two labels raises the length-mismatch
    error instead of returning two groups. *)
Theorem rain_summary_single_group_raises :
  forall (df : list Summarize.obs) (k : Z),
    df <> [] ->
    (forall r, In r df -> Summarize.is_rain r = k) ->
    Summarize.rain_summary df
    = raise (ValueError
               "Length mismatch: Expected axis has 1 elements, new values have 2 elements").
Proof.
  intros df k Hne Hk. unfold Summarize.rain_summary, groupby.
  rewrite (rain_groups_single df k Hne Hk). reflexivity.
Qed.

Lemma rain_summary_single_group_raises_witness :
  Summarize.rain_summary
    [Summarize.mk_obs (Some (num_of_Z 100)) (Some (num_of_Z 0));
     Summarize.mk_obs (Some (num_of_Z 120)) (Some (num_of_Z 0))]
  = raise (ValueError
             "Length mismatch: Expected axis has 1 elements, new values have 2 elements")
  /\ Summarize.rain_summary
       [Summarize.mk_obs (Some (num_of_Z 100)) None;
        Summarize.mk_obs (Some (num_of_Z 120)) None]
     = raise (ValueError
                "Length mismatch: Expected axis has 1 elements, new values have 2 elements").
Proof.
  split.
  - apply (rain_summary_single_group_raises _ 0%Z).
    + discriminate.
    + intros r [<-|[<-|[]]]; reflexivity.
  - apply (rain_summary_single_group_raises _ 0%Z).
    + discriminate.
    + intros r [<-|[<-|[]]]; reflexivity.
Defined.

(** With days of both kinds the two labelled means are returned, the group
    without rain first. *)
Lemma rain_summary_both_groups :
  exists dry wet,
    Summarize.rain_summary
      [Summarize.mk_obs (Some (num_of_Z 100)) (Some (num_of_Z 0));
       Summarize.mk_obs (Some (num_of_Z 80)) (Some (num_of_Z 3));
       Summarize.mk_obs (Some (num_of_Z 120)) None;
       Summarize.mk_obs (Some (num_of_Z 60)) (Some (num_of_Z 1))]
    = inr [("No Rain", Some dry); ("Rain", Some wet)]
    /\ dry = num_of_Z 110 /\ wet = num_of_Z 70.
Proof.
  eexists. eexists. split; [vm_compute; reflexivity|].
  split; apply Qc_is_canon; reflexivity.
Qed.

(* ===================================================================== *)
(** * Further properties of data_cleansing.py *)
(* ===================================================================== *)

(** ** The generated IDs *)

Lemma append_cancel_l (p a b : string) : (p ++ a = p ++ b)%string -> a = b.
Proof.
  induction p as [|c p IH]; cbn; [auto|]. intros [= H]. auto.
Qed.

Lemma length_zeros k : String.length (Py.zeros k) = k.
Proof. induction k; cbn; auto. Qed.

Lemma string_length_app (a b : string) :
  String.length (a ++ b) = String.length a + String.length b.
Proof. induction a as [|c a IH]; cbn; auto. Qed.

(** Reading an ID number back: zeros in front do not change the value. *)
Lemma uint_of_zero_pad n width :
  option_map Nat.of_uint (NilEmpty.uint_of_string (zero_pad n width)) = Some n.
Proof.
  unfold zero_pad.
  induction (width - String.length (Py.str_nat n)) as [|k IH].
  - cbn [Py.zeros String.append]. unfold Py.str_nat.
    rewrite NilEmpty.usu. cbn [option_map].
    f_equal. apply DecimalNat.Unsigned.of_to.
  - cbn [Py.zeros String.append NilEmpty.uint_of_string].
    destruct (NilEmpty.uint_of_string (Py.zeros k ++ Py.str_nat n)) as [d|];
      [|discriminate].
    cbn in IH |- *. exact IH.
Qed.

Lemma zero_pad_inj n m width : zero_pad n width = zero_pad m width -> n = m.
Proof.
  intros E. pose proof (uint_of_zero_pad n width) as Hn.
  rewrite E, uint_of_zero_pad in Hn. congruence.
Qed.

Lemma length_zero_pad n width :
  String.length (zero_pad n width)
  = Nat.max width (String.length (Py.str_nat n)).
Proof.
  unfold zero_pad. rewrite string_length_app, length_zeros. lia.
Qed.

(** Every number below 10000 is written with at most four digits. *)
Lemma str_nat_four_digits n :
  n < 100 * 100 -> String.length (Py.str_nat n) <= 4.
Proof.
  intros H.
  assert (A : forallb (fun k => (String.length (Py.str_nat k) <=? 4)%nat)
                      (seq 0 (100 * 100)) = true) by (vm_compute; reflexivity).
  rewrite forallb_forall in A. apply Nat.leb_le. apply A.
  apply in_seq. lia.
Qed.

(** The IDs of a codebook, in the order of its keys. *)
Lemma make_codebook_ids series prefix :
  map snd (Py.Dict.items (DataCleansing.make_codebook series prefix))
  = map (fun i => (prefix ++ zero_pad (i + 1) 4)%string)
        (seq 0 (List.length (codebook_values series))).
Proof.
  rewrite make_codebook_items. unfold Py.Dict.items, Py.enumerate.
  rewrite map_map. cbn [snd fst].
  assert (G : forall (vs : list string) start,
             map (fun x : nat * string =>
                    (prefix ++ Py.zfill 4 (Py.str_nat (fst x + 1)))%string)
                 (combine (seq start (List.length vs)) vs)
             = map (fun i => (prefix ++ zero_pad (i + 1) 4)%string)
                   (seq start (List.length vs))).
  { induction vs as [|v vs IH]; intros start; [reflexivity|].
    cbn [List.length seq combine map fst]. rewrite zfill_str_nat. f_equal.
    apply IH. }
  apply G.
Qed.

Lemma NoDup_map_injective {A B} (f : A -> B) (l : list A) :
  (forall x y, In x l -> In y l -> f x = f y -> x = y) ->
  NoDup l -> NoDup (map f l).
Proof.
  intros Hf N. induction N as [|x l Hx N IH]; cbn; constructor.
  - intros Hin. apply in_map_iff in Hin. destruct Hin as [y [E Hy]].
    apply Hx. rewrite (Hf x y); cbn; auto.
  - apply IH. intros a b Ha Hb. apply Hf; cbn; auto.
Qed.

Lemma make_codebook_ids_NoDup series prefix :
  NoDup (map snd (Py.Dict.items (DataCleansing.make_codebook series prefix))).
Proof.
  rewrite make_codebook_ids. apply NoDup_map_injective; [|apply seq_NoDup].
  intros i j _ _ E. apply append_cancel_l, zero_pad_inj in E. lia.
Qed.

Lemma make_codebook_get_inj series prefix s t i :
  Py.Dict.get s (DataCleansing.make_codebook series prefix) = Some i ->
  Py.Dict.get t (DataCleansing.make_codebook series prefix) = Some i ->
  s = t.
Proof.
  rewrite !make_codebook_get.
  destruct (in_dec string_dec s (strings_of series)) as [Hs|]; [|discriminate].
  destruct (in_dec string_dec t (strings_of series)) as [Ht|]; [|discriminate].
  intros [= <-] [= E]. apply append_cancel_l, zero_pad_inj in E.
  rewrite <- !rank_codebook_values in E. injection E as E.
  pose proof (codebook_values_sorted series) as S.
  assert (Is : In s (codebook_values series)) by now apply codebook_values_In.
  assert (It : In t (codebook_values series)) by now apply codebook_values_In.
  clear Hs Ht. revert S Is It E.
  induction (codebook_values series) as [|v vs IH]; [intros _ []|].
  intros S Is It E. inversion S as [|? ? S' Hv]; subst.
  rewrite Forall_forall in Hv. unfold key_le in Hv.
  assert (below : forall u, In u vs -> u <> v -> String.ltb v u = true).
  { intros u Hu Hne. apply string_ltb_leb_neq. split; auto. }
  assert (self : String.ltb v v = false).
  { unfold String.ltb. now rewrite string_compare_refl. }
  cbn [filter] in E.
  destruct (string_dec s v) as [->|Hsv], (string_dec t v) as [->|Htv]; auto.
  - rewrite self in E. rewrite (below t) in E; [|destruct It; congruence|auto].
    cbn [List.length] in E.
    assert (Z : filter (fun u => String.ltb u v) vs = []).
    { apply filter_none. intros u Hu.
      destruct (String.ltb u v) eqn:L; auto.
      assert (Hvu : String.leb v u = true) by auto.
      unfold String.ltb, String.leb in *.
      destruct (String.compare u v) eqn:C; try discriminate.
      rewrite String.compare_antisym, C in Hvu. discriminate. }
    rewrite Z in E. discriminate.
  - rewrite self in E. rewrite (below s) in E; [|destruct Is; congruence|auto].
    cbn [List.length] in E.
    assert (Z : filter (fun u => String.ltb u v) vs = []).
    { apply filter_none. intros u Hu.
      destruct (String.ltb u v) eqn:L; auto.
      assert (Hvu : String.leb v u = true) by auto.
      unfold String.ltb, String.leb in *.
      destruct (String.compare u v) eqn:C; try discriminate.
      rewrite String.compare_antisym, C in Hvu. discriminate. }
    rewrite Z in E. discriminate.
  - destruct Is as [Is|Is]; [congruence|]. destruct It as [It|It]; [congruence|].
    rewrite (below s Is Hsv), (below t It Htv) in E.
    cbn [List.length] in E. injection E as E.
    apply IH; auto.
Qed.

(** X1.  The IDs of a codebook are pairwise distinct: two values with the
    same ID are the same value, so two non-null cells of the column get the
    same ID exactly when they have the same text. *)
Theorem make_codebook_ids_distinct :
  forall (series : list cell) (prefix : string),
    let codebook := DataCleansing.make_codebook series prefix in
    NoDup (map snd (Py.Dict.items codebook))
    /\ (forall s t i,
           Py.Dict.get s codebook = Some i ->
           Py.Dict.get t codebook = Some i -> s = t)
    /\ (forall v w,
           In v series -> In w series -> v <> NA -> w <> NA ->
           (DataCleansing.map_codebook codebook v
            = DataCleansing.map_codebook codebook w
            <-> astype_str v = astype_str w)).
Proof.
  intros series prefix codebook. split; [|split].
  - apply make_codebook_ids_NoDup.
  - apply make_codebook_get_inj.
  - intros v w Hv Hw Nv Nw. split.
    + destruct (make_codebook_covers series prefix v Hv Nv) as [i [Gi Mi]].
      destruct (make_codebook_covers series prefix w Hw Nw) as [j [Gj Mj]].
      unfold codebook. rewrite Mi, Mj. intros [= <-].
      apply (make_codebook_get_inj series prefix _ _ i Gi Gj).
    + intros E. unfold DataCleansing.map_codebook. now rewrite E.
Qed.

Lemma make_codebook_ids_distinct_witness :
  DataCleansing.map_codebook
    (DataCleansing.make_codebook [Str "Latte"; Str "Mocha"; NA; Str "Latte"] "MTI")
    (Str "Latte")
  = DataCleansing.map_codebook
      (DataCleansing.make_codebook [Str "Latte"; Str "Mocha"; NA; Str "Latte"] "MTI")
      (Str "Mocha")
  <-> "Latte" = "Mocha".
Proof.
  apply (proj2 (proj2 (make_codebook_ids_distinct
                         [Str "Latte"; Str "Mocha"; NA; Str "Latte"] "MTI"))
           (Str "Latte") (Str "Mocha")).
  - cbn. auto.
  - cbn. auto.
  - discriminate.
  - discriminate.
Defined.

Lemma length_make_codebook series prefix :
  List.length (Py.Dict.items (DataCleansing.make_codebook series prefix))
  = List.length (codebook_values series).
Proof.
  rewrite <- (length_map snd), make_codebook_ids, length_map. apply length_seq.
Qed.

(** X2.  An ID is never shorter than the prefix followed by four digits,
    and in a codebook of fewer than 10000 entries every ID is exactly that
    long. *)
Theorem make_codebook_id_width :
  forall (series : list cell) (prefix s i : string),
    Py.Dict.get s (DataCleansing.make_codebook series prefix) = Some i ->
    String.length prefix + 4 <= String.length i
    /\ ((Z.of_nat (List.length
                     (Py.Dict.items (DataCleansing.make_codebook series prefix)))
         < 10000)%Z ->
        String.length i = String.length prefix + 4).
Proof.
  intros series prefix s i G. apply dict_get_In in G.
  assert (Hi : In i (map snd (Py.Dict.items
                                (DataCleansing.make_codebook series prefix)))).
  { apply in_map_iff. exists (s, i). auto. }
  rewrite length_make_codebook. rewrite make_codebook_ids in Hi.
  apply in_map_iff in Hi. destruct Hi as [k [<- Hk]]. apply in_seq in Hk.
  rewrite string_length_app, length_zero_pad. split; [lia|].
  intros Hn.
  assert (L : String.length (Py.str_nat (k + 1)) <= 4)
    by (apply str_nat_four_digits; lia).
  lia.
Qed.

Lemma make_codebook_id_width_witness :
  exists i,
    Py.Dict.get "Latte"
      (DataCleansing.make_codebook [Str "Latte"; Str "Mocha"; Str "Chai"] "MTI")
    = Some i
    /\ String.length i = String.length "MTI" + 4.
Proof.
  exists "MTI0002". split; [reflexivity|].
  apply (make_codebook_id_width [Str "Latte"; Str "Mocha"; Str "Chai"]
                                "MTI" "Latte" "MTI0002").
  - reflexivity.
  - vm_compute. reflexivity.
Defined.

(** ** The loop over the sensitive columns, step by step *)

Lemma getitem_In_columns c (df : frame) data :
  getitem c df = OneColumn data -> In c (columns df).
Proof.
  intros H. destruct (in_dec string_dec c (columns df)) as [|Hn]; auto.
  rewrite (getitem_NoColumn c df Hn) in H. discriminate.
Qed.

Lemma series_OneColumn c (df : frame) data :
  series c df = inr data -> getitem c df = OneColumn data.
Proof.
  unfold series. destruct (getitem c df); try discriminate.
  now intros [= ->].
Qed.

Lemma anonymize_column_absent st src id prefix :
  str_in src (columns (DataCleansing.df_clean st)) = false ->
  DataCleansing.anonymize_column st (src, (id, prefix)) = inr (skipped st src).
Proof.
  intros H. unfold DataCleansing.anonymize_column. cbn [fst snd].
  rewrite H. reflexivity.
Qed.

Lemma anonymize_column_present st src id prefix data :
  getitem src (DataCleansing.df_clean st) = OneColumn data ->
  exists line,
    DataCleansing.anonymize_column st (src, (id, prefix))
    = inr (anonymized st src id prefix data line).
Proof.
  intros G. unfold DataCleansing.anonymize_column. cbn [fst snd].
  assert (Hin : In src (columns (DataCleansing.df_clean st)))
    by (eapply getitem_In_columns; eauto).
  rewrite (proj2 (str_in_In _ _) Hin). cbn [negb].
  unfold series. rewrite G. cbn [bind ret].
  fold (generated_ids data prefix).
  rewrite drop_present.
  2:{ intros c [<-|[]]. rewrite columns_setitem.
      destruct (str_in id _); [auto|]. apply in_or_app. auto. }
  cbn [bind ret]. unfold anonymized, mapping_path_of.
  destruct (String.eqb src "Item Name") eqn:E1;
    [apply String.eqb_eq in E1; subst; eexists; reflexivity|].
  destruct (String.eqb src "Item Modifiers") eqn:E2;
    [apply String.eqb_eq in E2; subst; eexists; reflexivity|].
  eexists; reflexivity.
Qed.

(** What a step that returns has done. *)
Lemma anonymize_column_inv st src id prefix st' :
  DataCleansing.anonymize_column st (src, (id, prefix)) = inr st' ->
  (str_in src (columns (DataCleansing.df_clean st)) = false
   /\ st' = skipped st src)
  \/ (exists data line,
         getitem src (DataCleansing.df_clean st) = OneColumn data
         /\ st' = anonymized st src id prefix data line).
Proof.
  intros H.
  destruct (str_in src (columns (DataCleansing.df_clean st))) eqn:B.
  - right.
    destruct (series src (DataCleansing.df_clean st)) as [e|data] eqn:S.
    + unfold DataCleansing.anonymize_column in H. cbn [fst snd] in H.
      rewrite B, S in H. discriminate.
    + apply series_OneColumn in S.
      destruct (anonymize_column_present st src id prefix data S) as [line E].
      exists data, line. split; [exact S|]. congruence.
  - left. split; [reflexivity|].
    rewrite (anonymize_column_absent st src id prefix B) in H. congruence.
Qed.

Lemma filter_filter {A} (f g : A -> bool) (l : list A) :
  filter f (filter g l) = filter (fun x => (g x && f x)%bool) l.
Proof.
  induction l as [|x l IH]; [reflexivity|]. cbn [filter].
  destruct (g x); cbn [filter andb]; [destruct (f x)|]; now rewrite IH.
Qed.

Lemma str_in_app c l1 l2 :
  str_in c (l1 ++ l2) = (str_in c l1 || str_in c l2)%bool.
Proof. unfold str_in. apply existsb_app. Qed.

(** Removing columns with other labels does not change what a label
    denotes. *)
Lemma getitem_filter c cols (df : frame) :
  ~ In c cols ->
  getitem c (filter (fun e => negb (str_in (fst e) cols)) df) = getitem c df.
Proof.
  intros H. unfold getitem. rewrite filter_filter.
  replace (filter (fun x => (negb (str_in (fst x) cols)
                             && String.eqb (fst x) c)%bool) df)
    with (filter (fun x : string * list cell => String.eqb (fst x) c) df);
    [reflexivity|].
  apply filter_ext. intros [l d]. cbn [fst].
  destruct (String.eqb l c) eqn:E; [|now rewrite andb_false_r].
  apply String.eqb_eq in E. subst.
  now rewrite (proj2 (str_in_false _ _) H).
Qed.

Lemma getitem_app_other c (df : frame) l d :
  l <> c -> getitem c (df ++ [(l, d)]) = getitem c df.
Proof.
  intros H. unfold getitem. rewrite filter_app. cbn [filter fst].
  apply String.eqb_neq in H. rewrite H. now rewrite app_nil_r.
Qed.

Lemma setitem_fresh col data (df : frame) :
  ~ In col (columns df) -> setitem col data df = df ++ [(col, data)].
Proof.
  intros H. unfold setitem. now rewrite (proj2 (str_in_false _ _) H).
Qed.

Lemma id_column_app (df : frame) entry l d :
  l <> fst entry -> id_column (df ++ [(l, d)]) entry = id_column df entry.
Proof.
  intros H. unfold id_column. now rewrite getitem_app_other.
Qed.

Lemma id_column_filter (df : frame) entry cols :
  ~ In (fst entry) cols ->
  id_column (filter (fun e => negb (str_in (fst e) cols)) df) entry
  = id_column df entry.
Proof.
  intros H. unfold id_column. now rewrite getitem_filter.
Qed.

Lemma getitem_NoDup_cases c (df : frame) :
  NoDup (columns df) ->
  (~ In c (columns df) /\ getitem c df = NoColumn)
  \/ (exists data, In c (columns df) /\ getitem c df = OneColumn data).
Proof.
  intros N. destruct (in_dec string_dec c (columns df)) as [H|H].
  - right. destruct (series_present c df N H) as [d [_ [G _]]]. eauto.
  - left. split; auto. now apply getitem_NoColumn.
Qed.

(** One step on a frame of distinct labels that does not hold the ID label
    yet: the source column goes, the ID column comes last. *)
Lemma anonymize_column_layout st src id prefix :
  NoDup (columns (DataCleansing.df_clean st)) ->
  src <> id ->
  ~ In id (columns (DataCleansing.df_clean st)) ->
  exists st',
    DataCleansing.anonymize_column st (src, (id, prefix)) = inr st'
    /\ DataCleansing.df_clean st'
       = filter (fun c => negb (str_in (fst c) [src])) (DataCleansing.df_clean st)
         ++ id_column (DataCleansing.df_clean st) (src, (id, prefix)).
Proof.
  intros N Hne Hid.
  destruct (getitem_NoDup_cases src _ N) as [[Hn G]|[data [Hin G]]].
  - exists (skipped st src). split.
    + apply anonymize_column_absent. now apply str_in_false.
    + unfold id_column. cbn [fst]. rewrite G, app_nil_r.
      cbn [skipped DataCleansing.df_clean]. symmetry. apply filter_all.
      intros [l d] Hl. cbn [fst str_in existsb]. rewrite orb_false_r.
      destruct (String.eqb l src) eqn:E; [|reflexivity].
      apply String.eqb_eq in E. subst. exfalso. apply Hn.
      apply columns_In. eauto.
  - destruct (anonymize_column_present st src id prefix data G) as [line E].
    exists (anonymized st src id prefix data line). split; [exact E|].
    cbn [anonymized DataCleansing.df_clean].
    rewrite (setitem_fresh _ _ _ Hid), filter_app. f_equal.
    unfold id_column. cbn [fst snd]. rewrite G.
    cbn [filter fst str_in existsb]. rewrite orb_false_r.
    assert (B : String.eqb id src = false)
      by (apply String.eqb_neq; congruence).
    now rewrite B.
Qed.

Lemma str_in_iff c l1 l2 :
  (In c l1 <-> In c l2) -> str_in c l1 = str_in c l2.
Proof.
  intros H. destruct (str_in c l2) eqn:E.
  - apply str_in_In. apply H. now apply str_in_In.
  - apply str_in_false. intros Hc. apply H in Hc.
    apply str_in_In in Hc. congruence.
Qed.

Lemma columns_filter_In c (keep : string * list cell -> bool) (df : frame) :
  In c (columns (filter keep df)) -> In c (columns df).
Proof.
  intros H. apply columns_In in H. destruct H as [d H].
  apply filter_In in H. apply columns_In. exists d. tauto.
Qed.

Lemma str_in_pii_free c df :
  ~ In c DataCleansing.pii_columns ->
  str_in c (columns (pii_free df)) = str_in c (columns df).
Proof.
  intros H. apply str_in_iff. rewrite !columns_In. unfold pii_free.
  split; intros [d Hd]; exists d; now apply (remove_pii_In c d df H).
Qed.

Lemma str_in_anonymized c st src id prefix data line :
  c <> src -> c <> id ->
  str_in c (columns (DataCleansing.df_clean (anonymized st src id prefix data line)))
  = str_in c (columns (DataCleansing.df_clean st)).
Proof.
  intros Hs Hi. apply str_in_iff. rewrite !columns_In.
  cbn [anonymized DataCleansing.df_clean].
  split; intros [d Hd]; exists d.
  - apply filter_In in Hd. destruct Hd as [Hd _].
    apply In_setitem in Hd. destruct Hd as [[E _]|[_ Hd]]; [congruence|auto].
  - apply filter_In. split.
    + apply In_setitem. right. auto.
    + cbn [fst str_in existsb]. rewrite orb_false_r.
      apply String.eqb_neq in Hs. now rewrite Hs.
Qed.

Lemma source_gone_anonymized st src id prefix data line :
  ~ In src (columns (DataCleansing.df_clean
                       (anonymized st src id prefix data line))).
Proof.
  cbn [anonymized DataCleansing.df_clean]. intros H.
  apply columns_In in H. destruct H as [d H]. apply filter_In in H.
  destruct H as [_ H]. cbn [fst str_in existsb] in H.
  now rewrite String.eqb_refl in H.
Qed.

(** The run of [main], step by step, when it returns. *)
Lemma main_inv df st :
  DataCleansing.main df = inr st ->
  exists st1 st2,
    DataCleansing.anonymize_column (initial_state df)
      ("Item Name", ("Item ID", "MTI")) = inr st1
    /\ DataCleansing.anonymize_column st1
         ("Item Modifiers", ("Modifier ID", "MTM")) = inr st2
    /\ st = final_state st2.
Proof.
  rewrite main_unfold.
  destruct (DataCleansing.anonymize_column (initial_state df) _)
    as [e|st1] eqn:E1; cbn [bind ret]; [discriminate|].
  destruct (DataCleansing.anonymize_column st1 _)
    as [e|st2] eqn:E2; cbn [bind ret]; [discriminate|].
  intros [= <-]. exists st1, st2. auto.
Qed.

Lemma not_pii_sensitive :
  ~ In "Item Name" DataCleansing.pii_columns
  /\ ~ In "Item Modifiers" DataCleansing.pii_columns
  /\ ~ In "Item ID" DataCleansing.pii_columns
  /\ ~ In "Modifier ID" DataCleansing.pii_columns.
Proof.
  repeat split; apply str_in_false; reflexivity.
Qed.

Lemma kept_columns_steps df :
  filter (fun c => negb (str_in (fst c) ["Item Modifiers"]))
         (filter (fun c => negb (str_in (fst c) ["Item Name"])) (pii_free df))
  = kept_columns df.
Proof.
  unfold pii_free, kept_columns. rewrite !filter_filter.
  apply filter_ext. intros [l d]. cbn [fst].
  change (map fst DataCleansing.SENSITIVE_CATEGORICALS)
    with (["Item Name"] ++ ["Item Modifiers"]).
  rewrite !str_in_app, !negb_orb. reflexivity.
Qed.

(** X3.  On a file of distinct labels that has no Item ID and no Modifier
    ID column, the cleaned frame is the columns that are neither PII nor
    sensitive, in their original order and with their data untouched,
    followed by the ID column of each sensitive column the file has, in the
    order of the configuration. *)
Theorem main_keeps_other_columns :
  forall df : frame,
    NoDup (columns df) ->
    ~ In "Item ID" (columns df) ->
    ~ In "Modifier ID" (columns df) ->
    exists st,
      DataCleansing.main df = inr st
      /\ DataCleansing.df_clean st
         = kept_columns df
           ++ flat_map (id_column df) DataCleansing.SENSITIVE_CATEGORICALS.
Proof.
  intros df N Hi Hm.
  destruct not_pii_sensitive as [P1 [P2 _]].
  rewrite main_unfold.
  destruct (anonymize_column_layout (initial_state df)
              "Item Name" "Item ID" "MTI") as [st1 [E1 L1]].
  { now apply pii_free_NoDup. }
  { discriminate. }
  { intros H. apply Hi. revert H. apply columns_filter_In. }
  cbn [initial_state DataCleansing.df_clean] in L1.
  assert (N1 : NoDup (columns (DataCleansing.df_clean st1))).
  { destruct (anonymize_column_step (initial_state df)
                "Item Name" "Item ID" "MTI") as [st' [E' [N' _]]];
      [now apply pii_free_NoDup|discriminate|].
    congruence. }
  destruct (anonymize_column_layout st1
              "Item Modifiers" "Modifier ID" "MTM") as [st2 [E2 L2]].
  { exact N1. }
  { discriminate. }
  { intros H. destruct (anonymize_column_columns _ _ _ E1 _ H) as [H'|H'].
    - apply Hm. revert H'. apply columns_filter_In.
    - discriminate. }
  exists (final_state st2). rewrite E1. cbn [bind]. rewrite E2. cbn [bind ret].
  split; [reflexivity|].
  cbn [final_state DataCleansing.df_clean].
  rewrite L2, L1. cbn [DataCleansing.SENSITIVE_CATEGORICALS flat_map].
  rewrite app_nil_r.
  assert (I1 : id_column (pii_free df) ("Item Name", ("Item ID", "MTI"))
               = id_column df ("Item Name", ("Item ID", "MTI")))
    by (unfold pii_free; now rewrite id_column_filter).
  rewrite I1.
  assert (I2 : forall tail,
             (tail = [] \/ exists d, tail = [("Item ID", d)]) ->
             id_column (filter (fun c => negb (str_in (fst c) ["Item Name"]))
                               (pii_free df) ++ tail)
                       ("Item Modifiers", ("Modifier ID", "MTM"))
             = id_column df ("Item Modifiers", ("Modifier ID", "MTM"))).
  { intros tail [->|[d ->]].
    - rewrite app_nil_r.
      rewrite id_column_filter by (cbn; intuition discriminate).
      unfold pii_free. now rewrite id_column_filter.
    - rewrite id_column_app by discriminate.
      rewrite id_column_filter by (cbn; intuition discriminate).
      unfold pii_free. now rewrite id_column_filter. }
  assert (T : id_column df ("Item Name", ("Item ID", "MTI")) = []
              \/ exists d, id_column df ("Item Name", ("Item ID", "MTI"))
                           = [("Item ID", d)]).
  { unfold id_column. destruct (getitem _ df); cbn [fst snd]; eauto. }
  rewrite (I2 _ T).
  rewrite filter_app, kept_columns_steps, <- app_assoc. f_equal. f_equal.
  destruct T as [-> |[d ->]]; reflexivity.
Qed.

Lemma main_keeps_other_columns_witness :
  exists st,
    DataCleansing.main
      [("Order", [Int 1; Int 2]); ("Recipient Name", [Str "Ann"; Str "Bo"]);
       ("Item Name", [Str "Latte"; Str "Chai"]); ("Order Total", [Int 5; Int 4])]
    = inr st
    /\ DataCleansing.df_clean st
       = [("Order", [Int 1; Int 2]); ("Order Total", [Int 5; Int 4]);
          ("Item ID", [Str "MTI0002"; Str "MTI0001"])].
Proof.
  destruct (main_keeps_other_columns
              [("Order", [Int 1; Int 2]); ("Recipient Name", [Str "Ann"; Str "Bo"]);
               ("Item Name", [Str "Latte"; Str "Chai"]);
               ("Order Total", [Int 5; Int 4])])
    as [st [E L]].
  - repeat constructor; cbn; intuition discriminate.
  - cbn; intuition discriminate.
  - cbn; intuition discriminate.
  - exists st. split; [exact E|]. rewrite L. reflexivity.
Defined.

(** X4.  A run of [main] that returns has written one mapping file for each
    sensitive column of the input, the item mapping before the modifier
    mapping, each at its fixed path under data/private, and no other file;
    on a file of distinct labels the run does return. *)
Theorem main_mapping_files :
  forall df : frame,
    (forall st,
        DataCleansing.main df = inr st ->
        map DataCleansing.mf_path (DataCleansing.saved st)
        = (if str_in "Item Name" (columns df)
           then ["data/private/item_name_mapping.csv"] else [])
          ++ (if str_in "Item Modifiers" (columns df)
              then ["data/private/item_modifier_mapping.csv"] else []))
    /\ (NoDup (columns df) -> exists st, DataCleansing.main df = inr st).
Proof.
  intros df. destruct not_pii_sensitive as [P1 [P2 _]]. split.
  - intros st H. apply main_inv in H. destruct H as [st1 [st2 [E1 [E2 ->]]]].
    cbn [final_state DataCleansing.saved].
    apply anonymize_column_inv in E1, E2.
    rewrite <- (str_in_pii_free "Item Name" df P1).
    rewrite <- (str_in_pii_free "Item Modifiers" df P2).
    change (pii_free df) with (DataCleansing.df_clean (initial_state df)).
    destruct E1 as [[B1 ->]|[data1 [line1 [G1 ->]]]].
    + rewrite B1. cbn [skipped DataCleansing.df_clean] in E2.
      destruct E2 as [[B2 ->]|[data2 [line2 [G2 ->]]]].
      * rewrite B2. reflexivity.
      * rewrite (proj2 (str_in_In _ _) (getitem_In_columns _ _ _ G2)).
        reflexivity.
    + rewrite (proj2 (str_in_In _ _) (getitem_In_columns _ _ _ G1)).
      rewrite str_in_anonymized in E2 by discriminate.
      destruct E2 as [[B2 ->]|[data2 [line2 [G2 ->]]]].
      * rewrite B2. reflexivity.
      * apply getitem_In_columns in G2. apply str_in_In in G2.
        rewrite str_in_anonymized in G2 by discriminate.
        rewrite G2. reflexivity.
  - intros N. rewrite main_unfold.
    destruct (anonymize_column_step (initial_state df) "Item Name" "Item ID" "MTI")
      as [st1 [E1 [N1 _]]]; [now apply pii_free_NoDup|discriminate|].
    destruct (anonymize_column_step st1 "Item Modifiers" "Modifier ID" "MTM")
      as [st2 [E2 _]]; [assumption|discriminate|].
    rewrite E1. cbn [bind]. rewrite E2. cbn [bind ret]. eauto.
Qed.

Lemma main_mapping_files_witness :
  exists st,
    DataCleansing.main
      [("Order", [Int 1; Int 2]); ("Item Modifiers", [Str "Oat"; NA])]
    = inr st
    /\ map DataCleansing.mf_path (DataCleansing.saved st)
       = ["data/private/item_modifier_mapping.csv"].
Proof.
  destruct (proj2 (main_mapping_files
                     [("Order", [Int 1; Int 2]);
                      ("Item Modifiers", [Str "Oat"; NA])]))
    as [st E].
  - repeat constructor; cbn; intuition discriminate.
  - exists st. split; [exact E|].
    apply (proj1 (main_mapping_files
                    [("Order", [Int 1; Int 2]);
                     ("Item Modifiers", [Str "Oat"; NA])]) st E).
Defined.

Lemma pii_free_id (df : frame) :
  (forall c, In c DataCleansing.pii_columns -> ~ In c (columns df)) ->
  pii_free df = df.
Proof.
  intros H. unfold pii_free. apply filter_all. intros [l d] Hl.
  cbn [fst].
  destruct (str_in l DataCleansing.pii_columns) eqn:B; [|reflexivity].
  apply str_in_In in B. exfalso. apply (H l B). apply columns_In. eauto.
Qed.

Lemma anonymize_column_source_gone st src id prefix st' :
  DataCleansing.anonymize_column st (src, (id, prefix)) = inr st' ->
  ~ In src (columns (DataCleansing.df_clean st')).
Proof.
  intros H. apply anonymize_column_inv in H.
  destruct H as [[B ->]|[data [line [G ->]]]].
  - now apply str_in_false.
  - apply source_gone_anonymized.
Qed.

(** X5.  Running [main] again on the frame it produced changes nothing:
    the second run returns the same frame and writes no mapping file. *)
Theorem main_idempotent_on_output :
  forall (df : frame) (st : DataCleansing.state),
    DataCleansing.main df = inr st ->
    exists st',
      DataCleansing.main (DataCleansing.df_clean st) = inr st'
      /\ DataCleansing.df_clean st' = DataCleansing.df_clean st
      /\ DataCleansing.saved st' = [].
Proof.
  intros df st H. apply main_inv in H. destruct H as [st1 [st2 [E1 [E2 ->]]]].
  cbn [final_state DataCleansing.df_clean].
  assert (Hpii : forall c, In c DataCleansing.pii_columns ->
                           ~ In c (columns (DataCleansing.df_clean st2))).
  { intros c Hc H.
    destruct (anonymize_column_columns _ _ _ E2 c H) as [H1| ->].
    - destruct (anonymize_column_columns _ _ _ E1 c H1) as [H0| ->].
      + revert H0. now apply pii_free_no_pii.
      + cbn in Hc. intuition discriminate.
    - cbn in Hc. intuition discriminate. }
  assert (Hname : ~ In "Item Name" (columns (DataCleansing.df_clean st2))).
  { intros H. destruct (anonymize_column_columns _ _ _ E2 _ H) as [H1|H1].
    - revert H1. apply (anonymize_column_source_gone _ _ _ _ _ E1).
    - discriminate. }
  assert (Hmod : ~ In "Item Modifiers" (columns (DataCleansing.df_clean st2)))
    by apply (anonymize_column_source_gone _ _ _ _ _ E2).
  rewrite main_unfold.
  rewrite anonymize_column_absent
    by (cbn [initial_state DataCleansing.df_clean];
        rewrite (pii_free_id _ Hpii); now apply str_in_false).
  cbn [bind].
  rewrite anonymize_column_absent
    by (cbn [skipped initial_state DataCleansing.df_clean];
        rewrite (pii_free_id _ Hpii); now apply str_in_false).
  cbn [bind ret]. eexists. split; [reflexivity|].
  cbn [final_state skipped initial_state DataCleansing.df_clean
         DataCleansing.saved].
  split; [now apply pii_free_id|reflexivity].
Qed.

Lemma main_idempotent_on_output_witness :
  exists st',
    DataCleansing.main
      [("Order", [Int 1; Int 2]); ("Item ID", [Str "MTI0002"; Str "MTI0001"])]
    = inr st'
    /\ DataCleansing.df_clean st'
       = [("Order", [Int 1; Int 2]); ("Item ID", [Str "MTI0002"; Str "MTI0001"])]
    /\ DataCleansing.saved st' = [].
Proof.
  apply (main_idempotent_on_output
           [("Order", [Int 1; Int 2]); ("Recipient Name", [Str "Ann"; Str "Bo"]);
            ("Item Name", [Str "Latte"; Str "Chai"])]
           (final_state
              (skipped
                 (anonymized
                    (initial_state
                       [("Order", [Int 1; Int 2]);
                        ("Recipient Name", [Str "Ann"; Str "Bo"]);
                        ("Item Name", [Str "Latte"; Str "Chai"])])
                    "Item Name" "Item ID" "MTI" [Str "Latte"; Str "Chai"]
                    (Py.nl ++ "Saved item mapping to: "
                     ++ DataCleansing.item_mapping_path)%string)
                 "Item Modifiers"))).
  reflexivity.
Defined.

(* ===================================================================== *)
(** * Further properties of make_daily_revenue_weather_v1.py *)
(* ===================================================================== *)

(** ** Failures of the orders load and of the weather load *)

Section MainErrors.
Variable to_datetime : list cell -> list (option timestamp).
Variable to_numeric : cell -> option Qc.
Variable csv_date : date -> cell.
Variable csv_float : option Qc -> cell.

Lemma main_orders_error orders_file weather_file raw_weather_file e :
  RevenueWeather.load_orders to_datetime to_numeric orders_file = inl e ->
  RevenueWeather.main to_datetime to_numeric csv_date csv_float
                      orders_file weather_file raw_weather_file = inl e.
Proof.
  intros H. unfold RevenueWeather.main. rewrite H. reflexivity.
Qed.

Lemma main_raw_error orders_file orders raw e :
  RevenueWeather.load_orders to_datetime to_numeric orders_file = inr orders ->
  RevenueWeather.prepare_weather_from_raw to_datetime to_numeric raw = inl e ->
  RevenueWeather.main to_datetime to_numeric csv_date csv_float
                      orders_file None (Some raw) = inl e.
Proof.
  intros Ho Hp. unfold RevenueWeather.main. rewrite Ho. cbn [bind].
  unfold RevenueWeather.ensure_weather_file. rewrite Hp. reflexivity.
Qed.

Lemma main_weather_error orders_file orders wf raw_weather_file e :
  RevenueWeather.load_orders to_datetime to_numeric orders_file = inr orders ->
  RevenueWeather.load_weather to_datetime to_numeric (Some wf) = inl e ->
  RevenueWeather.main to_datetime to_numeric csv_date csv_float
                      orders_file (Some wf) raw_weather_file = inl e.
Proof.
  intros Ho Hw. unfold RevenueWeather.main. rewrite Ho. cbn [bind].
  unfold RevenueWeather.ensure_weather_file.
  destruct raw_weather_file; cbn [bind ret fst snd]; now rewrite Hw.
Qed.
End MainErrors.

(** X6.  When the orders file lacks Order Date or Order Total, [load_orders]
    raises a ValueError that names the missing columns, Order Date first,
    and [main] stops with that error whatever the weather files are: nothing
    is derived, merged or written. *)
Theorem load_orders_missing_columns :
  forall (to_datetime : list cell -> list (option timestamp))
         (to_numeric : cell -> option Qc)
         (csv_date : date -> cell) (csv_float : option Qc -> cell)
         (df : frame),
    ~ In "Order Date" (columns df) \/ ~ In "Order Total" (columns df) ->
    let missing :=
      if str_in "Order Date" (columns df) then "Order Total"
      else if str_in "Order Total" (columns df) then "Order Date"
           else "Order Date, Order Total" in
    let e := ValueError ("Orders file missing required columns: " ++ missing) in
    RevenueWeather.load_orders to_datetime to_numeric df = raise e
    /\ forall weather_file raw_weather_file,
        RevenueWeather.main to_datetime to_numeric csv_date csv_float
                            df weather_file raw_weather_file = raise e.
Proof.
  intros to_datetime to_numeric csv_date csv_float df H missing e.
  assert (L : RevenueWeather.load_orders to_datetime to_numeric df = raise e).
  { unfold RevenueWeather.load_orders, e, missing. cbn [filter].
    destruct (str_in "Order Date" (columns df)) eqn:B1;
      destruct (str_in "Order Total" (columns df)) eqn:B2;
      cbn [negb]; try reflexivity.
    apply str_in_In in B1, B2. tauto. }
  split; [exact L|]. intros weather_file raw_weather_file.
  now apply main_orders_error.
Qed.

Lemma load_orders_missing_columns_witness :
  RevenueWeather.main sample_to_datetime sample_to_numeric
                      sample_csv_date sample_csv_float
                      [("Order Date", [Str "2025-10-01"]); ("Total", [Int 4])]
                      None None
  = raise (ValueError "Orders file missing required columns: Order Total").
Proof.
  assert (H : ~ In "Order Date"
                   (columns [("Order Date", [Str "2025-10-01"]);
                             ("Total", [Int 4])])
              \/ ~ In "Order Total"
                      (columns [("Order Date", [Str "2025-10-01"]);
                                ("Total", [Int 4])]))
    by (right; cbn; intuition discriminate).
  apply (proj2 (load_orders_missing_columns
                  sample_to_datetime sample_to_numeric
                  sample_csv_date sample_csv_float
                  [("Order Date", [Str "2025-10-01"]); ("Total", [Int 4])]
                  H)).
Defined.

(** X7.  When the daily weather file exists the raw weather file plays no
    part: [main] gives the same result with and without it.  And when that
    existing file does not load, [main] stops with the load's error: it
    falls back neither to the raw file nor to a revenue-only output.
    Likewise, when only the raw file exists and the derivation from it
    fails, [main] stops with that error. *)
Theorem existing_weather_file_takes_precedence :
  forall (to_datetime : list cell -> list (option timestamp))
         (to_numeric : cell -> option Qc)
         (csv_date : date -> cell) (csv_float : option Qc -> cell)
         (orders_file wf : frame) (raw_weather_file : option frame),
    RevenueWeather.main to_datetime to_numeric csv_date csv_float
                        orders_file (Some wf) raw_weather_file
    = RevenueWeather.main to_datetime to_numeric csv_date csv_float
                          orders_file (Some wf) None
    /\ (forall orders e,
           RevenueWeather.load_orders to_datetime to_numeric orders_file
           = inr orders ->
           RevenueWeather.load_weather to_datetime to_numeric (Some wf) = inl e ->
           RevenueWeather.main to_datetime to_numeric csv_date csv_float
                               orders_file (Some wf) raw_weather_file = inl e)
    /\ (forall orders raw e,
           RevenueWeather.load_orders to_datetime to_numeric orders_file
           = inr orders ->
           RevenueWeather.prepare_weather_from_raw to_datetime to_numeric raw
           = inl e ->
           RevenueWeather.main to_datetime to_numeric csv_date csv_float
                               orders_file None (Some raw) = inl e).
Proof.
  intros to_datetime to_numeric csv_date csv_float orders_file wf
         raw_weather_file.
  split; [|split].
  - unfold RevenueWeather.main, RevenueWeather.ensure_weather_file.
    destruct raw_weather_file; reflexivity.
  - intros orders e. apply main_weather_error.
  - intros orders raw e. apply main_raw_error.
Qed.

Lemma existing_weather_file_takes_precedence_witness :
  RevenueWeather.main sample_to_datetime sample_to_numeric
    sample_csv_date sample_csv_float
    [("Order Date", [Str "2025-10-01"]); ("Order Total", [Int 4])]
    (Some [("date", [Str "2025-10-01"; Str "2025-10-01"]);
           ("temp", [Int 70; Int 71]); ("rain", [Int 0; Int 0])])
    (Some [("DATE", [Str "2025-10-01"]); ("TAVG", [Int 70]); ("PRCP", [Int 0])])
  = raise (ValueError
             "Weather file has duplicate dates; expected 1 row per day.").
Proof.
  apply (proj1 (proj2 (existing_weather_file_takes_precedence
                  sample_to_datetime sample_to_numeric
                  sample_csv_date sample_csv_float
                  [("Order Date", [Str "2025-10-01"]); ("Order Total", [Int 4])]
                  [("date", [Str "2025-10-01"; Str "2025-10-01"]);
                   ("temp", [Int 70; Int 71]); ("rain", [Int 0; Int 0])]
                  (Some [("DATE", [Str "2025-10-01"]); ("TAVG", [Int 70]);
                         ("PRCP", [Int 0])])))
           [(Some (mkts (mkdate 2025 10 1) 0), Some (num_of_Z 4))]).
  - vm_compute. reflexivity.
  - vm_compute. reflexivity.
Defined.

(** ** The missing-weather warning *)

Lemma any_or_count {A} (f g : A -> bool) (l : list A) :
  (any (map f l) || any (map g l))%bool
  = negb (List.length (filter (fun x => (f x || g x)%bool) l) =? 0)%nat.
Proof.
  unfold any. induction l as [|x l IH]; [reflexivity|].
  cbn [map existsb filter].
  destruct (f x), (g x); cbn [orb List.length Nat.eqb negb];
    try reflexivity; try (now rewrite orb_true_r).
  exact IH.
Qed.

(** X8.  With the orders loaded and a weather table loaded, [main] writes
    one row per revenue day, carrying the weather of that date, and prints
    the missing-weather warning exactly when some written row lacks temp or
    rain; the warning gives the number of such rows, which counts the days
    without a weather row and the days whose weather row has a missing
    value alike.  The last line printed gives the number of rows written. *)
Theorem missing_weather_warning :
  forall (to_datetime : list cell -> list (option timestamp))
         (to_numeric : cell -> option Qc)
         (csv_date : date -> cell) (csv_float : option Qc -> cell)
         (orders_file : frame) (weather_file raw_weather_file : option frame)
         orders wf out0 weather,
    RevenueWeather.load_orders to_datetime to_numeric orders_file = inr orders ->
    RevenueWeather.ensure_weather_file to_datetime to_numeric csv_date csv_float
      weather_file raw_weather_file = inr (Some wf, out0) ->
    RevenueWeather.load_weather to_datetime to_numeric (Some wf) = inr weather ->
    let daily := RevenueWeather.daily_revenue orders in
    let merged :=
      map (fun d => with_weather d (weather_on weather (RevenueWeather.d_date d)))
          daily in
    let n :=
      List.length
        (filter (fun d =>
                   match weather_on weather (RevenueWeather.d_date d) with
                   | Some w => (RevenueWeather.is_none (RevenueWeather.w_temp w)
                                || RevenueWeather.is_none (RevenueWeather.w_rain w))%bool
                   | None => true
                   end) daily) in
    RevenueWeather.main to_datetime to_numeric csv_date csv_float
                        orders_file weather_file raw_weather_file
    = inr (merged,
           out0
             ++ (if (n =? 0)%nat then [] else [RevenueWeather.date_warning n])
             ++ [RevenueWeather.wrote_line (List.length daily)]).
Proof.
  intros to_datetime to_numeric csv_date csv_float orders_file weather_file
         raw_weather_file orders wf out0 weather Ho Hw Hl daily merged n.
  unfold RevenueWeather.main.
  rewrite Ho. cbn [bind]. rewrite Hw. cbn [bind fst snd]. rewrite Hl. cbn [bind].
  rewrite (merge_left_unique _ weather
             (load_weather_unique_dates to_datetime to_numeric _ _ Hl)).
  fold daily. fold merged.
  rewrite (any_or_count (fun m => RevenueWeather.is_none (RevenueWeather.m_temp m))
                        (fun m => RevenueWeather.is_none (RevenueWeather.m_rain m))).
  assert (C : List.length
                (filter (fun m => (RevenueWeather.is_none (RevenueWeather.m_temp m)
                                   || RevenueWeather.is_none (RevenueWeather.m_rain m))%bool)
                        merged) = n).
  { unfold merged, n. rewrite filter_map_swap, length_map. f_equal.
    apply filter_ext. intros d. unfold with_weather.
    cbn [RevenueWeather.m_temp RevenueWeather.m_rain].
    destruct (weather_on weather (RevenueWeather.d_date d)); reflexivity. }
  rewrite C.
  assert (Lm : List.length merged = List.length daily)
    by (unfold merged; apply length_map).
  destruct (n =? 0)%nat; cbn [negb bind ret fst snd]; rewrite Lm.
  - reflexivity.
  - rewrite <- app_assoc. reflexivity.
Qed.

Lemma missing_weather_warning_witness :
  RevenueWeather.main sample_to_datetime sample_to_numeric
    sample_csv_date sample_csv_float
    [("Order Date", [Str "2025-10-01"; Str "2025-10-02"; Str "2025-10-03"]);
     ("Order Total", [Int 4; Int 6; Int 5])]
    (Some [("Date", [Str "2025-10-01"; Str "2025-10-02"]);
           ("Temp", [Int 70; Int 71]); ("Rain", [Int 0; Str "trace"])])
    None
  = inr ([RevenueWeather.mk_merged (mkdate 2025 10 1) (num_of_Z 4) 2 "Wednesday"
            (Some (num_of_Z 70)) (Some (num_of_Z 0));
          RevenueWeather.mk_merged (mkdate 2025 10 2) (num_of_Z 6) 3 "Thursday"
            (Some (num_of_Z 71)) None;
          RevenueWeather.mk_merged (mkdate 2025 10 3) (num_of_Z 5) 4 "Friday"
            None None],
         ["WARNING: Missing weather for 2 day(s). Check date alignment/timezone.";
          "Wrote data/analytics/daily_revenue_weather_v1.csv (3 rows)"]).
Proof.
  rewrite (missing_weather_warning
             sample_to_datetime sample_to_numeric sample_csv_date sample_csv_float
             [("Order Date", [Str "2025-10-01"; Str "2025-10-02"; Str "2025-10-03"]);
              ("Order Total", [Int 4; Int 6; Int 5])]
             (Some [("Date", [Str "2025-10-01"; Str "2025-10-02"]);
                    ("Temp", [Int 70; Int 71]); ("Rain", [Int 0; Str "trace"])])
             None
             [(Some (mkts (mkdate 2025 10 1) 0), Some (num_of_Z 4));
              (Some (mkts (mkdate 2025 10 2) 0), Some (num_of_Z 6));
              (Some (mkts (mkdate 2025 10 3) 0), Some (num_of_Z 5))]
             [("Date", [Str "2025-10-01"; Str "2025-10-02"]);
              ("Temp", [Int 70; Int 71]); ("Rain", [Int 0; Str "trace"])]
             []
             [RevenueWeather.mk_weather (mkdate 2025 10 1)
                                        (Some (num_of_Z 70)) (Some (num_of_Z 0));
              RevenueWeather.mk_weather (mkdate 2025 10 2)
                                        (Some (num_of_Z 71)) None]).
  - vm_compute. reflexivity.
  - vm_compute. reflexivity.
  - reflexivity.
  - vm_compute. reflexivity.
Defined.

(** ** The derived weather file, written and read back *)

Lemma zip_weather_rows (w : list RevenueWeather.weather_row) :
  RevenueWeather.zip_weather (map RevenueWeather.w_date w)
                             (map RevenueWeather.w_temp w)
                             (map RevenueWeather.w_rain w) = w.
Proof.
  unfold RevenueWeather.zip_weather.
  induction w as [|[d t r] w IH]; [reflexivity|].
  cbn [map combine fst snd RevenueWeather.w_date RevenueWeather.w_temp
         RevenueWeather.w_rain].
  f_equal. exact IH.
Qed.

Section RoundTrip.
Variable to_datetime : list cell -> list (option timestamp).
Variable to_numeric : cell -> option Qc.
Variable csv_date : date -> cell.
Variable csv_float : option Qc -> cell.

Lemma normalize_weather_csv w :
  RevenueWeather.normalize_weather_columns
    (RevenueWeather.weather_csv csv_date csv_float w)
  = inr (RevenueWeather.weather_csv csv_date csv_float w).
Proof. reflexivity. Qed.

Lemma load_weather_csv w :
  NoDup (map RevenueWeather.w_date w) ->
  parsed_dates to_datetime (map (fun r => csv_date (RevenueWeather.w_date r)) w)
  = map (fun r => Some (RevenueWeather.w_date r)) w ->
  (forall r, In r w ->
             to_numeric (csv_float (RevenueWeather.w_temp r))
             = RevenueWeather.w_temp r
             /\ to_numeric (csv_float (RevenueWeather.w_rain r))
                = RevenueWeather.w_rain r) ->
  RevenueWeather.load_weather to_datetime to_numeric
    (Some (RevenueWeather.weather_csv csv_date csv_float w))
  = inr w.
Proof.
  intros N Hd Hv.
  rewrite (load_weather_normalized to_datetime to_numeric _ _ _ _
             (normalize_weather_csv w)).
  rewrite Hd, <- (map_map RevenueWeather.w_date Some).
  rewrite (proj2 (all_present_Some _ _) eq_refl).
  rewrite (proj2 (duplicated_none date_eqb date_eqb_eq _) N).
  unfold ret. f_equal. rewrite !map_map.
  rewrite (map_ext_in _ RevenueWeather.w_temp) by (intros r Hr; apply (Hv r Hr)).
  rewrite (map_ext_in (fun r => to_numeric (csv_float (RevenueWeather.w_rain r)))
                      RevenueWeather.w_rain)
    by (intros r Hr; apply (Hv r Hr)).
  apply zip_weather_rows.
Qed.
End RoundTrip.

(** X9.  When only the raw weather file exists and the daily table derived
    from it survives being written and read back (each date and each value
    parses back to itself), the table [main] then loads from the file it has
    just written is the derived table, and the output carries, for each
    revenue day, the derived weather of that date. *)
Theorem raw_weather_is_merged :
  forall (to_datetime : list cell -> list (option timestamp))
         (to_numeric : cell -> option Qc)
         (csv_date : date -> cell) (csv_float : option Qc -> cell)
         (orders_file raw : frame) orders w line,
    RevenueWeather.load_orders to_datetime to_numeric orders_file = inr orders ->
    RevenueWeather.prepare_weather_from_raw to_datetime to_numeric raw
    = inr (w, line) ->
    parsed_dates to_datetime (map (fun r => csv_date (RevenueWeather.w_date r)) w)
    = map (fun r => Some (RevenueWeather.w_date r)) w ->
    (forall r, In r w ->
               to_numeric (csv_float (RevenueWeather.w_temp r))
               = RevenueWeather.w_temp r
               /\ to_numeric (csv_float (RevenueWeather.w_rain r))
                  = RevenueWeather.w_rain r) ->
    RevenueWeather.load_weather to_datetime to_numeric
      (Some (RevenueWeather.weather_csv csv_date csv_float w)) = inr w
    /\ exists out,
        RevenueWeather.main to_datetime to_numeric csv_date csv_float
                            orders_file None (Some raw)
        = inr (map (fun d => with_weather
                               d (weather_on w (RevenueWeather.d_date d)))
                   (RevenueWeather.daily_revenue orders), out).
Proof.
  intros to_datetime to_numeric csv_date csv_float orders_file raw orders w line
         Ho Hp Hd Hv.
  assert (L : RevenueWeather.load_weather to_datetime to_numeric
                (Some (RevenueWeather.weather_csv csv_date csv_float w)) = inr w).
  { apply load_weather_csv; auto.
    apply (prepare_unique_dates to_datetime to_numeric raw w line Hp). }
  split; [exact L|].
  apply (main_with_weather to_datetime to_numeric csv_date csv_float
           orders_file orders None (Some raw)
           (RevenueWeather.weather_csv csv_date csv_float w) line w Ho);
    [|exact L].
  unfold RevenueWeather.ensure_weather_file. rewrite Hp. reflexivity.
Qed.

Lemma raw_weather_is_merged_witness :
  exists out,
    RevenueWeather.main sample_to_datetime sample_to_numeric
      sample_csv_date sample_csv_float
      [("Order Date", [Str "2025-10-01"; Str "2025-10-03"]);
       ("Order Total", [Int 4; Int 5])]
      None
      (Some [(" date", [Str "2025-10-01"; Str "2025-10-01"; Str "2025-10-02"]);
             ("tmax", [Int 80; Int 76; Int 70]);
             ("tmin", [Int 60; Int 64; Int 50]);
             ("Prcp", [Int 0; Int 2; Int 3])])
    = inr ([RevenueWeather.mk_merged (mkdate 2025 10 1) (num_of_Z 4) 2 "Wednesday"
              (Some (num_of_Z 70)) (Some (num_of_Z 1));
            RevenueWeather.mk_merged (mkdate 2025 10 3) (num_of_Z 5) 4 "Friday"
              None None], out).
Proof.
  destruct (raw_weather_is_merged
              sample_to_datetime sample_to_numeric sample_csv_date sample_csv_float
              [("Order Date", [Str "2025-10-01"; Str "2025-10-03"]);
               ("Order Total", [Int 4; Int 5])]
              [(" date", [Str "2025-10-01"; Str "2025-10-01"; Str "2025-10-02"]);
               ("tmax", [Int 80; Int 76; Int 70]);
               ("tmin", [Int 60; Int 64; Int 50]);
               ("Prcp", [Int 0; Int 2; Int 3])]
              [(Some (mkts (mkdate 2025 10 1) 0), Some (num_of_Z 4));
               (Some (mkts (mkdate 2025 10 3) 0), Some (num_of_Z 5))]
              [RevenueWeather.mk_weather (mkdate 2025 10 1)
                                         (Some (num_of_Z 70)) (Some (num_of_Z 1));
               RevenueWeather.mk_weather (mkdate 2025 10 2)
                                         (Some (num_of_Z 60)) (Some (num_of_Z 3))]
              ["Prepared weather file from raw data: data/external/daily_weather.csv"])
    as [_ [out E]].
  - vm_compute. reflexivity.
  - vm_compute. same_values.
  - vm_compute. reflexivity.
  - intros r [<-|[<-|[]]]; split; vm_compute; same_values.
  - exists out. etransitivity; [exact E|]. vm_compute. same_values.
Defined.

(** ** Normalising a table that is already normalised *)

Lemma select_inv labels (df df' : frame) :
  select labels df = inr df' ->
  (forall l, In l labels -> In l (columns df))
  /\ df' = flat_map (fun l => filter (fun c => String.eqb (fst c) l) df) labels.
Proof.
  unfold select.
  destruct (filter (fun l => negb (str_in l (columns df))) labels) eqn:F;
    [|discriminate].
  intros [= <-]. split; [|reflexivity].
  intros l Hl. apply str_in_In.
  destruct (str_in l (columns df)) eqn:B; [reflexivity|].
  assert (Hin : In l (filter (fun l => negb (str_in l (columns df))) labels))
    by (apply filter_In; rewrite B; auto).
  rewrite F in Hin. destruct Hin.
Qed.

Lemma select_present labels (df : frame) :
  (forall l, In l labels -> In l (columns df)) ->
  select labels df
  = inr (flat_map (fun l => filter (fun c => String.eqb (fst c) l) df) labels).
Proof.
  intros H. unfold select. rewrite filter_none; [reflexivity|].
  intros l Hl. now rewrite (proj2 (str_in_In _ _) (H l Hl)).
Qed.

Lemma filter_label_other l labels (g : frame) :
  ~ In l labels ->
  filter (fun c => String.eqb (fst c) l)
         (flat_map (fun l' => filter (fun c => String.eqb (fst c) l') g) labels)
  = [].
Proof.
  intros H. apply filter_none. intros [c d] Hc. cbn [fst].
  apply in_flat_map in Hc. destruct Hc as [l' [Hl' Hc]].
  apply filter_In in Hc. destruct Hc as [_ Hc]. cbn [fst] in Hc.
  apply String.eqb_eq in Hc. subst c.
  apply String.eqb_neq. intros ->. auto.
Qed.

Lemma filter_label_same l labels (g : frame) :
  NoDup labels -> In l labels ->
  filter (fun c => String.eqb (fst c) l)
         (flat_map (fun l' => filter (fun c => String.eqb (fst c) l') g) labels)
  = filter (fun c => String.eqb (fst c) l) g.
Proof.
  intros N. induction N as [|a labels Ha N IH]; [intros []|].
  intros Hl. cbn [flat_map]. rewrite filter_app, filter_filter.
  destruct (string_dec a l) as [->|Hne].
  - rewrite (filter_label_other l labels g Ha), app_nil_r.
    apply filter_ext. intros c. apply andb_diag.
  - destruct Hl as [Hl|Hl]; [congruence|]. rewrite (IH Hl).
    rewrite filter_none; [reflexivity|].
    intros [c d] _. cbn [fst].
    destruct (String.eqb c a) eqn:E1; [|reflexivity].
    apply String.eqb_eq in E1. subst c. cbn [andb].
    now apply String.eqb_neq.
Qed.

Lemma flat_map_same {X Y} (body body' : X -> list Y) (xs : list X) :
  (forall x, In x xs -> body x = body' x) ->
  flat_map body xs = flat_map body' xs.
Proof.
  induction xs as [|x xs IH]; intros H; [reflexivity|].
  cbn [flat_map]. rewrite (H x (or_introl eq_refl)), IH; [reflexivity|].
  intros y Hy. apply H. now right.
Qed.

Lemma regroup labels (g : frame) :
  NoDup labels ->
  let f := flat_map (fun l => filter (fun c => String.eqb (fst c) l) g) labels in
  flat_map (fun l => filter (fun c => String.eqb (fst c) l) f) labels = f.
Proof.
  intros N f. unfold f at 2.
  apply flat_map_same. intros l Hl. now apply filter_label_same.
Qed.

Lemma columns_grouped c labels (g : frame) :
  In c (columns (flat_map (fun l => filter (fun e => String.eqb (fst e) l) g)
                          labels))
  <-> In c labels /\ In c (columns g).
Proof.
  rewrite !columns_In. split.
  - intros [d H]. apply in_flat_map in H. destruct H as [l [Hl H]].
    apply filter_In in H. destruct H as [H E]. cbn [fst] in E.
    apply String.eqb_eq in E. subst l. split; [exact Hl|]. eauto.
  - intros [Hl [d Hd]].
    exists d. apply in_flat_map. exists c. split; [exact Hl|].
    apply filter_In. split; [exact Hd|]. apply String.eqb_refl.
Qed.

Lemma required_NoDup : NoDup RevenueWeather.required.
Proof. repeat constructor; cbn; intuition discriminate. Qed.

(** A table that carries the three labels and no other is left as it is by
    the renaming. *)
Lemma new_label_own (f : frame) c :
  In c RevenueWeather.required -> new_label f c = c.
Proof.
  intros Hc. unfold new_label.
  destruct (Py.Dict.get c _) as [target|] eqn:G; [|reflexivity].
  apply renamed_get in G. destruct G as [Ht Hcol].
  apply col_of_Some in Hcol. destruct Hcol as [_ [Ha _]].
  destruct (target_own_alias c Hc) as [rest [Eal El]].
  rewrite El in Ha.
  apply (aliases_disjoint target c c Ht Hc Ha).
  rewrite Eal. now left.
Qed.

Lemma normalize_grouped (f : frame) :
  (forall t, In t RevenueWeather.required -> In t (columns f)) ->
  (forall c, In c (columns f) -> In c RevenueWeather.required) ->
  RevenueWeather.normalize_weather_columns f
  = inr (flat_map (fun l => filter (fun c => String.eqb (fst c) l) f)
                  RevenueWeather.required).
Proof.
  intros Hall Honly. rewrite normalize_unfold.
  assert (U : unresolved f = []).
  { unfold unresolved. apply filter_none. intros t Ht.
    now rewrite (target_label_resolves f t Ht (Hall t Ht)). }
  rewrite U.
  assert (M : map (fun c : string * list cell => (new_label f (fst c), snd c)) f
              = f).
  { rewrite <- (map_id f) at 2. apply map_ext_in. intros [c d] Hc.
    cbn [fst snd]. rewrite new_label_own; [reflexivity|].
    apply Honly. apply columns_In. eauto. }
  rewrite M. now apply select_present.
Qed.

(** X11.  What [normalize_weather_columns] returns carries the labels date,
    temp and rain and no other, and normalising it again returns it
    unchanged, also when the input had several columns for one target. *)
Theorem normalize_weather_columns_idempotent :
  forall df df' : frame,
    RevenueWeather.normalize_weather_columns df = inr df' ->
    (forall c, In c (columns df') <-> In c ["date"; "temp"; "rain"])
    /\ RevenueWeather.normalize_weather_columns df' = inr df'.
Proof.
  intros df df' H. rewrite normalize_unfold in H.
  destruct (unresolved df); [|discriminate].
  apply select_inv in H. destruct H as [Hall ->].
  set (g := map (fun c : string * list cell => (new_label df (fst c), snd c)) df)
    in *.
  assert (C : forall c,
             In c (columns (flat_map
                              (fun l => filter (fun e => String.eqb (fst e) l) g)
                              RevenueWeather.required))
             <-> In c RevenueWeather.required).
  { intros c. rewrite columns_grouped. split; [tauto|]. auto. }
  split; [exact C|].
  rewrite normalize_grouped.
  - apply f_equal. apply (regroup RevenueWeather.required g required_NoDup).
  - intros t Ht. now apply C.
  - intros c Hc. now apply C.
Qed.

Lemma normalize_weather_columns_idempotent_witness :
  RevenueWeather.normalize_weather_columns
    [("date", [Str "2025-10-01"]); ("temp", [Int 64]); ("rain", [Str "0.2"])]
  = inr [("date", [Str "2025-10-01"]); ("temp", [Int 64]); ("rain", [Str "0.2"])].
Proof.
  apply (proj2 (normalize_weather_columns_idempotent
                  [("Station", [Str "KSFO"]); ("PRCP", [Str "0.2"]);
                   ("Day", [Str "2025-10-01"]); ("TAVG", [Int 64])]
                  [("date", [Str "2025-10-01"]); ("temp", [Int 64]);
                   ("rain", [Str "0.2"])]
                  eq_refl)).
Defined.

(** ** The duplicate-total diagnostic *)

Lemma order_key_eqb_eq a b :
  RevenueWeather.order_key_eqb a b = true <-> a = b.
Proof.
  unfold RevenueWeather.order_key_eqb. destruct a as [d x], b as [d' x'].
  cbn [fst snd]. rewrite andb_true_iff, date_eqb_eq. split.
  - intros [-> H]. apply Qc_eq_bool_correct in H. now subst.
  - intros [= -> ->]. split; [reflexivity|].
    unfold Qc_eq_bool. now destruct (Qc_eq_dec x' x').
Qed.

Lemma keyed_order_keys orders :
  map fst (keyed (map (fun r => (RevenueWeather.order_key r, r)) orders))
  = order_keys orders.
Proof.
  unfold keyed, order_keys.
  induction orders as [|r orders IH]; [reflexivity|].
  cbn [map flat_map fst snd]. rewrite map_app, IH.
  now destruct (RevenueWeather.order_key r).
Qed.

Lemma length_order_keys orders :
  List.length (order_keys orders) <= List.length orders.
Proof.
  unfold order_keys. induction orders as [|r orders IH]; [reflexivity|].
  cbn [flat_map]. rewrite length_app.
  destruct (RevenueWeather.order_key r); cbn [List.length]; lia.
Qed.

Lemma dup_counts_occurrences orders :
  RevenueWeather.dup_counts orders
  = map (fun k => (k, occurrences (order_keys orders) k))
        (group_keys RevenueWeather.order_key_eqb RevenueWeather.order_key_leb
                    (map (fun r => (RevenueWeather.order_key r, r)) orders)).
Proof.
  unfold RevenueWeather.dup_counts, groupby. rewrite map_map.
  apply map_ext. intros k. cbn [fst snd]. f_equal.
  unfold group, occurrences. rewrite length_map, <- keyed_order_keys.
  rewrite (filter_map_swap fst (fun k' => RevenueWeather.order_key_eqb k' k)).
  now rewrite length_map.
Qed.

(** Counting by group: over distinct keys that cover a list, the sizes of
    the selected groups add up to the number of selected elements. *)
Section CountByKey.
Context {K : Type}.
Variable eqb : K -> K -> bool.
Hypothesis eqb_eq : forall a b, eqb a b = true <-> a = b.

Lemma eqb_same k : eqb k k = true.
Proof. now apply eqb_eq. Qed.

Lemma list_sum_head (n : nat) (l : list nat) :
  list_sum (n :: l) = n + list_sum l.
Proof. reflexivity. Qed.

Lemma sum_indicator_absent (P : K -> bool) (k0 : K) (gk : list K) :
  ~ In k0 gk ->
  list_sum (map (fun k => if eqb k0 k then 1 else 0) (filter P gk)) = 0.
Proof.
  induction gk as [|y gk IH]; intros Hn; [reflexivity|].
  assert (Hy : eqb k0 y = false).
  { destruct (eqb k0 y) eqn:E; [|reflexivity].
    apply eqb_eq in E. subst. exfalso. apply Hn. now left. }
  assert (Hr : ~ In k0 gk) by (intros H; apply Hn; now right).
  cbn [filter]. destruct (P y); cbn [map];
    [rewrite list_sum_head, Hy|]; now apply IH.
Qed.

Lemma sum_indicator (P : K -> bool) (k0 : K) (gk : list K) :
  NoDup gk -> In k0 gk ->
  list_sum (map (fun k => if eqb k0 k then 1 else 0) (filter P gk))
  = if P k0 then 1 else 0.
Proof.
  intros N. induction N as [|k gk Hk N IH]; [intros []|].
  intros Hin. cbn [filter].
  destruct (eqb k0 k) eqn:E.
  - apply eqb_eq in E. subst k.
    destruct (P k0); cbn [map];
      [rewrite list_sum_head, eqb_same|]; now rewrite sum_indicator_absent.
  - assert (Hin' : In k0 gk).
    { destruct Hin as [->|H]; [|exact H]. now rewrite eqb_same in E. }
    destruct (P k); cbn [map]; [rewrite list_sum_head, E|]; now apply IH.
Qed.

Lemma list_sum_map_add {A} (f g : A -> nat) (l : list A) :
  list_sum (map (fun x => f x + g x) l) = list_sum (map f l) + list_sum (map g l).
Proof.
  induction l as [|x l IH]; [reflexivity|].
  cbn [map]. rewrite !list_sum_head. lia.
Qed.

Lemma count_by_key (P : K -> bool) (gk keys : list K) :
  NoDup gk -> (forall k, In k keys -> In k gk) ->
  list_sum (map (fun k => List.length (filter (fun k' => eqb k' k) keys))
                (filter P gk))
  = List.length (filter P keys).
Proof.
  intros N. induction keys as [|k0 keys IH]; intros Hsub.
  - cbn [filter List.length]. induction (filter P gk); auto.
  - rewrite (map_ext _ (fun k => (if eqb k0 k then 1 else 0)
                                 + List.length (filter (fun k' => eqb k' k) keys))).
    + rewrite list_sum_map_add, IH by (intros k Hk; apply Hsub; now right).
      rewrite sum_indicator; [|exact N|apply Hsub; now left].
      cbn [filter]. destruct (P k0); reflexivity.
    + intros k. cbn [filter]. destruct (eqb k0 k); reflexivity.
Qed.

Lemma occurrences_count_occ (dec : forall a b : K, {a = b} + {a <> b})
      (keys : list K) k :
  List.length (filter (fun k' => eqb k' k) keys) = count_occ dec keys k.
Proof.
  induction keys as [|k0 keys IH]; [reflexivity|]. cbn [filter count_occ].
  destruct (dec k0 k) as [->|Hne].
  - rewrite eqb_same. cbn [List.length]. now rewrite IH.
  - destruct (eqb k0 k) eqn:E; [apply eqb_eq in E; congruence|exact IH].
Qed.
End CountByKey.

Lemma order_key_dec (a b : date * Qc) : {a = b} + {a <> b}.
Proof.
  decide equality; [apply Qc_eq_dec|apply date_eq_dec].
Defined.

Lemma repeat_rows_shared orders :
  RevenueWeather.repeat_rows orders
  = List.length (filter (shared (order_keys orders)) (order_keys orders)).
Proof.
  unfold RevenueWeather.repeat_rows. rewrite dup_counts_occurrences.
  rewrite (filter_map_swap (fun k => (k, occurrences (order_keys orders) k))).
  rewrite map_map. cbn [snd].
  apply (count_by_key RevenueWeather.order_key_eqb order_key_eqb_eq
                      (shared (order_keys orders))).
  - apply (group_keys_NoDup RevenueWeather.order_key_eqb
                            RevenueWeather.order_key_leb order_key_eqb_eq).
  - intros k Hk.
    apply (group_keys_In RevenueWeather.order_key_eqb
                         RevenueWeather.order_key_leb order_key_eqb_eq).
    now rewrite keyed_order_keys.
Qed.

(** X12.  The count of repeated rows that [report_duplicate_totals] prints
    is the number of orders, among those with a date and a total, whose
    (date, total) pair occurs more than once.  It never exceeds the number
    of orders, it is zero exactly when no two such orders share date and
    total, and it is never one. *)
Theorem repeat_rows_counts_shared_totals :
  forall orders : list (option timestamp * option Qc),
    let keys := order_keys orders in
    RevenueWeather.repeat_rows orders
    = List.length (filter (shared keys) keys)
    /\ RevenueWeather.repeat_rows orders <= RevenueWeather.total_rows orders
    /\ (RevenueWeather.repeat_rows orders = 0 <-> NoDup keys)
    /\ RevenueWeather.repeat_rows orders <> 1.
Proof.
  intros orders keys. rewrite repeat_rows_shared. fold keys.
  assert (occ : forall k, occurrences keys k = count_occ order_key_dec keys k).
  { intros k. unfold occurrences.
    apply (occurrences_count_occ RevenueWeather.order_key_eqb order_key_eqb_eq). }
  split; [reflexivity|]. split; [|split].
  - unfold RevenueWeather.total_rows.
    pose proof (filter_length_le (shared keys) keys).
    pose proof (length_order_keys orders). fold keys in H0. lia.
  - split.
    + intros H. apply length_zero_iff_nil in H.
      apply (NoDup_count_occ order_key_dec). intros k.
      destruct (in_dec order_key_dec k keys) as [Hin|Hn].
      * assert (S : shared keys k = false).
        { destruct (shared keys k) eqn:E; [|reflexivity].
          assert (Hf : In k (filter (shared keys) keys))
            by (apply filter_In; auto).
          rewrite H in Hf. destruct Hf. }
        unfold shared in S. apply Nat.ltb_ge in S. now rewrite <- occ.
      * apply (count_occ_not_In order_key_dec) in Hn. lia.
    + intros N. apply length_zero_iff_nil. apply filter_none.
      intros k _. unfold shared. apply Nat.ltb_ge. rewrite occ.
      now apply (NoDup_count_occ order_key_dec).
  - intros H.
    destruct (filter (shared keys) keys) as [|k [|k' l]] eqn:F;
      try discriminate.
    assert (Hk : In k (filter (shared keys) keys)) by (rewrite F; now left).
    apply filter_In in Hk. destruct Hk as [_ S].
    unfold shared in S. apply Nat.ltb_lt in S. unfold occurrences in S.
    assert (Hsub : forall x,
               In x (filter (fun k' => RevenueWeather.order_key_eqb k' k) keys) ->
               In x (filter (shared keys) keys)).
    { intros x Hx. apply filter_In in Hx. destruct Hx as [Hx E].
      apply order_key_eqb_eq in E. subst x. apply filter_In. split; auto.
      unfold shared. now apply Nat.ltb_lt. }
    assert (Hall : filter (fun k' => RevenueWeather.order_key_eqb k' k)
                          (filter (shared keys) keys)
                   = filter (fun k' => RevenueWeather.order_key_eqb k' k) keys).
    { rewrite filter_filter. apply filter_ext_in. intros x Hx.
      destruct (RevenueWeather.order_key_eqb x k) eqn:E;
        [|now rewrite andb_false_r].
      rewrite andb_true_r. apply order_key_eqb_eq in E. subst x.
      unfold shared. now apply Nat.ltb_lt. }
    rewrite <- Hall, F in S. cbn [filter List.length] in S.
    destruct (RevenueWeather.order_key_eqb k k); cbn [List.length] in S; lia.
Qed.

Lemma repeat_rows_counts_shared_totals_witness :
  RevenueWeather.repeat_rows
    [(Some (mkts (mkdate 2025 10 1) 0), Some (num_of_Z 5));
     (Some (mkts (mkdate 2025 10 1) 3600), Some (num_of_Z 5));
     (Some (mkts (mkdate 2025 10 2) 0), Some (num_of_Z 5));
     (Some (mkts (mkdate 2025 10 1) 0), Some (num_of_Z 7))]
  = 2.
Proof.
  rewrite (proj1 (repeat_rows_counts_shared_totals
                    [(Some (mkts (mkdate 2025 10 1) 0), Some (num_of_Z 5));
                     (Some (mkts (mkdate 2025 10 1) 3600), Some (num_of_Z 5));
                     (Some (mkts (mkdate 2025 10 2) 0), Some (num_of_Z 5));
                     (Some (mkts (mkdate 2025 10 1) 0), Some (num_of_Z 7))])).
  vm_compute. reflexivity.
Defined.

(* ===================================================================== *)
(** * Further properties of summarize_revenue_weather.py *)
(* ===================================================================== *)

Lemma is_rain_cases (r : Summarize.obs) :
  Summarize.is_rain r = 0%Z \/ Summarize.is_rain r = 1%Z.
Proof.
  unfold Summarize.is_rain.
  destruct (Summarize.rain r) as [x|]; [destruct (num_gtb0 x)|]; auto.
Qed.

Lemma has_rain_group_true k df :
  has_rain_group k df = true <-> exists r, In r df /\ Summarize.is_rain r = k.
Proof.
  unfold has_rain_group. rewrite existsb_exists.
  split; intros [r [Hr E]]; exists r; split; auto; now apply Z.eqb_eq.
Qed.

Lemma has_rain_group_false k df :
  has_rain_group k df = false ->
  forall r, In r df -> Summarize.is_rain r <> k.
Proof.
  intros H r Hr E.
  assert (T : has_rain_group k df = true)
    by (apply has_rain_group_true; eauto).
  congruence.
Qed.

(** The rain summary in every case: two labelled means when the table has
    days of both kinds, the length-mismatch error when it has one kind only
    or no row at all. *)
Lemma rain_summary_cases (df : list Summarize.obs) :
  Summarize.rain_summary df
  = if (has_rain_group 0 df && has_rain_group 1 df)%bool
    then inr [("No Rain",
               mean_skipna (map Summarize.revenue
                                (filter (fun r => Z.eqb (Summarize.is_rain r) 0) df)));
              ("Rain",
               mean_skipna (map Summarize.revenue
                                (filter (fun r => Z.eqb (Summarize.is_rain r) 1) df)))]
    else raise (ValueError
                  (Summarize.length_mismatch
                     (if (has_rain_group 0 df || has_rain_group 1 df)%bool
                      then 1 else 0))).
Proof.
  destruct (has_rain_group 0 df) eqn:H0, (has_rain_group 1 df) eqn:H1;
    cbn [andb orb].
  - apply rain_summary_two_groups; now apply has_rain_group_true.
  - apply has_rain_group_true in H0. destruct H0 as [r0 [Hr0 _]].
    unfold Summarize.rain_summary, groupby.
    rewrite (rain_groups_single df 0%Z).
    + reflexivity.
    + intros ->. destruct Hr0.
    + intros r Hr. destruct (is_rain_cases r) as [E|E]; [exact E|].
      exfalso. apply (has_rain_group_false _ _ H1 r Hr E).
  - apply has_rain_group_true in H1. destruct H1 as [r1 [Hr1 _]].
    unfold Summarize.rain_summary, groupby.
    rewrite (rain_groups_single df 1%Z).
    + reflexivity.
    + intros ->. destruct Hr1.
    + intros r Hr. destruct (is_rain_cases r) as [E|E]; [|exact E].
      exfalso. apply (has_rain_group_false _ _ H0 r Hr E).
  - destruct df as [|r df]; [reflexivity|].
    exfalso. destruct (is_rain_cases r) as [E|E].
    + apply (has_rain_group_false _ _ H0 r (or_introl eq_refl) E).
    + apply (has_rain_group_false _ _ H1 r (or_introl eq_refl) E).
Qed.

(** X13.  [rain_summary] returns exactly when the table has both a day with
    rain above zero and a day without (a day with no rain value counts as
    without): it then gives the mean revenue of the days without rain,
    labelled No Rain, and of the days with rain, labelled Rain.  In every
    other case, the empty table included, it raises the length-mismatch
    error. *)
Theorem rain_summary_returns_iff :
  forall df : list Summarize.obs,
    ((exists s, Summarize.rain_summary df = inr s)
     <-> (exists r, In r df /\ Summarize.is_rain r = 0%Z)
         /\ (exists r, In r df /\ Summarize.is_rain r = 1%Z))
    /\ (forall s,
           Summarize.rain_summary df = inr s ->
           s = [("No Rain",
                 mean_skipna
                   (map Summarize.revenue
                        (filter (fun r => Z.eqb (Summarize.is_rain r) 0) df)));
                ("Rain",
                 mean_skipna
                   (map Summarize.revenue
                        (filter (fun r => Z.eqb (Summarize.is_rain r) 1) df)))])
    /\ (forall e,
           Summarize.rain_summary df = inl e ->
           exists n, n <= 1
                     /\ e = ValueError (Summarize.length_mismatch n)).
Proof.
  intros df. rewrite rain_summary_cases.
  rewrite <- !has_rain_group_true.
  destruct (has_rain_group 0 df), (has_rain_group 1 df); cbn [andb orb];
    (split; [split|split]).
  all: try (intros [s H]; discriminate).
  all: try (intros [? ?]; discriminate).
  all: try (intros s [= <-]; reflexivity).
  all: try (intros s H; discriminate).
  all: try (intros e H; discriminate).
  all: try (intros _; eexists; reflexivity).
  all: try (intros _; split; reflexivity).
  all: try (intros e [= <-]; eexists; split; [|reflexivity]; lia).
Qed.

Lemma rain_summary_returns_iff_witness :
  exists s,
    Summarize.rain_summary
      [Summarize.mk_obs (Some (num_of_Z 100)) (Some (num_of_Z 0));
       Summarize.mk_obs (Some (num_of_Z 80)) (Some (num_of_Z 3));
       Summarize.mk_obs (Some (num_of_Z 120)) None]
    = inr s.
Proof.
  apply (proj1 (rain_summary_returns_iff
                  [Summarize.mk_obs (Some (num_of_Z 100)) (Some (num_of_Z 0));
                   Summarize.mk_obs (Some (num_of_Z 80)) (Some (num_of_Z 3));
                   Summarize.mk_obs (Some (num_of_Z 120)) None])).
  split.
  - exists (Summarize.mk_obs (Some (num_of_Z 100)) (Some (num_of_Z 0))).
    split; [now left|reflexivity].
  - exists (Summarize.mk_obs (Some (num_of_Z 80)) (Some (num_of_Z 3))).
    split; [right; now left|reflexivity].
Defined.

(** X14.  [main] writes both summary files or none: when the rain summary
    raises, the error ends the run before anything is saved, although the
    weekday summary had been computed; when it returns, the weekday summary
    and the rain summary are saved under data/analytics, in that order.  A
    table without a rainy day, such as the revenue-only output of the daily
    script, therefore yields no summary file. *)
Theorem main_saves_both_or_nothing :
  forall (sort_values_desc :
            list (string * option Qc) -> list (string * option Qc))
         (df : list Summarize.row),
    (forall e,
        Summarize.rain_summary (map Summarize.values df) = inl e ->
        Summarize.main sort_values_desc df = inl e)
    /\ (forall s,
           Summarize.rain_summary (map Summarize.values df) = inr s ->
           Summarize.main sort_values_desc df
           = inr [Summarize.mk_summary_file
                    "data/analytics/summary_revenue_by_weekday.csv"
                    (Summarize.weekday_summary sort_values_desc df);
                  Summarize.mk_summary_file
                    "data/analytics/summary_revenue_rain_vs_no_rain.csv" s])
    /\ ((forall r, In r df ->
                   Summarize.is_rain (Summarize.values r) = 0%Z) ->
        exists e, Summarize.main sort_values_desc df = inl e).
Proof.
  intros sort_values_desc df. split; [|split].
  - intros e H. unfold Summarize.main. now rewrite H.
  - intros s H. unfold Summarize.main. now rewrite H.
  - intros H. unfold Summarize.main. rewrite rain_summary_cases.
    assert (W : has_rain_group 1 (map Summarize.values df) = false).
    { destruct (has_rain_group 1 (map Summarize.values df)) eqn:E;
        [|reflexivity].
      apply has_rain_group_true in E. destruct E as [o [Ho E]].
      apply in_map_iff in Ho. destruct Ho as [r [<- Hr]].
      rewrite (H r Hr) in E. discriminate. }
    rewrite W, andb_false_r. cbn [bind raise]. eauto.
Qed.

Lemma main_saves_both_or_nothing_witness :
  exists e,
    Summarize.main sample_sort_values_desc
      [Summarize.mk_row (Some "Wednesday")
                        (Summarize.mk_obs (Some (num_of_Z 100)) None);
       Summarize.mk_row (Some "Thursday")
                        (Summarize.mk_obs (Some (num_of_Z 120)) None)]
    = inl e.
Proof.
  apply (proj2 (proj2 (main_saves_both_or_nothing
                         sample_sort_values_desc
                         [Summarize.mk_row
                            (Some "Wednesday")
                            (Summarize.mk_obs (Some (num_of_Z 100)) None);
                          Summarize.mk_row
                            (Some "Thursday")
                            (Summarize.mk_obs (Some (num_of_Z 120)) None)]))).
  intros r [<-|[<-|[]]]; reflexivity.
Defined.

(** ** The weekday summary *)

Lemma weekday_group (df : list Summarize.row) name :
  group String.eqb
        (map (fun r => (Summarize.weekday_name r,
                        Summarize.revenue (Summarize.values r))) df) name
  = map (fun r => Summarize.revenue (Summarize.values r))
        (filter (on_weekday name) df).
Proof.
  unfold group, keyed, on_weekday.
  induction df as [|r df IH]; [reflexivity|].
  cbn [map flat_map fst snd filter]. rewrite filter_app, map_app, IH.
  destruct (Summarize.weekday_name r) as [n|]; [|reflexivity].
  cbn [filter fst]. destruct (String.eqb n name); reflexivity.
Qed.

Lemma weekday_keys (df : list Summarize.row) name :
  In name (map fst (keyed (map (fun r => (Summarize.weekday_name r,
                                          Summarize.revenue (Summarize.values r)))
                               df)))
  <-> In (Some name) (map Summarize.weekday_name df).
Proof.
  unfold keyed. induction df as [|r df IH]; [reflexivity|].
  cbn [map flat_map fst snd]. rewrite map_app, in_app_iff, IH. cbn [In].
  destruct (Summarize.weekday_name r) as [n|]; cbn [map In fst]; split.
  - intros [[->|[]]|H]; auto.
  - intros [[= ->]|H]; auto.
  - intros [[]|H]; auto.
  - intros [H|H]; [discriminate|auto].
Qed.

(** X15.  Whatever order [sort_values] gives to equal means, as long as it
    only reorders the entries: the weekday summary has one entry per weekday
    name that occurs in the table and no other, and the value of an entry
    is the mean revenue of the rows of that weekday, rows without a revenue
    left out (missing when none has one).  Rows without a weekday name
    belong to no entry. *)
Theorem weekday_summary_spec :
  forall (sort_values_desc :
            list (string * option Qc) -> list (string * option Qc)),
    (forall l, Permutation (sort_values_desc l) l) ->
    forall df : list Summarize.row,
      let summary := Summarize.weekday_summary sort_values_desc df in
      NoDup (map fst summary)
      /\ (forall name,
             In name (map fst summary)
             <-> In (Some name) (map Summarize.weekday_name df))
      /\ (forall name m,
             In (name, m) summary ->
             m = mean_skipna
                   (map (fun r => Summarize.revenue (Summarize.values r))
                        (filter (on_weekday name) df))).
Proof.
  intros sort_values_desc Hperm df summary.
  set (rows := map (fun r => (Summarize.weekday_name r,
                              Summarize.revenue (Summarize.values r))) df).
  set (means := map (fun g : string * list (option Qc) =>
                       (fst g, mean_skipna (snd g)))
                    (groupby String.eqb String.leb rows)).
  assert (P : Permutation summary means) by apply Hperm.
  assert (K : map fst means = group_keys String.eqb String.leb rows).
  { unfold means, groupby. rewrite !map_map. cbn [fst]. apply map_id. }
  split; [|split].
  - apply (Permutation_NoDup (l := map fst means)).
    + apply Permutation_map. now symmetry.
    + rewrite K. apply (group_keys_NoDup String.eqb String.leb String.eqb_eq).
  - intros name. rewrite <- weekday_keys. fold rows.
    rewrite <- (group_keys_In String.eqb String.leb String.eqb_eq), <- K.
    split; apply Permutation_in; apply Permutation_map;
      [exact P|now symmetry].
  - intros name m H. apply (Permutation_in _ P) in H.
    unfold means, groupby in H. rewrite map_map in H. cbn [fst snd] in H.
    apply in_map_iff in H. destruct H as [k [[= -> <-] _]].
    unfold rows. now rewrite weekday_group.
Qed.

Lemma weekday_summary_spec_witness :
  In "Wednesday"
     (map fst
          (Summarize.weekday_summary sample_sort_values_desc
             [Summarize.mk_row (Some "Wednesday")
                               (Summarize.mk_obs (Some (num_of_Z 100)) None);
              Summarize.mk_row None
                               (Summarize.mk_obs (Some (num_of_Z 90)) None);
              Summarize.mk_row (Some "Friday")
                               (Summarize.mk_obs (Some (num_of_Z 120)) None)])).
Proof.
  apply (proj1 (proj2 (weekday_summary_spec
                         sample_sort_values_desc
                         (fun l => sorted_perm
                                     (fun e : string * option Qc => snd e)
                                     value_geb l)
                         [Summarize.mk_row
                            (Some "Wednesday")
                            (Summarize.mk_obs (Some (num_of_Z 100)) None);
                          Summarize.mk_row
                            None
                            (Summarize.mk_obs (Some (num_of_Z 90)) None);
                          Summarize.mk_row
                            (Some "Friday")
                            (Summarize.mk_obs (Some (num_of_Z 120)) None)]))).
  cbn. auto.
Defined.
